(* ===== verification/_CoqProject ===== *)
-Q . S2P
Prelude.v
Python.v
Dotenv.v
Json.v
Sorting.v
Keywords.v
Utils.v
Clients.v
Prompts.v
Scoring.v
Service.v
CacheSpec.v
Concurrency.v
History.v
Dashboard.v
Site.v
