(* ===== verification/Prelude.v ===== *)
(** * A verification library for rsgrisk, the ESG risk-profile service

    The program (Python, under [src/]) answers "what is the ESG risk of
    company X" for an authenticated user.  The dashboard view takes a
    company name, asks the profile service for a profile (from the cache,
    or built from an overview, a web search for articles and an analysis
    of them, each backed by an OpenAI oracle with fallbacks), and records
    the search in the user's history.  Its parts, leaf first, and the
    file of this library that models each of them:

    - [Prelude.v] (this file): the error monad [res] in which every
      modelled function returns, with the exceptions it can carry
      ([exn]: [ESGServiceError] of [src/esg/exceptions.py] and the Python
      exceptions the code can raise); the predicate [raises_only] for
      "only these exceptions escape"; shared list lemmas; the tactics
      [res_simpl] and [raises_step]; the hint databases [esg], [esg_rw].
    - [Python.v]: the part of the Python runtime the code leans on:
      JSON-shaped values ([pyval]) with Python truthiness, [float()],
      [==] and hashing as used by set membership, [dict.get], iteration;
      floats ([pyfloat]: exact rationals plus the infinities and NaN);
      aware and naive [datetime]s and the [TypeError] their comparison
      raises; [str.strip], [str.lower], [in], [find]/[rfind] on Latin-1
      strings.  The external libraries the code calls (hashlib.sha1,
      json.loads, dateutil or its [fromisoformat] fallback, strftime,
      float parsing) are type classes
      ([Sha1], [JsonCodec], [DateLib], [FloatLib]): every theorem holds
      for any instance; the witnesses use small sample instances.
    - [Dotenv.v]: what importing [src/esg/clients.py] does to the
      environment (lines 18-23): [.env] is loaded with python-dotenv's
      [load_dotenv], written out, and a [PermissionError] is swallowed.
    - [Json.v]: [json.dumps] as the analysis prompt calls it, written
      out from CPython's encoder ([ensure_ascii], [allow_nan], the default
      separators; [float.__repr__] of a finite float is the class
      [FloatRepr]), and a decoder of the text it writes ([parse_value],
      fuelled by the length of the text).
    - [Sorting.v]: Python's [sorted(..., key=k, reverse=True)] as a
      stable descending insertion sort [sort_desc], with the proof that
      it is the only stable descending permutation, which is why it may
      stand for timsort.
    - [Keywords.v]: [src/esg/keywords.py], the ESG keyword taxonomy.
    - [Utils.v]: [src/esg/utils.py]: [normalize_company_name],
      [make_cache_key], [safe_parse_datetime], [ensure_aware],
      [isoformat], [detect_esg_aspects], [deduplicate_articles],
      [take_latest].
    - [Clients.v]: [src/esg/clients.py]: the oracle (a record: whether
      [openai] imported, the [OPENAI_API_KEY] setting, and its answer or
      failure per prompt; [openai_available] is the code's test of the
      first two) and the monad [M]
      of computations that send prompts, logged in order; the JSON
      extraction chain [_parse_articles_payload] (direct parse, fenced
      blocks found by the regex of line 116, brace slice) and
      [fetch_articles].
    - [Prompts.v]: what is sent for each request the oracle answers:
      the messages, tools and output bound of the web search of
      [fetch_articles] (the limit, the company, [LOOKBACK_DAYS] and the
      sorted keyword list written into its prompts), and of the overview
      and analysis requests of [_execute_openai_prompt] (a system message
      only for a truthy system prompt; the article payload embedded with
      [json.dumps]).
    - [Scoring.v]: the scoring half of [ESGService] in
      [src/esg/services.py]: [_coerce_score], [_calculate_weighted_score],
      [_compute_overall_score], [_sort_items_by_score],
      [_normalize_item_structure], [_analyse_with_heuristics],
      [_execute_openai_prompt], [_analyse_with_openai],
      [_analyse_articles].
    - [Service.v]: the profile half of [ESGService]:
      [_fetch_company_overview], [_build_profile] and
      [get_company_esg_profile] over an explicit service state (the
      Django cache as a [gmap] from key to profile and expiry instant,
      modelled from Django's documented semantics; the log of prompts).
    - [CacheSpec.v]: an abstract specification of the profile cache (the
      history of successful builds; a key is answered by its most recent
      build while younger than the timeout), the refinement of it by
      [get_company_esg_profile] over runs of requests, and the expiry of
      every entry.
    - [Concurrency.v]: concurrent requests (Django serves several at
      once; the spec accepts the race).  [get_company_esg_profile] is cut
      into its three steps on the shared state ([cache.get],
      [_build_profile], [cache.set]), each request is a thread with its
      phase, and a scheduler step runs one step of one thread; [run]
      follows a schedule.
    - [History.v]: [src/esg/history.py] over the [SearchHistory] table of
      [src/dashboard/models.py], a list of rows in insertion order, and
      the table's [__str__].
    - [Dashboard.v]: [src/dashboard/views.py] and the validation of
      [CompanySearchForm] ([src/dashboard/forms.py]): [dashboard_view]
      and [_handle_company_search] over the service state and the
      history table together.
    - [Site.v]: the whole site: [src/accounts/views.py] (sign-up, which
      saves the user and logs them in; sign-in), [@login_required] and
      [redirect_to_dashboard], over one state holding the dashboard's
      state, the accounts and the sessions; [site_handle] answers a
      request and [site_reachable] collects the states a sequence of
      requests reaches from the empty site.

    What the theorems show, by group (the claims of PROJECT.json name
    them; each file's header lists its own):
    - scoring: weighted score formula and range; every coerced and
      normalized score in [[0, 100]] or an [OverflowError] for a huge
      integer; the heuristic's 70/0 scores and its sorted, stable
      analysis whose overall is the rounded mean of the item scores; the fallback to the heuristic exactly on
      [ESGServiceError]; a non-object report, a NaN score, a verbatim
      [overall_score];
    - articles: soft failure of [fetch_articles], the bounded, newest
      first, duplicate-free result, the extraction chain (direct parse,
      then the first fenced block that decodes, then the brace slice),
      and the two ways a fetch raises (one dated and one undated item,
      a non-object answer);
    - service: cache hit, time to live, the invariant that every cached
      profile is well formed, the order of oracle requests (the analysis
      request sent exactly when the web search found articles), the
      articles the analysis request carries (at most [max_items]), the zero
      profile, and that no [ESGServiceError] leaves the service;
    - cache discipline: runs of requests from an empty cache get the
      answers of the build-history specification (refinement), and from
      any state there is an instant after which every run of requests
      gets the answers of that specification started from no build, so
      no entry outlives its timeout, hits included (liveness);
    - concurrency: two requests for one key that both miss both
      rebuild, and the cache keeps the later store (the accepted race);
    - configuration: without the [openai] package or with a falsy
      [OPENAI_API_KEY] a request that misses the cache sends nothing to
      the model and stores the zero-score profile with the placeholder
      overview (the spec's soft degradation); the import of
      [clients.py] never lets [PermissionError] escape and never
      overrides a variable already set, but a [.env] that is not UTF-8
      makes it raise;
    - requests: the analysis request's payload decodes back to the
      articles' fields, in order (round trip, given the laws of
      [float.__repr__]);
    - display dates: [_format_display_date] returns a string exactly on
      falsy or string input, ["N/A"] for a falsy one, and passes any
      other truthy value through unchanged (type);
    - site: the invariant of every reachable state (well-formed cache,
      unique positive account ids, sessions and history rows owned by
      accounts, normalized names), the append-only history written only
      for the authenticated user, pages that list only the searches of
      the user their session authenticates;
    - history and dashboard: [record_search] and [get_recent_searches]
      (distinct names up to case, newest first, the limit, equivalence
      with a reference cut to [max(1, limit)] rows), and the view's
      success and error behaviour.

    Bounds and fuel: two functions are fuelled.  The fenced-block scan
    [findall_fenced_fuel] gets [|s| + 1] steps, and
    [findall_fenced_fuel_enough] (a lemma on the model, not a claim)
    proves any larger fuel gives the same blocks, since each step
    consumes a character.  The JSON decoder [parse_value] (a
    specification device, not code of the program) gets the length of
    its text; [json_size_le_length] shows that is at least the
    [json_size] the value needs, so the payload round trip is proved
    with that fuel, not under a hypothesis on it.  All other recursion
    is structural.  Integers are unbounded [Z] as in Python; the one
    width that matters, the float range, is written out
    ([float_overflows]: an [int] of magnitude at least [2^1024 - 2^970]
    raises [OverflowError] in [float()]).

    Modelling choices that hold throughout:
    - Python floats are exact rationals ([Q]) extended with +inf, -inf
      and NaN; the rounding of IEEE addition and division is not
      modelled, and [round(x, 2)] is round-half-even of the exact value
      at two decimals.
    - Strings are sequences of Latin-1 code points (Stdlib [string]);
      [str.lower] and [str.isspace] are modelled exactly on that range.
    - Exceptions are values: [Err e] is the exception [e] escaping the
      function; a [try/except] is a [match] on the result.
    - Time is an integer instant given to each operation ([now]); one
      request reads one instant ([utcnow()] and [timezone.now()] alike).
    - Django behaviour the views rely on, whose code is not in the
      repository, is modelled from its documentation and marked so in
      the manifest: the cache ([cache_get], [cache_set]), sessions and
      [login], the auto-increment user id, the sign-up form's username
      check ([accounts/forms.py] is absent), URL routing ([urls.py] is
      absent).
    - Not modelled: password hashing and checking (an input of the
      sign-in request), templates and the messages framework beyond the
      page record and its list of messages, the ORM beyond the one query
      of [history.py] ([Meta.ordering] and the indexes of [SearchHistory]
      change nothing the code computes, since that query orders
      explicitly), the model name setting sent with every request, how
      the settings module (not in the repository) reads the environment,
      logging. *)

From Stdlib Require Export QArith Lqa ZArith Ascii String.
From stdpp Require Export base list strings gmap.
From Stdlib Require Export Sorted.
Close Scope Q_scope.

Declare Scope esg_scope.
Delimit Scope esg_scope with esg.

(** ** Exceptions and the error monad *)

(** The exception classes the modelled code raises or lets escape. *)
Inductive exn :=
  | ESGServiceError (msg : string)
  | JSONDecodeError
  | TypeError
  | AttributeError
  | ValueError
  | OverflowError
  | PermissionError
  | UnicodeDecodeError
  | OSError.

Inductive res (A : Type) : Type :=
  | Ok (a : A)
  | Err (e : exn).
Arguments Ok {A} _.
Arguments Err {A} _.

#[export] Instance res_ret : MRet res := λ A a, Ok a.
#[export] Instance res_bind : MBind res :=
  λ A B f m, match m with Ok a => f a | Err e => Err e end.
#[export] Instance res_fmap : FMap res :=
  λ A B f m, match m with Ok a => Ok (f a) | Err e => Err e end.

(** [raise e] *)
Notation "'raise' e" := (Err e) (at level 10) : esg_scope.

(** Run [f] on every element, stopping at the first exception, as a
    Python [for] loop or list comprehension does. *)
Fixpoint res_map {A B} (f : A → res B) (l : list A) : res (list B) :=
  match l with
  | [] => Ok []
  | x :: l' => y ← f x; ys ← res_map f l'; mret (y :: ys)
  end.

Definition is_ok {A} (r : res A) : bool :=
  match r with Ok _ => true | Err _ => false end.

(** ** Generic lemmas *)

Lemma bind_Ok {A B} (m : res A) (f : A → res B) (b : B) :
  (m ≫= f) = Ok b ↔ ∃ a, m = Ok a ∧ f a = Ok b.
Proof.
  destruct m as [a|e]; simpl; split.
  - intros H; eauto.
  - intros (a' & Ha & Hf); congruence.
  - discriminate.
  - intros (a' & Ha & _); discriminate.
Qed.

Lemma bind_Err {A B} (m : res A) (f : A → res B) e :
  m = Err e → (m ≫= f) = Err e.
Proof. intros ->; reflexivity. Qed.

Lemma res_map_length {A B} (f : A → res B) l l' :
  res_map f l = Ok l' → length l' = length l.
Proof.
  revert l'; induction l as [|x l IH]; simpl; intros l' H.
  - by injection H as <-.
  - destruct (f x) as [y|e]; simpl in H; [|discriminate].
    destruct (res_map f l) as [ys|e]; simpl in H; [|discriminate].
    injection H as <-; simpl; f_equal; by apply IH.
Qed.

Lemma res_map_Forall2 {A B} (f : A → res B) l l' :
  res_map f l = Ok l' → Forall2 (λ x y, f x = Ok y) l l'.
Proof.
  revert l'; induction l as [|x l IH]; simpl; intros l' H.
  - injection H as <-; constructor.
  - destruct (f x) as [y|e] eqn:Hx; simpl in H; [|discriminate].
    destruct (res_map f l) as [ys|e]; simpl in H; [|discriminate].
    injection H as <-; constructor; auto.
Qed.

(** Every element of a successful [res_map] comes from one element of
    the input, so a property of [f]'s results lifts to the list. *)
Lemma res_map_Forall {A B} (f : A → res B) (P : B → Prop) l l' :
  (∀ x y, f x = Ok y → P y) → res_map f l = Ok l' → Forall P l'.
Proof.
  intros HP H%res_map_Forall2.
  induction H; constructor; eauto.
Qed.

Lemma filter_none {A} (f : A → bool) (l : list A) :
  (∀ z, z ∈ l → f z = false) → List.filter f l = [].
Proof.
  induction l as [|x l IH]; intros H; simpl; [done|].
  rewrite H by left. apply IH. intros z Hz. apply H. by right.
Qed.

(** [r] raises only exceptions satisfying [P]. *)
Definition raises_only {A} (P : exn → Prop) (r : res A) : Prop := ∀ e, r = Err e → P e.

Lemma raises_only_ret {A} P (a : A) : raises_only P (mret a).
Proof. by intros e. Qed.

Lemma raises_only_bind {A B} P (m : res A) (f : A → res B) :
  raises_only P m → (∀ a, m = Ok a → raises_only P (f a)) → raises_only P (m ≫= f).
Proof.
  intros Hm Hf e. destruct m as [a|e']; simpl; [by apply Hf|].
  intros [= <-]. by apply Hm.
Qed.

Lemma raises_only_weaken {A} (P Q : exn → Prop) (r : res A) :
  (∀ e, P e → Q e) → raises_only P r → raises_only Q r.
Proof. intros HPQ Hr e He. by apply HPQ, Hr. Qed.

Lemma raises_only_res_map {A B} P (f : A → res B) l :
  (∀ x, raises_only P (f x)) → raises_only P (res_map f l).
Proof.
  intros Hf. induction l as [|x l IH]; simpl; [by intros e|].
  apply raises_only_bind; [done|]. intros y _. apply raises_only_bind; [done|].
  intros ys _. by intros e.
Qed.

Lemma StronglySorted_sublist {A} (R : A → A → Prop) l1 l2 :
  l1 `sublist_of` l2 → StronglySorted R l2 → StronglySorted R l1.
Proof.
  induction 1 as [|x l1 l2 Hs IH|x l1 l2 Hs IH]; intros H2; [done| |].
  - apply StronglySorted_inv in H2 as [H2 Hall]. constructor; [by apply IH|].
    rewrite Forall_forall in Hall |- *. intros y Hy. apply Hall.
    by eapply elem_of_sublist.
  - apply StronglySorted_inv in H2 as [H2 _]. by apply IH.
Qed.

Lemma StronglySorted_map {A B} (R : B → B → Prop) (f : A → B) l :
  StronglySorted (λ x y, R (f x) (f y)) l → StronglySorted R (map f l).
Proof.
  induction 1 as [|x l Hl IH Hall]; simpl; constructor; [done|].
  by apply Forall_map.
Qed.

(** ** Automation *)

Create HintDb esg discriminated.
Create Rewrite HintDb esg_rw.

(** Unfold one layer of the error monad in the goal and in hypotheses. *)
Ltac res_simpl :=
  repeat match goal with
  | H : mret _ = Ok _ |- _ => injection H as H
  | H : Ok _ = Ok _ |- _ => injection H as H
  | H : Ok _ = Err _ |- _ => discriminate H
  | H : Err _ = Ok _ |- _ => discriminate H
  | H : (?m ≫= _) = Ok _ |- _ =>
      let a := fresh "a" in let Ha := fresh "Hm" in
      apply bind_Ok in H as (a & Ha & H)
  end.

#[export] Hint Resolve res_map_length raises_only_ret : esg.

(** Split a chain of binds into the exceptions of each step. *)
Ltac raises_step :=
  repeat first
    [ apply raises_only_ret
    | apply raises_only_bind; [|intros ? ?] ].

Lemma StronglySorted_weaken {A} (R R' : A → A → Prop) l :
  (∀ x y, R x y → R' x y) → StronglySorted R l → StronglySorted R' l.
Proof.
  intros HR. induction 1; constructor; [done|]. eapply Forall_impl; [eassumption|]. eauto.
Qed.

(** A strongly sorted list cut in two: both halves are sorted and every
    element of the first half is related to every element of the second. *)
Lemma StronglySorted_app_inv {A} (R : A → A → Prop) l1 l2 :
  StronglySorted R (l1 ++ l2) →
  StronglySorted R l1 ∧ StronglySorted R l2 ∧ ∀ x y, x ∈ l1 → y ∈ l2 → R x y.
Proof.
  induction l1 as [|a l1 IH]; simpl; intros H.
  - split; [constructor|]. split; [done|]. intros x y Hx; by apply not_elem_of_nil in Hx.
  - apply StronglySorted_inv in H as [H Hall].
    destruct (IH H) as (H1 & H2 & H12). rewrite Forall_app in Hall.
    destruct Hall as [Hall1 Hall2].
    split; [by constructor|]. split; [done|].
    intros x y [->|Hx]%elem_of_cons Hy; [|by apply H12].
    rewrite Forall_forall in Hall2. by apply Hall2.
Qed.
