(* ===== verification/Python.v ===== *)
(** * The Python runtime the ESG code relies on

    JSON-shaped values as the code receives them from [json.loads] and
    [dict.get], with the truthiness, [float()], equality and hashing
    rules the code depends on; floats; aware and naive datetimes; the
    string methods on Latin-1 text.  The external libraries are type
    classes: a theorem proved here holds for every implementation of
    them. *)

From S2P Require Import Prelude.

(** ** Floats *)

(** A Python float: its exact value, or one of the non-finite values. *)
Inductive pyfloat :=
  | Fin (q : Q)
  | PInf
  | NInf
  | NaN.

(** Python's [<] on floats: every comparison with NaN is false. *)
Definition pyfloat_lt (a b : pyfloat) : bool :=
  match a, b with
  | Fin x, Fin y => negb (Qle_bool y x)
  | NInf, (Fin _ | PInf) => true
  | Fin _, PInf => true
  | _, _ => false
  end.

(** ** Values *)

#[local] Set Warnings "-register-all".

(** A value as [json.loads] builds it: dict keys are strings. *)
Inductive pyval :=
  | PNone
  | PBool (b : bool)
  | PInt (z : Z)
  | PFloat (f : pyfloat)
  | PStr (s : string)
  | PList (l : list pyval)
  | PDict (kvs : list (string * pyval)).

(** [bool(v)]. *)
Definition truthy (v : pyval) : bool :=
  match v with
  | PNone => false
  | PBool b => b
  | PInt z => negb (Z.eqb z 0)
  | PFloat (Fin q) => negb (Qeq_bool q 0)
  | PFloat _ => true
  | PStr s => negb (String.eqb s "")
  | PList l => negb (Nat.eqb (length l) 0)
  | PDict kvs => negb (Nat.eqb (length kvs) 0)
  end.

(** [a or b]. *)
Definition py_or (a b : pyval) : pyval := if truthy a then a else b.

(** [d.get(k, default)] on a dict; the first binding of [k] wins (the
    decoder leaves one binding per key). *)
Fixpoint assoc_get (k : string) (kvs : list (string * pyval)) : option pyval :=
  match kvs with
  | [] => None
  | (k', v) :: kvs' => if String.eqb k k' then Some v else assoc_get k kvs'
  end.

(** [v.get(k, default)]: only a dict has [.get]. *)
Definition py_get (v : pyval) (k : string) (default : pyval) : res pyval :=
  match v with
  | PDict kvs => Ok (match assoc_get k kvs with Some x => x | None => default end)
  | _ => Err AttributeError
  end.

(** [for x in v]: a list yields its elements, a dict its keys, a string
    its one-character strings; the other values are not iterable. *)
Definition py_iter (v : pyval) : res (list pyval) :=
  match v with
  | PList l => Ok l
  | PDict kvs => Ok (map (λ kv, PStr kv.1) kvs)
  | PStr s => Ok (map (λ c, PStr (String c EmptyString)) (list_ascii_of_string s))
  | _ => Err TypeError
  end.

(** ** [float(v)] *)

(** The external float parser behind [float(str)]; [None] is the
    [ValueError] it raises. *)
Class FloatLib := { float_of_string : string → option pyfloat }.

(** [float(n)] on an int raises [OverflowError] once [n] rounds past
    the largest double, i.e. from 2^1024 - 2^970 on. *)
Definition float_overflows (z : Z) : bool :=
  Z.leb (2 ^ 1024 - 2 ^ 970) (Z.abs z).

Definition py_float `{FloatLib} (v : pyval) : res pyfloat :=
  match v with
  | PNone => Err TypeError
  | PBool b => Ok (Fin (if b then 1 else 0)%Q)
  | PInt z => if float_overflows z then Err OverflowError else Ok (Fin (inject_Z z))
  | PFloat f => Ok f
  | PStr s => match float_of_string s with Some f => Ok f | None => Err ValueError end
  | PList _ | PDict _ => Err TypeError
  end.

(** ** Equality and hashing, as [x in some_set] uses them *)

Definition num_of (v : pyval) : option pyfloat :=
  match v with
  | PBool b => Some (Fin (if b then 1 else 0)%Q)
  | PInt z => Some (Fin (inject_Z z))
  | PFloat f => Some f
  | _ => None
  end.

(** [json.loads] decodes every [NaN] literal to one shared float object
    and set membership tests identity before [==], so two decoded NaNs
    are the same set element. *)
Definition pyfloat_eqb (a b : pyfloat) : bool :=
  match a, b with
  | Fin x, Fin y => Qeq_bool x y
  | PInf, PInf | NInf, NInf | NaN, NaN => true
  | _, _ => false
  end.

Definition py_eqb (a b : pyval) : bool :=
  match num_of a, num_of b with
  | Some x, Some y => pyfloat_eqb x y
  | None, None =>
      match a, b with
      | PNone, PNone => true
      | PStr s, PStr t => String.eqb s t
      | _, _ => false
      end
  | _, _ => false
  end.

Definition hashable (v : pyval) : bool :=
  match v with PList _ | PDict _ => false | _ => true end.

(** [x in seen] for a set [seen] kept as the list of its elements. *)
Definition set_mem (x : pyval) (seen : list pyval) : res bool :=
  if hashable x then Ok (existsb (py_eqb x) seen) else Err TypeError.

(** ** Datetimes *)

(** A naive datetime carries its wall-clock reading; an aware one its
    UTC instant (aware datetimes compare by instant whatever their
    offset). *)
Inductive datetime :=
  | Naive (t : Z)
  | Aware (t : Z).

Definition dt_aware (d : datetime) : bool :=
  match d with Aware _ => true | Naive _ => false end.

Definition dt_stamp (d : datetime) : Z :=
  match d with Aware t | Naive t => t end.

(** [a < b]: comparing a naive with an aware datetime raises. *)
Definition dt_lt (a b : datetime) : res bool :=
  match a, b with
  | Naive x, Naive y | Aware x, Aware y => Ok (Z.ltb x y)
  | _, _ => Err TypeError
  end.

(** dateutil's parser and the datetime parsing and formatting methods:
    [dateutil_parser] is [parser.parse], or [None] when
    [from dateutil import parser] failed and utils.py set [parser = None];
    [fromisoformat] is [datetime.fromisoformat].  A parser that raises
    answers [None]. *)
Class DateLib := {
  dateutil_parser : option (string → option datetime);
  fromisoformat : string → option datetime;
  iso_of_aware : Z → string;
  strftime_date : datetime → string;
  strftime_generated : datetime → string
}.

(** ** Strings *)

(** [str.isspace] on one Latin-1 code point. *)
Definition is_space (c : ascii) : bool :=
  let n := nat_of_ascii c in
  ((9 <=? n) && (n <=? 13)) || ((28 <=? n) && (n <=? 32))
  || (n =? 133) || (n =? 160).

(** [str.lower] on one Latin-1 code point. *)
Definition char_lower (c : ascii) : ascii :=
  let n := nat_of_ascii c in
  if ((65 <=? n) && (n <=? 90)) || ((192 <=? n) && (n <=? 222) && negb (n =? 215))
  then ascii_of_nat (n + 32) else c.

Fixpoint str_lower (s : string) : string :=
  match s with
  | EmptyString => EmptyString
  | String c s' => String (char_lower c) (str_lower s')
  end.

Fixpoint lstrip (s : string) : string :=
  match s with
  | EmptyString => EmptyString
  | String c s' => if is_space c then lstrip s' else s
  end.

Fixpoint rstrip (s : string) : string :=
  match s with
  | EmptyString => EmptyString
  | String c s' =>
      let r := rstrip s' in
      if is_space c && String.eqb r "" then EmptyString else String c r
  end.

(** [s.strip()]. *)
Definition py_strip (s : string) : string := rstrip (lstrip s).

(** [needle in hay]. *)
Fixpoint py_contains (needle hay : string) : bool :=
  String.prefix needle hay ||
  match hay with
  | EmptyString => false
  | String _ hay' => py_contains needle hay'
  end.

(** [s.find(c)] and [s.rfind(c)] for a one-character [c]: -1 when absent. *)
Fixpoint find_char (c : ascii) (s : string) : Z :=
  match s with
  | EmptyString => -1
  | String d s' =>
      if Ascii.eqb c d then 0 else
      let r := find_char c s' in if Z.eqb r (-1) then -1 else r + 1
  end.

Fixpoint rfind_char (c : ascii) (s : string) : Z :=
  match s with
  | EmptyString => -1
  | String d s' =>
      let r := rfind_char c s' in
      if Z.eqb r (-1) then (if Ascii.eqb c d then 0 else -1) else r + 1
  end.

(** The rest of [s] after the prefix [p], if [s.startswith(p)]. *)
Fixpoint strip_prefix (p s : string) : option string :=
  match p, s with
  | EmptyString, _ => Some s
  | String a p', String b s' => if Ascii.eqb a b then strip_prefix p' s' else None
  | String _ _, EmptyString => None
  end.

(** [s[i:j]] for 0 <= i <= j. *)
Definition str_slice (s : string) (i j : Z) : string :=
  substring (Z.to_nat i) (Z.to_nat j - Z.to_nat i) s.

Lemma str_app_inv_l (p x y : string) : (p ++ x)%string = (p ++ y)%string → x = y.
Proof. induction p as [|c p IH]; simpl; [done|]. intros H; injection H; apply IH. Qed.

Lemma pyfloat_eqb_trans x y z :
  pyfloat_eqb x y = true → pyfloat_eqb y z = true → pyfloat_eqb x z = true.
Proof. destruct x, y, z; simpl; try done. apply Qeq_bool_trans. Qed.

(** [==] restricted to hashable values is transitive: the set of a
    deduplication pass behaves as a set of equivalence classes. *)
Lemma py_eqb_trans a b c : py_eqb a b = true → py_eqb b c = true → py_eqb a c = true.
Proof.
  unfold py_eqb.
  destruct (num_of a) as [x|] eqn:Ha, (num_of b) as [y|] eqn:Hb, (num_of c) as [z|] eqn:Hc;
    try done; [apply pyfloat_eqb_trans|].
  destruct a, b, c; simpl in *; try done.
  intros ->%String.eqb_eq. done.
Qed.

Lemma py_eqb_refl v : hashable v = true → py_eqb v v = true.
Proof.
  intros Hh. destruct v as [|b|z|[q| | |]|s| |]; unfold py_eqb; simpl; try done.
  1-3: apply Qeq_bool_refl.
  apply String.eqb_refl.
Qed.

Lemma py_get_raises v k d : raises_only (λ e, e = AttributeError) (py_get v k d).
Proof. destruct v; intros e [= <-]; done. Qed.

Lemma py_iter_raises v : raises_only (λ e, e = TypeError) (py_iter v).
Proof. destruct v; intros e [= <-]; done. Qed.
