(* ===== verification/Dotenv.v ===== *)
(** * Loading [.env] when [src/esg/clients.py] is imported

    Lines 18-23 of [clients.py] run once, at import:

      dotenv_path = Path(getattr(settings, 'BASE_DIR', '.')) / '.env'
      try:
          if dotenv_path.exists():
              load_dotenv(dotenv_path)
      except PermissionError:
          pass

    The environment [os.environ] is a [gmap] from name to value.  The
    file system is a record of the two calls that touch it, each of
    which may raise: [Path.exists] (an [OSError] other than a missing
    file, a permission error included, propagates) and python-dotenv's
    reading of the file (UTF-8; a path that is not a regular file reads
    as empty, an unreadable one raises [PermissionError], bytes that are
    not UTF-8 raise [UnicodeDecodeError]), which yields the file's
    assignments in order, a line [NAME] without [=] giving no value.
    [load_dotenv] is written out from python-dotenv: the assignments
    become a dict (the last one of a name wins), and each name not
    already in the environment is set to its value, when it has one
    ([override=False]).

    Theorems: the import never lets [PermissionError] escape, and then
    leaves the environment as it was; otherwise it keeps every variable
    already set and adds each new name at the value of its last
    assignment in the file; a file that is not UTF-8 makes the import
    raise. *)

From S2P Require Import Prelude Python.

Abbreviation environ := (gmap string string).

(** [Path(base) / '.env'], as its directory and file name. *)
Definition dotenv_path (BASE_DIR : option string) : string * string :=
  (default "." BASE_DIR, ".env").

Record filesystem := {
  path_exists : string * string → res bool;
  read_dotenv : string * string → res (list (string * option string))
}.

(** [DotEnv.dict()]: a Python dict built in file order. *)
Definition dotenv_dict (kvs : list (string * option string)) : gmap string (option string) :=
  foldl (λ m kv, <[kv.1 := kv.2]> m) ∅ kvs.

(** [set_as_environment_variables] with [override=False]: a name
    already in [os.environ] is skipped, a name without value is not
    set; the names of the dict are distinct, so the order of the loop
    does not matter. *)
Definition load_dotenv (env : environ) (kvs : list (string * option string)) : environ :=
  env ∪ omap id (dotenv_dict kvs).

(** The import of [clients.py], lines 18-23: the new environment. *)
Definition import_dotenv (fs : filesystem) (BASE_DIR : option string) (env : environ) : res environ :=
  let path := dotenv_path BASE_DIR in
  let body : res environ :=
    path_exists fs path ≫= λ found : bool,
    if found then read_dotenv fs path ≫= λ kvs : list (string * option string), mret (load_dotenv env kvs) else mret env in
  match body with
  | Err PermissionError => Ok env
  | r => r
  end.

(** The reference: the value of the last assignment of [k]. *)
Definition last_assignment (kvs : list (string * option string)) (k : string) : option (option string) :=
  last (map snd (filter (λ kv, kv.1 = k) kvs)).

(** ** Lemmas *)

(** The dict of the assignments maps each name to its last value. *)
Lemma dotenv_dict_last kvs k : dotenv_dict kvs !! k = last_assignment kvs k.
Proof.
  unfold dotenv_dict, last_assignment. induction kvs as [|kv kvs IH] using rev_ind; [done|].
  rewrite foldl_app, filter_app. simpl. rewrite filter_cons, filter_nil.
  destruct (decide (kv.1 = k)) as [<-|Hne].
  - rewrite lookup_insert_eq, map_app. simpl. by rewrite last_snoc.
  - by rewrite lookup_insert_ne, app_nil_r.
Qed.

Lemma load_dotenv_lookup env kvs k v :
  load_dotenv env kvs !! k = Some v ↔
  env !! k = Some v ∨ (env !! k = None ∧ last_assignment kvs k = Some (Some v)).
Proof.
  unfold load_dotenv. rewrite lookup_union_Some_raw, lookup_omap, dotenv_dict_last.
  destruct (env !! k), (last_assignment kvs k) as [[v'|]|]; simpl; split;
    intros; destruct_or?; destruct_and?; simplify_eq; auto.
Qed.

Lemma load_dotenv_keeps env kvs : env ⊆ load_dotenv env kvs.
Proof. apply map_union_subseteq_l. Qed.

(** The [except PermissionError] around an operation that raised. *)
Lemma import_error_cases (env : environ) e (Q : string → string → Prop) :
  raises_only (λ e, e ≠ PermissionError)
    (match e with PermissionError => Ok env | _ => Err e end) ∧
  ∀ env', match e with PermissionError => Ok env | _ => Err e end = Ok env' →
    env ⊆ env' ∧ ∀ k v, env' !! k = Some v → env !! k = None → Q k v.
Proof.
  destruct e; simpl; split; try (by intros ? [= <-]); try (by intros ? [=]).
  intros env' [= <-]. split; [done|]. intros k v Hk Hn. congruence.
Qed.

(** ** Theorems *)

(** C30: importing [clients.py] never lets a [PermissionError] escape,
    and on one leaves the environment as it was; when it returns, every
    variable already set keeps its value, and a variable it adds comes
    from the [.env] file it read, at the value of the last assignment of
    that name. *)
Theorem import_dotenv_spec fs BASE_DIR env :
  raises_only (λ e, e ≠ PermissionError) (import_dotenv fs BASE_DIR env) ∧
  ∀ env', import_dotenv fs BASE_DIR env = Ok env' →
    env ⊆ env' ∧
    ∀ k v, env' !! k = Some v → env !! k = None →
      ∃ kvs, read_dotenv fs (dotenv_path BASE_DIR) = Ok kvs ∧ last_assignment kvs k = Some (Some v).
Proof.
  unfold import_dotenv. set (path := dotenv_path BASE_DIR).
  destruct (path_exists fs path) as [[]|e] eqn:He; simpl;
    [destruct (read_dotenv fs path) as [kvs|e] eqn:Hr; simpl| |].
  - split; [by intros e|]. intros env' [= <-]. split; [apply load_dotenv_keeps|].
    intros k v Hk Hn. exists kvs. split; [done|].
    apply load_dotenv_lookup in Hk as [?|[_ ?]]; [congruence|done].
  - by apply import_error_cases.
  - split; [by intros e|]. intros env' [= <-]. split; [done|]. congruence.
  - by apply import_error_cases.
Qed.

(** ** Witnesses *)

Module DotenvSamples.

Definition env0 : environ := {[ "OPENAI_API_KEY" := "sk-shell" ]}.
Definition env1 : environ := {[ "OPENAI_API_KEY" := "sk-shell"; "OPENAI_MODEL" := "gpt-b" ]}.

(** A readable [.env] that sets the key twice and the model once. *)
Definition readable : filesystem := {|
  path_exists := λ _, Ok true;
  read_dotenv := λ _, Ok [("OPENAI_MODEL", Some "gpt-a"); ("OPENAI_MODEL", Some "gpt-b");
                          ("OPENAI_API_KEY", Some "sk-file"); ("DEBUG", None)]
|}.

Definition unreadable : filesystem := {| path_exists := λ _, Ok true; read_dotenv := λ _, Err PermissionError |}.
Definition not_utf8 : filesystem := {| path_exists := λ _, Ok true; read_dotenv := λ _, Err UnicodeDecodeError |}.

Lemma import_dotenv_spec_witness :
  import_dotenv readable None env0 = Ok env1 ∧
  import_dotenv unreadable None env0 = Ok env0 ∧
  import_dotenv not_utf8 None env0 = Err UnicodeDecodeError ∧
  (∀ k v, env1 !! k = Some v →
     env0 !! k = None →
     ∃ kvs, read_dotenv readable (dotenv_path None) = Ok kvs ∧ last_assignment kvs k = Some (Some v)).
Proof.
  assert (Hr : import_dotenv readable None env0
               = Ok env1).
  { vm_compute. reflexivity. }
  split_and!; [exact Hr|reflexivity|reflexivity|].
  exact (proj2 (proj2 (import_dotenv_spec readable None env0) _ Hr)).
Defined.
End DotenvSamples.
