(* ===== verification/Json.v ===== *)
(** * [json.dumps] as the analysis prompt uses it

    [_analyse_with_openai] ([src/esg/services.py], line 121) embeds the
    article payload in its prompt as [json.dumps(payload)]: the default
    encoder, with [ensure_ascii=True], [allow_nan=True] and the
    separators comma-space and colon-space.  [json_dumps] is that encoder on the
    values of [Python.v]: every code point outside [' '..'~'] of a
    string is escaped (the quote and the backslash by a backslash, the
    five short escapes, otherwise [\u00XX] in lower-case hex), an [int] is written by [int.__repr__],
    the non-finite floats as [NaN], [Infinity] and [-Infinity], and a
    finite float by [float.__repr__], an external routine ([FloatRepr]).

    [parse_value] is a decoder of the text [json_dumps] writes: strict
    JSON strings (control characters refused), the literals, numbers,
    arrays and objects with the encoder's separators.  It is fuelled;
    [json_size] is the fuel a value needs, and [json_size_le_length]
    shows the length of the text is always enough.

    Theorems: every character [json_dumps] writes is printable ASCII
    (whatever the strings hold), and the decoder reads back every value,
    from the whole text and from any prefix of a longer text the encoder
    writes next, given the laws of [float.__repr__] ([FloatReprLaws]:
    a number literal with a fraction or an exponent that [float()]
    reads back); [JsonSamples.decimal_laws] shows the laws can be met. *)

From S2P Require Import Prelude Python.
From Stdlib Require Import DecimalString DecimalZ.

(** ** Characters *)

Definition dq : ascii := "034".
Definition bs : ascii := "092".

(** The lower-case hex digit of [n < 16]. *)
Definition hex_digit (n : nat) : ascii :=
  ascii_of_nat (if n <? 10 then 48 + n else 87 + n).

(** The value of a hex digit, either case. *)
Definition unhex (c : ascii) : option nat :=
  let n := nat_of_ascii c in
  if (48 <=? n) && (n <=? 57) then Some (n - 48)
  else if (97 <=? n) && (n <=? 102) then Some (n - 87)
  else if (65 <=? n) && (n <=? 70) then Some (n - 55)
  else None.

Definition printable (c : ascii) : bool :=
  let n := nat_of_ascii c in (32 <=? n) && (n <=? 126).

Definition is_control (c : ascii) : bool := nat_of_ascii c <? 32.

Definition str1 (c : ascii) : string := String c EmptyString.

(** ** The encoder *)

(** [ESCAPE_DCT] and [ESCAPE_ASCII] of [json.encoder]: one code point. *)
Definition json_escape_char (c : ascii) : string :=
  if Ascii.eqb c dq then String bs (str1 dq)
  else if Ascii.eqb c bs then String bs (str1 bs)
  else match nat_of_ascii c with
  | 8 => "\b"
  | 12 => "\f"
  | 10 => "\n"
  | 13 => "\r"
  | 9 => "\t"
  | n => if printable c then str1 c
         else "\u00" +:+ String (hex_digit (n / 16)) (str1 (hex_digit (n mod 16)))
  end.

Fixpoint json_escape (s : string) : string :=
  match s with
  | EmptyString => EmptyString
  | String c s' => json_escape_char c +:+ json_escape s'
  end.

(** [py_encode_basestring_ascii]: the quoted, escaped string. *)
Definition json_string (s : string) : string := String dq (json_escape s +:+ str1 dq).

(** [int.__repr__]. *)
Definition int_repr (z : Z) : string := NilEmpty.string_of_int (Z.to_int z).

(** [float.__repr__] on a finite float: a routine of the runtime. *)
Class FloatRepr := { float_repr : Q → string }.

(** [floatstr] of [json.encoder] with [allow_nan=True]. *)
Definition json_float `{FloatRepr} (f : pyfloat) : string :=
  match f with
  | Fin q => float_repr q
  | PInf => "Infinity"
  | NInf => "-Infinity"
  | NaN => "NaN"
  end.

(** [json.dumps(v)]: [True], [False] and [None] before [int]. *)
Fixpoint json_dumps `{FloatRepr} (v : pyval) : string :=
  match v with
  | PNone => "null"
  | PBool true => "true"
  | PBool false => "false"
  | PInt z => int_repr z
  | PFloat f => json_float f
  | PStr s => json_string s
  | PList l => "[" +:+ String.concat ", " (map json_dumps l) +:+ "]"
  | PDict kvs =>
      "{" +:+ String.concat ", " (map (λ kv, json_string kv.1 +:+ ": " +:+ json_dumps kv.2) kvs)
      +:+ "}"
  end.

(** ** The decoder *)

(** The short escapes after a backslash. *)
Definition unescape_short (e : ascii) : option ascii :=
  if Ascii.eqb e dq then Some dq
  else if Ascii.eqb e bs then Some bs
  else match e with
  | "/" => Some "/"
  | "b" => Some "008"
  | "f" => Some "012"
  | "n" => Some "010"
  | "r" => Some "013"
  | "t" => Some "009"
  | _ => None
  end%char.

(** [\uXXXX]; a code point past Latin-1 is outside the model. *)
Definition unhex4 (h1 h2 h3 h4 : ascii) : option ascii :=
  match unhex h1, unhex h2, unhex h3, unhex h4 with
  | Some a, Some b, Some c, Some d =>
      let n := ((a * 16 + b) * 16 + c) * 16 + d in
      if n <? 256 then Some (ascii_of_nat n) else None
  | _, _, _, _ => None
  end.

Definition cons_fst {A} (c : ascii) (r : option (string * A)) : option (string * A) :=
  option_map (λ '(b, rest), (String c b, rest)) r.

(** The body of a string after its opening quote, up to the closing one. *)
Fixpoint parse_str_body (s : string) : option (string * string) :=
  match s with
  | EmptyString => None
  | String c s1 =>
      if Ascii.eqb c dq then Some (EmptyString, s1)
      else if Ascii.eqb c bs then
        match s1 with
        | String "u" (String h1 (String h2 (String h3 (String h4 s2)))) =>
            match unhex4 h1 h2 h3 h4 with
            | Some ch => cons_fst ch (parse_str_body s2)
            | None => None
            end
        | String e s2 =>
            match unescape_short e with
            | Some ch => cons_fst ch (parse_str_body s2)
            | None => None
            end
        | EmptyString => None
        end
      else if is_control c then None
      else cons_fst c (parse_str_body s1)
  end%char.

Definition is_num_char (c : ascii) : bool :=
  match c with
  | "0" | "1" | "2" | "3" | "4" | "5" | "6" | "7" | "8" | "9"
  | "-" | "+" | "." | "e" | "E" => true
  | _ => false
  end%char.

(** The longest prefix of number characters, and the rest. *)
Fixpoint span_num (s : string) : string * string :=
  match s with
  | String c s' =>
      if is_num_char c then let '(a, b) := span_num s' in (String c a, b) else (EmptyString, s)
  | EmptyString => (EmptyString, EmptyString)
  end.

Fixpoint has_frac (s : string) : bool :=
  match s with
  | String c s' => match c with "." | "e" | "E" => true | _ => has_frac s' end%char
  | EmptyString => false
  end.

(** A number: [float(lexeme)] with a fraction or exponent, [int] otherwise. *)
Definition parse_number `{FloatLib} (lex : string) : option pyval :=
  if has_frac lex then option_map PFloat (float_of_string lex)
  else option_map (λ d, PInt (Z.of_int d)) (NilEmpty.int_of_string lex).

Definition literal (lit : string) (v : pyval) (s : string) : option (pyval * string) :=
  option_map (λ r, (v, r)) (strip_prefix lit s).

Fixpoint parse_value `{FloatLib} (fuel : nat) (s : string) : option (pyval * string) :=
  match fuel with
  | O => None
  | S f =>
      match s with
      | EmptyString => None
      | String c s1 =>
          if Ascii.eqb c dq then option_map (λ '(b, r), (PStr b, r)) (parse_str_body s1)
          else match c with
          | "[" => match s1 with
                   | String "]" r => Some (PList [], r)
                   | _ => option_map (λ '(l, r), (PList l, r)) (parse_elems f s1)
                   end
          | "{" => match s1 with
                   | String "}" r => Some (PDict [], r)
                   | _ => option_map (λ '(l, r), (PDict l, r)) (parse_members f s1)
                   end
          | "n" => literal "null" PNone s
          | "t" => literal "true" (PBool true) s
          | "f" => literal "false" (PBool false) s
          | "N" => literal "NaN" (PFloat NaN) s
          | "I" => literal "Infinity" (PFloat PInf) s
          | _ =>
              match literal "-Infinity" (PFloat NInf) s with
              | Some r => Some r
              | None =>
                  if is_num_char c then
                    let '(lex, r) := span_num s in option_map (λ v, (v, r)) (parse_number lex)
                  else None
              end
          end%char
      end
  end
with parse_elems `{FloatLib} (fuel : nat) (s : string) : option (list pyval * string) :=
  match fuel with
  | O => None
  | S f =>
      match parse_value f s with
      | Some (v, String "," (String " " r)) =>
          option_map (λ '(vs, r'), (v :: vs, r')) (parse_elems f r)
      | Some (v, String "]" r) => Some ([v], r)
      | _ => None
      end%char
  end
with parse_members `{FloatLib} (fuel : nat) (s : string) : option (list (string * pyval) * string) :=
  match fuel with
  | O => None
  | S f =>
      match s with
      | String c s1 =>
          if Ascii.eqb c dq then
            match parse_str_body s1 with
            | Some (k, String ":" (String " " s2)) =>
                match parse_value f s2 with
                | Some (v, String "," (String " " r)) =>
                    option_map (λ '(kvs, r'), ((k, v) :: kvs, r')) (parse_members f r)
                | Some (v, String "}" r) => Some ([(k, v)], r)
                | _ => None
                end
            | _ => None
            end
          else None
      | EmptyString => None
      end%char
  end.

(** The fuel a value needs. *)
Fixpoint json_size (v : pyval) : nat :=
  match v with
  | PList l => S (sum_list_with (λ x, S (json_size x)) l)
  | PDict kvs => S (sum_list_with (λ kv, S (json_size kv.2)) kvs)
  | _ => 1
  end.


(** ** Strings *)

Fixpoint str_forall (P : ascii → bool) (s : string) : bool :=
  match s with
  | EmptyString => true
  | String c s' => P c && str_forall P s'
  end.

(** After a value, the encoder writes a separator, a closing bracket or
    nothing. *)
Definition delim (r : string) : bool :=
  match r with
  | EmptyString => true
  | String c _ => Ascii.eqb c "," || Ascii.eqb c "]" || Ascii.eqb c "}"
  end%char.

(** stdpp makes [String.append] [simpl never]: these two equations
    take its place. *)
Lemma str_app_cons c a b : String c a +:+ b = String c (a +:+ b).
Proof. done. Qed.

Lemma str_app_empty b : "" +:+ b = b.
Proof. done. Qed.

Ltac str_simpl := rewrite ?str_app_cons, ?str_app_empty.

Lemma str_app_assoc a b c : (a +:+ b) +:+ c = a +:+ (b +:+ c).
Proof. induction a as [|x a IH]; str_simpl; congruence. Qed.

Lemma str_app_nil a : a +:+ "" = a.
Proof. induction a as [|x a IH]; str_simpl; congruence. Qed.

Lemma str_length_app a b : String.length (a +:+ b) = String.length a + String.length b.
Proof. induction a as [|x a IH]; str_simpl; simpl; lia. Qed.

Lemma strip_prefix_app p r : strip_prefix p (p +:+ r) = Some r.
Proof. induction p as [|x p IH]; str_simpl; simpl; [done|]. by rewrite Ascii.eqb_refl. Qed.

Lemma str_forall_app P a b : str_forall P (a +:+ b) = str_forall P a && str_forall P b.
Proof. induction a as [|x a IH]; str_simpl; simpl; [done|]. by rewrite IH, andb_assoc. Qed.

Lemma concat_cons2 sep a b l :
  String.concat sep (a :: b :: l) = a +:+ sep +:+ String.concat sep (b :: l).
Proof. done. Qed.

Lemma str_forall_concat P sep l :
  str_forall P sep = true → Forall (λ s, str_forall P s = true) l →
  str_forall P (String.concat sep l) = true.
Proof.
  intros Hs Hl. induction Hl as [|a [|b l] Ha Hl IH]; [done|done|].
  rewrite concat_cons2, !str_forall_app, Ha, Hs. exact IH.
Qed.

#[export] Hint Rewrite str_app_cons str_app_empty str_app_assoc str_forall_app str_length_app strip_prefix_app : esg_rw.

(** Nested induction on values: the elements of a list and the values
    of a dict are the sub-values. *)
Section pyval_ind'.
Variable P : pyval → Prop.
Hypothesis HNone : P PNone.
Hypothesis HBool : ∀ b, P (PBool b).
Hypothesis HInt : ∀ z, P (PInt z).
Hypothesis HFloat : ∀ f, P (PFloat f).
Hypothesis HStr : ∀ s, P (PStr s).
Hypothesis HList : ∀ l, Forall P l → P (PList l).
Hypothesis HDict : ∀ kvs, Forall (λ kv, P kv.2) kvs → P (PDict kvs).

Fixpoint pyval_ind' (v : pyval) : P v :=
  match v with
  | PNone => HNone
  | PBool b => HBool b
  | PInt z => HInt z
  | PFloat f => HFloat f
  | PStr s => HStr s
  | PList l =>
      HList l ((fix go l : Forall P l :=
                  match l with
                  | [] => Forall_nil_2 _
                  | x :: l' => Forall_cons_2 _ _ _ (pyval_ind' x) (go l')
                  end) l)
  | PDict kvs =>
      HDict kvs ((fix go kvs : Forall (λ kv, P kv.2) kvs :=
                    match kvs with
                    | [] => Forall_nil_2 _
                    | kv :: kvs' => Forall_cons_2 _ _ _ (pyval_ind' kv.2) (go kvs')
                    end) kvs)
  end.
End pyval_ind'.

(** ** Numbers *)

Lemma string_of_uint_num d : str_forall is_num_char (NilEmpty.string_of_uint d) = true.
Proof. induction d; simpl; by rewrite ?IHd. Qed.

Lemma int_repr_num z : str_forall is_num_char (int_repr z) = true.
Proof. unfold int_repr. destruct (Z.to_int z); simpl; by rewrite string_of_uint_num. Qed.

Lemma int_repr_nonempty z : int_repr z ≠ "".
Proof.
  intros He. pose proof (NilEmpty.isi (Z.to_int z)) as Hi.
  fold (int_repr z) in Hi. rewrite He in Hi. simpl in Hi. injection Hi as Hi.
  pose proof (DecimalZ.of_to z) as Hz. rewrite <- Hi in Hz. simpl in Hz. subst z. done.
Qed.

Lemma has_frac_num_digits d : has_frac (NilEmpty.string_of_uint d) = false.
Proof. induction d; simpl; by rewrite ?IHd. Qed.

Lemma has_frac_int_repr z : has_frac (int_repr z) = false.
Proof. unfold int_repr. destruct (Z.to_int z); simpl; apply has_frac_num_digits. Qed.

Lemma parse_number_int_repr `{FloatLib} z : parse_number (int_repr z) = Some (PInt z).
Proof.
  unfold parse_number. rewrite has_frac_int_repr. unfold int_repr.
  rewrite NilEmpty.isi. simpl. by rewrite DecimalZ.of_to.
Qed.

Lemma span_num_app a r :
  str_forall is_num_char a = true → delim r = true → span_num (a +:+ r) = (a, r).
Proof.
  intros Ha Hr. induction a as [|c a IH]; str_simpl; simpl in *.
  - destruct r as [|c r]; [done|]. simpl in Hr.
    destruct c as [[][][][][][][][]]; done.
  - apply andb_prop in Ha as [-> Ha]. by rewrite IH.
Qed.

Lemma strip_Infinity_num a r :
  str_forall is_num_char a = true → delim r = true → strip_prefix "Infinity" (a +:+ r) = None.
Proof.
  intros Ha Hr. destruct a as [|c a]; str_simpl; simpl in *.
  - destruct r as [|c r]; [done|]. simpl in Hr. destruct c as [[][][][][][][][]]; done.
  - apply andb_prop in Ha as [Hc _]. destruct c as [[][][][][][][][]]; done.
Qed.

(** ** Strings: escaping *)

Lemma json_escape_char_printable c : str_forall printable (json_escape_char c) = true.
Proof. destruct c as [[][][][][][][][]]; reflexivity. Qed.

(** Every code point comes back from its escape. *)
Lemma parse_str_body_escape_char c t :
  parse_str_body (json_escape_char c +:+ t) = cons_fst c (parse_str_body t).
Proof. destruct c as [[][][][][][][][]]; reflexivity. Qed.

Lemma json_escape_printable s : str_forall printable (json_escape s) = true.
Proof.
  induction s as [|c s IH]; [done|]. simpl.
  by rewrite str_forall_app, json_escape_char_printable, IH.
Qed.

Lemma json_string_printable s : str_forall printable (json_string s) = true.
Proof. unfold json_string. simpl. by rewrite str_forall_app, json_escape_printable. Qed.

Lemma parse_str_body_escape s r :
  parse_str_body (json_escape s +:+ String dq r) = Some (s, r).
Proof.
  induction s as [|c s IH]; [done|]. simpl.
  by rewrite str_app_assoc, parse_str_body_escape_char, IH.
Qed.

Lemma str_forall_impl (P Q : ascii → bool) s :
  (∀ c, P c = true → Q c = true) → str_forall P s = true → str_forall Q s = true.
Proof.
  intros HPQ. induction s as [|c s IH]; simpl; [done|].
  intros [Hc Hs]%andb_prop. by rewrite HPQ, IH.
Qed.

Lemma num_char_printable c : is_num_char c = true → printable c = true.
Proof. destruct c as [[][][][][][][][]]; done. Qed.

(** ** Every character written is printable ASCII *)

Section Printable.
Context `{FloatRepr}.
Hypothesis float_repr_printable : ∀ q, str_forall printable (float_repr q) = true.

Lemma int_repr_printable z : str_forall printable (int_repr z) = true.
Proof. eapply str_forall_impl; [apply num_char_printable|apply int_repr_num]. Qed.

Lemma json_float_printable f : str_forall printable (json_float f) = true.
Proof. destruct f; simpl; auto. Qed.

(** [json.dumps] with [ensure_ascii=True] writes printable ASCII
    only ([' '..'~']), whatever code points the strings of the value
    hold, given that [float.__repr__] does. *)
Theorem json_dumps_printable v : str_forall printable (json_dumps v) = true.
Proof.
  induction v as [| b | z | f | s | l IH | kvs IH] using pyval_ind'; simpl.
  - done.
  - by destruct b.
  - apply int_repr_printable.
  - apply json_float_printable.
  - apply json_string_printable.
  - rewrite !str_forall_app. simpl. rewrite andb_true_r.
    apply str_forall_concat; [done|]. by apply Forall_fmap.
  - rewrite !str_forall_app. simpl. rewrite andb_true_r.
    apply str_forall_concat; [done|]. apply Forall_fmap.
    eapply Forall_impl; [exact IH|]. intros [k x] Hx. simpl in *.
    rewrite !str_forall_app. simpl. by rewrite json_escape_printable, Hx.
Qed.
End Printable.

(** ** The decoder reads back what the encoder writes *)

(** What the decoder needs of [float.__repr__] on a finite float: its
    text is a number literal with a fraction or an exponent (CPython's
    shortest repr always writes one, as in [1.0] or [1e+16]), and
    [float()] reads it back exactly. *)
Class FloatReprLaws `{FloatRepr, FloatLib} : Prop := {
  float_repr_num q : str_forall is_num_char (float_repr q) = true;
  float_repr_nonempty q : float_repr q ≠ "";
  float_repr_frac q : has_frac (float_repr q) = true;
  float_repr_parse q : float_of_string (float_repr q) = Some (Fin q)
}.

Section Roundtrip.
Context `{FloatRepr, FloatLib}.
Context `{!FloatReprLaws}.

Lemma parse_elems_S f s :
  parse_elems (S f) s =
  match parse_value f s with
  | Some (v, String "," (String " " r)) => option_map (λ '(vs, r'), (v :: vs, r')) (parse_elems f r)
  | Some (v, String "]" r) => Some ([v], r)
  | _ => None
  end%char.
Proof. done. Qed.

Lemma parse_members_S f s :
  parse_members (S f) (String dq s) =
  match parse_str_body s with
  | Some (k, String ":" (String " " s2)) =>
      match parse_value f s2 with
      | Some (v, String "," (String " " r)) =>
          option_map (λ '(kvs, r'), ((k, v) :: kvs, r')) (parse_members f r)
      | Some (v, String "}" r) => Some ([(k, v)], r)
      | _ => None
      end
  | _ => None
  end%char.
Proof. done. Qed.

(** After [[], a value that does not start with [[]]] is the first element. *)
Lemma parse_value_open_list f s1 :
  (∀ r, s1 ≠ String "]" r) →
  parse_value (S f) (String "[" s1) = option_map (λ '(l, r), (PList l, r)) (parse_elems f s1).
Proof.
  intros Hs. destruct s1 as [|c s1]; [done|].
  destruct c as [[][][][][][][][]]; try reflexivity. by destruct (Hs s1).
Qed.

(** A number character opens a number, unless the text is [-Infinity]. *)
Lemma parse_value_num_char f c s1 :
  is_num_char c = true →
  parse_value (S f) (String c s1) =
  match literal "-Infinity" (PFloat NInf) (String c s1) with
  | Some r => Some r
  | None => let '(lex, r) := span_num (String c s1) in option_map (λ v, (v, r)) (parse_number lex)
  end.
Proof. destruct c as [[][][][][][][][]]; done. Qed.

Lemma strip_neg_inf_num a r :
  str_forall is_num_char a = true → delim r = true → strip_prefix "-Infinity" (a +:+ r) = None.
Proof.
  intros Ha Hr. destruct a as [|c a]; str_simpl.
  - destruct r as [|c r]; [done|]. simpl in Hr. destruct c as [[][][][][][][][]]; done.
  - simpl in Ha. apply andb_prop in Ha as [Hc Ha].
    destruct c as [[][][][][][][][]]; try done. simpl. by apply strip_Infinity_num.
Qed.

(** A number literal followed by what the encoder writes next. *)
Lemma parse_value_lexeme f a r v :
  str_forall is_num_char a = true → a ≠ "" → delim r = true → parse_number a = Some v →
  parse_value (S f) (a +:+ r) = Some (v, r).
Proof.
  intros Hn Hne Hr Hp. destruct a as [|c t]; [done|].
  simpl in Hn. apply andb_prop in Hn as [Hc Ht]. str_simpl.
  rewrite parse_value_num_char by done. unfold literal.
  rewrite <- str_app_cons, strip_neg_inf_num by (cbn; rewrite ?Hc, ?Ht; done).
  rewrite span_num_app by (cbn; rewrite ?Hc, ?Ht; done). simpl. by rewrite Hp.
Qed.

Lemma parse_number_float_repr q : parse_number (float_repr q) = Some (PFloat (Fin q)).
Proof. unfold parse_number. by rewrite float_repr_frac, float_repr_parse. Qed.

Lemma num_not_close a rest r :
  str_forall is_num_char a = true → a ≠ "" → a +:+ rest ≠ String "]" r.
Proof. destruct a as [|c t]; [done|]. str_simpl. simpl. intros Hn _ [= -> _]. done. Qed.

(** The text of a value never starts with a closing bracket. *)
Lemma json_dumps_not_close v rest r : json_dumps v +:+ rest ≠ String "]" r.
Proof.
  destruct v as [| [] | z | [q| | |] | s | l | kvs]; cbn [json_dumps];
    try (simpl; str_simpl; intros ?; discriminate).
  - apply num_not_close; [apply int_repr_num|apply int_repr_nonempty].
  - apply num_not_close; [apply float_repr_num|apply float_repr_nonempty].
Qed.

Lemma concat_map_cons2 {A} sep (f : A → string) a b l :
  String.concat sep (map f (a :: b :: l)) = f a +:+ sep +:+ String.concat sep (map f (b :: l)).
Proof. done. Qed.

Lemma concat_map_single {A} sep (f : A → string) a : String.concat sep (map f [a]) = f a.
Proof. done. Qed.

Lemma concat_head sep a l : ∃ t, String.concat sep (a :: l) = a +:+ t.
Proof. destruct l as [|b l]; [exists ""; by rewrite str_app_nil|by eexists]. Qed.

Lemma parse_value_open_dict f kv kvs t :
  let text := String.concat ", "
    (map (λ kv, json_string kv.1 +:+ ": " +:+ json_dumps kv.2) (kv :: kvs)) +:+ t in
  parse_value (S f) (String "{" text) = option_map (λ '(l, r), (PDict l, r)) (parse_members f text).
Proof.
  intros text. unfold text.
  destruct (concat_head ", " (json_string kv.1 +:+ ": " +:+ json_dumps kv.2)
    (map (λ kv, json_string kv.1 +:+ ": " +:+ json_dumps kv.2) kvs)) as [t' Ht].
  change (?a :: map ?g kvs) with (map g (kv :: kvs)) in Ht.
  rewrite Ht. unfold json_string. rewrite !str_app_assoc. by str_simpl.
Qed.

Lemma parse_value_str f s r : parse_value (S f) (json_string s +:+ r) = Some (PStr s, r).
Proof.
  unfold json_string. str_simpl. rewrite str_app_assoc. unfold str1. str_simpl.
  simpl. by rewrite parse_str_body_escape.
Qed.

(** What the decoder reads back from the text of [v] followed by the
    text the encoder writes after a value. *)
Definition reads_back (v : pyval) : Prop :=
  ∀ fuel r, json_size v ≤ fuel → delim r = true →
  parse_value fuel (json_dumps v +:+ r) = Some (v, r).

Lemma parse_elems_dumps l :
  Forall reads_back l → l ≠ [] → ∀ fuel r,
  sum_list_with (λ x, S (json_size x)) l ≤ fuel →
  parse_elems fuel (String.concat ", " (map json_dumps l) +:+ String "]" r) = Some (l, r).
Proof.
  induction 1 as [|v l Hv Hl IH]; [done|]. intros _ [|f] r Hs; cbn [sum_list_with] in Hs; [lia|].
  rewrite parse_elems_S. destruct l as [|v2 l]; cbn [map String.concat].
  - rewrite Hv by (done || lia). done.
  - rewrite !str_app_assoc, Hv by (str_simpl; done || lia). str_simpl. simpl.
    rewrite IH by (done || cbn [sum_list_with] in *; lia). done.
Qed.

Lemma parse_members_key f k t :
  parse_members (S f) (json_string k +:+ t) =
  match t with
  | String ":" (String " " s2) =>
      match parse_value f s2 with
      | Some (v, String "," (String " " r)) =>
          option_map (λ '(kvs, r'), ((k, v) :: kvs, r')) (parse_members f r)
      | Some (v, String "}" r) => Some ([(k, v)], r)
      | _ => None
      end
  | _ => None
  end%char.
Proof.
  unfold json_string. str_simpl. rewrite parse_members_S, str_app_assoc.
  unfold str1. str_simpl. rewrite parse_str_body_escape. done.
Qed.

Lemma parse_members_dumps kvs :
  Forall (λ kv, reads_back kv.2) kvs → kvs ≠ [] → ∀ fuel r,
  sum_list_with (λ kv, S (json_size kv.2)) kvs ≤ fuel →
  parse_members fuel
    (String.concat ", " (map (λ kv, json_string kv.1 +:+ ": " +:+ json_dumps kv.2) kvs)
     +:+ String "}" r) = Some (kvs, r).
Proof.
  induction 1 as [|[k v] kvs Hv Hl IH]; [done|]. intros _ [|f] r Hs;
    cbn [sum_list_with] in Hs; simpl in Hv, Hs; [lia|].
  destruct kvs as [|kv2 kvs];
    rewrite ?concat_map_single, ?concat_map_cons2; cbn [fst snd]; rewrite !str_app_assoc, parse_members_key; str_simpl.
  - rewrite Hv by (done || lia). done.
  - rewrite Hv by (str_simpl; done || lia). str_simpl. simpl.
    rewrite IH by (done || cbn [sum_list_with] in *; lia). done.
Qed.

(** A list is read back whatever follows its closing bracket. *)
Lemma parse_value_list l fuel r :
  Forall reads_back l → json_size (PList l) ≤ fuel →
  parse_value fuel (json_dumps (PList l) +:+ r) = Some (PList l, r).
Proof.
  intros Hl Hs. destruct fuel as [|fuel]; cbn [json_size] in Hs; [lia|]. cbn [json_dumps].
  destruct l as [|v l]; [by str_simpl|]. str_simpl. rewrite parse_value_open_list.
  - rewrite !str_app_assoc. str_simpl. rewrite parse_elems_dumps; [done|done|done|lia].
  - destruct (concat_head ", " (json_dumps v) (map json_dumps l)) as [t Ht].
    change (json_dumps v :: map json_dumps l) with (map json_dumps (v :: l)) in Ht.
    rewrite Ht, !str_app_assoc. by apply json_dumps_not_close.
Qed.

Lemma json_dumps_reads_back v : reads_back v.
Proof.
  induction v as [| b | z | f | s | l IH | kvs IH] using pyval_ind';
    intros [|fuel] r Hs Hr; cbn [json_size] in Hs; try lia; cbn [json_dumps].
  - by str_simpl.
  - by destruct b; str_simpl.
  - apply parse_value_lexeme; [apply int_repr_num|apply int_repr_nonempty|done|].
    apply parse_number_int_repr.
  - destruct f as [q| | |]; [|by str_simpl..].
    apply parse_value_lexeme; [apply float_repr_num|apply float_repr_nonempty|done|].
    apply parse_number_float_repr.
  - apply parse_value_str.
  - by apply parse_value_list.
  - destruct kvs as [|kv kvs]; [by str_simpl|]. str_simpl.
    rewrite str_app_assoc, parse_value_open_dict. str_simpl.
    by rewrite parse_members_dumps; [| |done|lia].
Qed.

(** A list is read back whatever text follows it. *)
Lemma parse_value_dumps_list l fuel r :
  json_size (PList l) ≤ fuel → parse_value fuel (json_dumps (PList l) +:+ r) = Some (PList l, r).
Proof.
  intros Hs. apply parse_value_list; [|done]. apply Forall_forall. intros x _.
  apply json_dumps_reads_back.
Qed.

Lemma concat_length_ge {A} (f : A → string) (g : A → nat) l :
  Forall (λ x, g x ≤ String.length (f x)) l →
  sum_list_with (λ x, S (g x)) l ≤ S (String.length (String.concat ", " (map f l))).
Proof.
  induction 1 as [|x l Hx Hl IH]; [simpl; lia|].
  destruct l as [|y l]; cbn [sum_list_with] in *.
  - rewrite concat_map_single. lia.
  - rewrite concat_map_cons2, !str_length_app. simpl (String.length ", "). lia.
Qed.

(** The text of a value is long enough to serve as the decoder's fuel. *)
Lemma json_size_le_length v : json_size v ≤ String.length (json_dumps v).
Proof.
  induction v as [| b | z | f | s | l IH | kvs IH] using pyval_ind';
    cbn [json_size json_dumps].
  - simpl. lia.
  - destruct b; simpl; lia.
  - destruct (int_repr z) eqn:He; [by apply int_repr_nonempty in He|simpl; lia].
  - destruct f as [q| | |]; simpl; try lia.
    destruct (float_repr q) eqn:He; [by apply float_repr_nonempty in He|simpl; lia].
  - simpl. lia.
  - rewrite !str_length_app. simpl (String.length "["). simpl (String.length "]").
    enough (sum_list_with (λ x, S (json_size x)) l ≤ S (String.length (String.concat ", " (map json_dumps l)))) by lia.
    by apply concat_length_ge.
  - rewrite !str_length_app. simpl (String.length "{"). simpl (String.length "}").
    enough (sum_list_with (λ kv, S (json_size kv.2)) kvs
      ≤ S (String.length (String.concat ", "
             (map (λ kv, json_string kv.1 +:+ ": " +:+ json_dumps kv.2) kvs)))) by lia.
    apply concat_length_ge. eapply Forall_impl; [exact IH|]. intros x Hx. cbv beta in *.
    rewrite !str_length_app. lia.
Qed.

End Roundtrip.

(** ** Witnesses *)

Module JsonSamples.

(** A [float.__repr__] for the witnesses that satisfies the laws: the
    numerator, a dot and the denominator ([n.d] stands for [n/d]), with
    the matching [float()]. *)
Definition decimal_repr : FloatRepr :=
  {| float_repr := λ q, int_repr (Qnum q) +:+ "." +:+ int_repr (Zpos (Qden q)) |}.

Fixpoint split_dot (s : string) : option (string * string) :=
  match s with
  | EmptyString => None
  | String c s' => if Ascii.eqb c "." then Some (EmptyString, s') else cons_fst c (split_dot s')
  end.

Definition decimal_float_of_string (s : string) : option pyfloat :=
  match split_dot s with
  | Some (a, b) =>
      match NilEmpty.int_of_string a, NilEmpty.int_of_string b with
      | Some n, Some d =>
          match Z.of_int d with Zpos p => Some (Fin (Qmake (Z.of_int n) p)) | _ => None end
      | _, _ => None
      end
  | None => None
  end.

Definition decimal_floats : FloatLib := {| float_of_string := decimal_float_of_string |}.

Lemma has_frac_app a b : has_frac (a +:+ b) = has_frac a || has_frac b.
Proof.
  induction a as [|c a IH]; [done|]. str_simpl. simpl. rewrite IH.
  by destruct c as [[][][][][][][][]].
Qed.

Lemma split_dot_app a b : has_frac a = false → split_dot (a +:+ String "." b) = Some (a, b).
Proof.
  induction a as [|c a IH]; [done|]. str_simpl. simpl.
  destruct c as [[][][][][][][][]]; try done; intros Ha; by rewrite IH.
Qed.

Lemma int_of_int_repr z : NilEmpty.int_of_string (int_repr z) = Some (Z.to_int z).
Proof. apply NilEmpty.isi. Qed.

Lemma decimal_laws : @FloatReprLaws decimal_repr decimal_floats.
Proof.
  split; intros q; cbn [float_repr decimal_repr].
  - rewrite !str_forall_app, !int_repr_num. done.
  - intros Hq. apply (f_equal String.length) in Hq. rewrite !str_length_app in Hq. simpl in Hq. lia.
  - rewrite !has_frac_app. simpl. by rewrite orb_true_r.
  - cbn [float_of_string decimal_floats]. unfold decimal_float_of_string. str_simpl.
    rewrite split_dot_app by apply has_frac_int_repr.
    rewrite !int_of_int_repr, !DecimalZ.of_to. by destruct q.
Qed.

#[local] Existing Instances decimal_repr decimal_floats decimal_laws.

(** A title with an accented letter, a double quote and a newline, a
    negative int, a finite float and the non-finite ones. *)
Definition sample : pyval :=
  PList [PDict [("title", PStr ("Caf" +:+ str1 "233" +:+ " " +:+ str1 dq +:+ "spill" +:+ str1 "010"));
                ("count", PInt (-120)); ("score", PFloat (Fin (-7 # 2))); ("url", PNone)];
         PFloat NaN; PFloat NInf; PBool true; PList []].

Lemma json_dumps_printable_witness :
  (∀ q, str_forall printable (float_repr q) = true) ∧
  str_forall printable (json_dumps sample) = true ∧
  json_escape (str1 "233") = "\u00e9".
Proof.
  assert (Hq : ∀ q, str_forall printable (float_repr q) = true).
  { intros q. eapply str_forall_impl; [apply num_char_printable|apply float_repr_num]. }
  split; [exact Hq|]. split; [apply (json_dumps_printable Hq)|reflexivity].
Defined.

End JsonSamples.
