(* ===== verification/Sorting.v ===== *)
(** * [sorted(xs, key=k, reverse=True)]

    Both sorts of the program ([take_latest] in utils.py, line 75, and
    [_sort_items_by_score] in services.py, line 223) call Python's
    [sorted] with [reverse=True]: a stable sort into descending key
    order.  [sort_desc] is a stable descending insertion sort.  It may
    stand for timsort because a stable descending permutation is unique
    ([sorted_desc_unique]): any two correct stable sorts agree.

    The key order is an interface, the class [StrictWeak]: a boolean
    strict order whose incomparability is an equivalence.  [Z.ltb]
    (timestamps) and the float order on scores implement it. *)

From S2P Require Import Prelude.
From Stdlib Require Import Sorted.

Class StrictWeak {K : Type} (ltb : K → K → bool) : Prop := {
  swo_irrefl k : ltb k k = false;
  swo_trans a b c : ltb a b = true → ltb b c = true → ltb a c = true;
  swo_neg_trans a b c : ltb a c = true → ltb a b = true ∨ ltb b c = true
}.

#[export] Instance Z_ltb_strict_weak : StrictWeak Z.ltb.
Proof. split; intros; rewrite ?Z.ltb_lt, ?Z.ltb_ge in *; lia. Qed.

Section StableSort.
Context {A K : Type} (key : A → K) (ltb : K → K → bool).

(** [x] sorts before or with [y]: [y]'s key is not greater. *)
Definition desc (x y : A) : Prop := ltb (key x) (key y) = false.

(** [x] is in the class of keys equivalent to [k]. *)
Definition same (k : K) (x : A) : bool :=
  negb (ltb (key x) k) && negb (ltb k (key x)).

(** Insert [x] before the first element whose key is smaller: after
    every element it ties with, which keeps the sort stable. *)
Fixpoint insert_desc (x : A) (l : list A) : list A :=
  match l with
  | [] => [x]
  | y :: l' => if ltb (key y) (key x) then x :: y :: l' else y :: insert_desc x l'
  end.

Definition sort_desc (l : list A) : list A :=
  fold_left (λ acc x, insert_desc x acc) l [].

Lemma insert_desc_perm x l : insert_desc x l ≡ₚ x :: l.
Proof.
  induction l as [|y l IH]; simpl; [done|].
  destruct (ltb (key y) (key x)); [done|].
  rewrite IH. constructor.
Qed.

Lemma sort_desc_perm_acc l acc :
  fold_left (λ acc x, insert_desc x acc) l acc ≡ₚ l ++ acc.
Proof.
  revert acc; induction l as [|x l IH]; intros acc; simpl; [done|].
  rewrite IH, insert_desc_perm. by rewrite Permutation_middle.
Qed.

(** The result is a permutation of the input. *)
Lemma sort_desc_perm l : sort_desc l ≡ₚ l.
Proof. unfold sort_desc. by rewrite sort_desc_perm_acc, app_nil_r. Qed.

(** Sorting a list with one more element at its end inserts that
    element into the sorted list. *)
Lemma sort_desc_snoc l x : sort_desc (l ++ [x]) = insert_desc x (sort_desc l).
Proof. unfold sort_desc. by rewrite fold_left_app. Qed.

(** An element strictly greater than every element goes first. *)
Lemma insert_desc_greatest x l :
  Forall (λ y, ltb (key y) (key x) = true) l → insert_desc x l = x :: l.
Proof. destruct l as [|y l]; [done|]. intros (Hy & _)%Forall_cons. simpl. by rewrite Hy. Qed.

Context `{!StrictWeak ltb}.

Lemma lt_irrefl k : ltb k k = false.
Proof. apply swo_irrefl. Qed.

Lemma lt_asym a b : ltb a b = true → ltb b a = false.
Proof.
  intros Hab. destruct (ltb b a) eqn:Hba; [|done].
  pose proof (swo_trans _ _ _ Hab Hba). by rewrite lt_irrefl in H.
Qed.

Lemma desc_trans : Transitive desc.
Proof.
  intros x y z Hxy Hyz; unfold desc in *.
  destruct (ltb (key x) (key z)) eqn:Hxz; [|done].
  destruct (swo_neg_trans _ (key y) _ Hxz); congruence.
Qed.

Lemma insert_desc_sorted x l :
  StronglySorted desc l → StronglySorted desc (insert_desc x l).
Proof.
  induction 1 as [|y l Hl IH Hall]; simpl.
  - repeat constructor.
  - destruct (ltb (key y) (key x)) eqn:Hyx.
    + constructor; [by constructor|].
      constructor; [by apply lt_asym|].
      eapply Forall_impl; [exact Hall|]. intros z Hyz.
      eapply desc_trans; [|exact Hyz]. by apply lt_asym.
    + constructor; [done|].
      rewrite insert_desc_perm. by constructor.
Qed.

Lemma sort_desc_sorted_acc l acc :
  StronglySorted desc acc →
  StronglySorted desc (fold_left (λ acc x, insert_desc x acc) l acc).
Proof.
  revert acc; induction l as [|x l IH]; intros acc Hacc; simpl; [done|].
  by apply IH, insert_desc_sorted.
Qed.

(** The result is in descending key order. *)
Lemma sort_desc_sorted l : StronglySorted desc (sort_desc l).
Proof. apply sort_desc_sorted_acc; constructor. Qed.

(** An element inserted into a sorted list lands after every element
    of its key class: the filter by a class only grows at its end. *)
Lemma filter_insert_desc k x l :
  StronglySorted desc l →
  List.filter (same k) (insert_desc x l) = List.filter (same k) l ++ List.filter (same k) [x].
Proof.
  induction 1 as [|y l Hl IH Hall]; simpl; [done|].
  destruct (ltb (key y) (key x)) eqn:Hyx.
  - assert (Hnone : ∀ z, z ∈ y :: l → same k x = true → same k z = false).
    { intros z Hz Hx. unfold same in *.
      assert (ltb (key z) (key x) = true) as Hzx.
      { apply elem_of_cons in Hz as [->|Hz]; [done|].
        rewrite Forall_forall in Hall. specialize (Hall z Hz). unfold desc in Hall.
        destruct (swo_neg_trans _ (key z) _ Hyx); congruence. }
      apply andb_true_iff in Hx as [Hx1 Hx2].
      destruct (swo_neg_trans _ k _ Hzx) as [Hzk|Hkx]; [by rewrite Hzk|].
      by rewrite Hkx in Hx2. }
    simpl. destruct (same k x) eqn:Hx.
    + assert (List.filter (same k) (y :: l) = []) as Hnil.
      { apply filter_none. intros z Hz. by apply Hnone. }
      simpl in Hnil. by rewrite Hnil.
    + by rewrite app_nil_r.
  - simpl. destruct (same k y); simpl; by rewrite IH.
Qed.

Lemma sort_desc_stable_acc k l acc :
  StronglySorted desc acc →
  List.filter (same k) (fold_left (λ acc x, insert_desc x acc) l acc)
  = List.filter (same k) acc ++ List.filter (same k) l.
Proof.
  revert acc; induction l as [|x l IH]; intros acc Hacc; simpl.
  - by rewrite app_nil_r.
  - rewrite IH by (by apply insert_desc_sorted).
    rewrite filter_insert_desc by done.
    simpl. destruct (same k x); simpl; by rewrite <-app_assoc.
Qed.

(** Stability: within each key class the input order is kept. *)
Lemma sort_desc_stable k l : List.filter (same k) (sort_desc l) = List.filter (same k) l.
Proof. unfold sort_desc. rewrite sort_desc_stable_acc; [done|constructor]. Qed.

(** Two descending lists with the same elements and the same order
    inside every key class are equal. *)
Lemma sorted_desc_eq l1 l2 :
  StronglySorted desc l1 → StronglySorted desc l2 → l1 ≡ₚ l2 →
  (∀ k, List.filter (same k) l1 = List.filter (same k) l2) → l1 = l2.
Proof.
  intros H1; revert l2.
  induction H1 as [|a r1 Hr1 IH Hall1]; intros l2 H2 Hp Hf.
  { by apply Permutation_nil in Hp as ->. }
  destruct H2 as [|b r2 Hr2 Hall2]; [symmetry in Hp; by apply Permutation_nil_cons in Hp|].
  assert (desc a b ∧ desc b a) as [Hab Hba].
  { split.
    - assert (b ∈ a :: r1) as Hb by (rewrite Hp; left).
      apply elem_of_cons in Hb as [->|Hb]; [apply lt_irrefl|].
      by rewrite Forall_forall in Hall1; apply Hall1.
    - assert (a ∈ b :: r2) as Ha by (rewrite <-Hp; left).
      apply elem_of_cons in Ha as [->|Ha]; [apply lt_irrefl|].
      by rewrite Forall_forall in Hall2; apply Hall2. }
  assert (a = b) as <-.
  { specialize (Hf (key a)). unfold desc in Hab, Hba.
    simpl in Hf. unfold same in Hf. rewrite Hab, Hba, lt_irrefl in Hf.
    by injection Hf. }
  f_equal. apply IH; [done|by apply Permutation_cons_inv in Hp|].
  intros k. specialize (Hf k). simpl in Hf.
  destruct (same k a); [by injection Hf|done].
Qed.

(** [sort_desc] is [sorted(..., reverse=True)]: the only
    permutation of [l] that is ordered by descending key and keeps the
    input order among equal keys (the contract of Python's stable
    sort) is [sort_desc l], which is itself such a permutation. *)
Lemma sorted_desc_unique l l' :
  l' ≡ₚ l → StronglySorted desc l' → (∀ k, List.filter (same k) l' = List.filter (same k) l) →
  l' = sort_desc l.
Proof.
  intros Hp Hs Hf. apply sorted_desc_eq; [done|apply sort_desc_sorted| |].
  - by rewrite Hp, sort_desc_perm.
  - intros k. by rewrite Hf, sort_desc_stable.
Qed.
End StableSort.

#[export] Hint Resolve sort_desc_perm sort_desc_sorted : esg.

(** Three entries, two with the same key, sorted newest first. *)
Lemma sorted_desc_unique_witness :
  let l := [(1, "a"); (2, "b"); (1, "c")]%Z in
  sort_desc fst Z.ltb l = [(2, "b"); (1, "a"); (1, "c")]%Z.
Proof.
  intros l. symmetry. apply (sorted_desc_unique fst Z.ltb l).
  - unfold l. apply Permutation_swap.
  - repeat constructor.
  - intros k. unfold same. simpl.
    destruct (Z.ltb_spec 2 k), (Z.ltb_spec k 2), (Z.ltb_spec 1 k), (Z.ltb_spec k 1);
      simpl; first [reflexivity | exfalso; lia].
Defined.
