(* ===== verification/Keywords.v ===== *)
(** * The ESG keyword taxonomy ([src/esg/keywords.py])

    Three keyword sets, the aspect-to-set map [ESG_KEYWORDS] in the
    insertion order of the Python dict (environment, social, governance),
    and their union [ALL_KEYWORDS].  Python sets are kept as lists: the
    code only tests membership and [any] over them, and joins the union
    after sorting it. *)

From S2P Require Import Prelude.

Definition ENVIRONMENTAL_KEYWORDS : list string :=
  ["emission"; "emissions"; "carbon"; "pollution"; "climate"; "waste";
   "deforestation"; "environment"; "biodiversity"; "renewable";
   "sustainability"; "water scarcity"; "pipeline leak"; "oil spill"; "toxic";
   "greenhouse"; "air quality"].

Definition SOCIAL_KEYWORDS : list string :=
  ["labour"; "labor"; "worker"; "strike"; "union"; "discrimination";
   "harassment"; "human rights"; "privacy"; "safety"; "fatality"; "community";
   "protest"; "diversity"; "inclusive"].

Definition GOVERNANCE_KEYWORDS : list string :=
  ["governance"; "board"; "fraud"; "bribery"; "audit"; "corruption";
   "whistleblower"; "accounting"; "transparency"; "sebi"; "sec"; "compliance";
   "tax evasion"; "money laundering"; "insider trading"].

Definition ESG_KEYWORDS : list (string * list string) :=
  [("environment", ENVIRONMENTAL_KEYWORDS);
   ("social", SOCIAL_KEYWORDS);
   ("governance", GOVERNANCE_KEYWORDS)].

(** The union of the three sets ([keywords.py], line 63). *)
Definition ALL_KEYWORDS : list string :=
  remove_dups (ENVIRONMENTAL_KEYWORDS ++ SOCIAL_KEYWORDS ++ GOVERNANCE_KEYWORDS).
