(* ===== verification/Utils.v ===== *)
(** * [src/esg/utils.py]

    Name normalization and the cache key, tolerant datetime parsing
    (dateutil's parser when it imported, [datetime.fromisoformat]
    otherwise), keyword detection, and the two list passes of the article pipeline:
    [deduplicate_articles] and [take_latest].

    Theorems: [normalize_company_name] is idempotent and produces a
    canonical string (no surrounding whitespace, single spaces);
    [make_cache_key] depends only on the lowercased normalized name, and
    with an injective digest it identifies exactly those names;
    [detect_esg_aspects] reports an aspect iff one of its keywords
    occurs as a substring; deduplication keeps exactly the first
    article of each identity key; [take_latest] is a bounded, sorted
    selection that raises [TypeError] exactly when naive and aware
    timestamps are mixed. *)

From S2P Require Import Prelude Python Sorting Keywords.

(** ** Names and cache keys *)

(** [re.sub(r"\s+", " ", s)]: every maximal whitespace run becomes one
    space; [in_ws] says the previous character was whitespace. *)
Fixpoint collapse_ws (in_ws : bool) (s : string) : string :=
  match s with
  | EmptyString => EmptyString
  | String c s' =>
      if is_space c then
        (if in_ws then collapse_ws true s' else String " " (collapse_ws true s'))
      else String c (collapse_ws false s')
  end.

Definition normalize_company_name (name : string) : string :=
  collapse_ws false (py_strip name).

(** hashlib's SHA-1 of the UTF-8 encoding, as a hex string. *)
Class Sha1 := { sha1_hexdigest : string → string }.

Definition make_cache_key `{Sha1} (company_name : string) : string :=
  "esg:company:" ++ sha1_hexdigest (str_lower (normalize_company_name company_name)).

(** ** Datetimes *)

Definition ensure_aware (dt : datetime) : datetime :=
  match dt with Naive t => Aware t | Aware t => Aware t end.

Definition isoformat `{DateLib} (dt : datetime) : string :=
  iso_of_aware (dt_stamp (ensure_aware dt)).

(** The body of the [try]: [parser.parse(value)] when dateutil was
    imported, [datetime.fromisoformat(value)] otherwise. *)
Definition parse_datetime_text `{DateLib} (value : string) : option datetime :=
  match dateutil_parser with
  | Some parse => parse value
  | None => fromisoformat value
  end.

(** A falsy value gives [None]; a non-string makes [parser.parse] and
    [fromisoformat] raise, which the [except Exception] turns into
    [None]. *)
Definition safe_parse_datetime `{DateLib} (value : pyval) : option datetime :=
  match value with
  | PStr s => if String.eqb s "" then None else ensure_aware <$> parse_datetime_text s
  | _ => None
  end.


(** ** Keyword detection *)

Definition detect_esg_aspects (text : string) (keyword_map : list (string * list string))
    : list string :=
  let lowered := str_lower text in
  map fst (List.filter (λ ak, existsb (λ kw, py_contains kw lowered) ak.2) keyword_map).

(** ** Articles *)

(** The dict [fetch_articles] builds for each article (clients.py,
    lines 90-98): the fields copied from the oracle's JSON keep their
    JSON value, [published_at] is always a datetime. *)
Record article := mk_article {
  art_title : pyval;
  art_description : pyval;
  art_url : pyval;
  art_source : pyval;
  art_published_at : datetime;
  art_source_type : string
}.

(** [next((kc for kc in (url, title) if kc), None)]: the first truthy
    candidate, otherwise a falsy value. *)
Definition dedup_key (e : article) : pyval := py_or (art_url e) (art_title e).

(** The loop of [deduplicate_articles] with the set [seen] so far. *)
Fixpoint dedup_from (seen : list pyval) (entries : list article) : res (list article) :=
  match entries with
  | [] => Ok []
  | e :: es =>
      let k := dedup_key e in
      if negb (truthy k) then dedup_from seen es else
      set_mem k seen ≫= λ b : bool,
      if b then dedup_from seen es
      else (dedup_from (k :: seen) es ≫= λ rest, mret (e :: rest))
  end.

Definition deduplicate_articles (entries : list article) : res (list article) :=
  dedup_from [] entries.

(** [l[:limit]]: a negative [limit] counts from the end. *)
Definition py_take {A} (l : list A) (limit : Z) : list A :=
  if Z.leb 0 limit then firstn (Z.to_nat limit) l
  else firstn (Z.to_nat (Z.of_nat (length l) + limit)) l.

Definition published_stamp (e : article) : Z := dt_stamp (art_published_at e).

(** Naive and aware timestamps side by side: Python's sort then
    compares a naive with an aware datetime, whatever the order of
    its comparisons (a correct comparison sort must compare some pair
    that is adjacent in the output, and with both kinds present some
    adjacent pair is mixed), and raises [TypeError]. *)
Definition mixed_tz (entries : list article) : bool :=
  existsb (λ e, dt_aware (art_published_at e)) entries &&
  existsb (λ e, negb (dt_aware (art_published_at e))) entries.

Definition take_latest (entries : list article) (limit : Z) : res (list article) :=
  if mixed_tz entries then Err TypeError
  else Ok (py_take (sort_desc published_stamp Z.ltb entries) limit).

(** ** Canonical names *)

(** A string [collapse_ws in_ws] leaves unchanged: its only whitespace
    are single spaces, none right after whitespace. *)
Fixpoint ws_canon (in_ws : bool) (s : string) : bool :=
  match s with
  | EmptyString => true
  | String c s' =>
      if is_space c then negb in_ws && Ascii.eqb c " " && ws_canon true s'
      else ws_canon false s'
  end.

Lemma is_space_sp : is_space " " = true.
Proof. reflexivity. Qed.

Lemma collapse_ws_canon b s : ws_canon b (collapse_ws b s) = true.
Proof.
  revert b; induction s as [|c s IH]; intros b; simpl; [done|].
  destruct (is_space c) eqn:Hc; [destruct b|]; [apply IH| |simpl; rewrite Hc; apply IH].
  cbn [ws_canon]. rewrite is_space_sp, IH. done.
Qed.

Lemma collapse_ws_id b s : ws_canon b s = true → collapse_ws b s = s.
Proof.
  revert b; induction s as [|c s IH]; intros b; simpl; [done|].
  destruct (is_space c) eqn:Hc.
  - destruct b; simpl; [done|].
    intros [Hsp Hs]%andb_true_iff. apply Ascii.eqb_eq in Hsp as ->. by rewrite IH.
  - intros Hs. by rewrite IH.
Qed.

Lemma lstrip_idem s : lstrip (lstrip s) = lstrip s.
Proof.
  induction s as [|c s IH]; simpl; [done|].
  destruct (is_space c) eqn:Hc; [done|]. simpl. by rewrite Hc.
Qed.

Lemma lstrip_shorter s : String.length (lstrip s) ≤ String.length s.
Proof.
  induction s as [|c s IH]; simpl; [lia|]. destruct (is_space c); simpl; lia.
Qed.

Lemma lstrip_lead c s : lstrip (String c s) = String c s → is_space c = false.
Proof.
  simpl. destruct (is_space c) eqn:Hc; [|done].
  intros H. apply (f_equal String.length) in H.
  pose proof (lstrip_shorter s). simpl in H. lia.
Qed.

Lemma rstrip_keeps_lead s : lstrip s = s → lstrip (rstrip s) = rstrip s.
Proof.
  destruct s as [|c s]; [done|]. intros H%lstrip_lead. simpl.
  rewrite H. simpl. by rewrite H.
Qed.

Lemma rstrip_idem s : rstrip (rstrip s) = rstrip s.
Proof.
  induction s as [|c s IH]; simpl; [done|].
  destruct (is_space c && String.eqb (rstrip s) "") eqn:Hc; simpl; [done|].
  rewrite IH. by rewrite Hc.
Qed.

Lemma rstrip_tail c t : rstrip (String c t) = String c t → rstrip t = t.
Proof.
  simpl. destruct (is_space c && String.eqb (rstrip t) ""); [discriminate|].
  by injection 1.
Qed.

(** A string ending in a non-space keeps a character through [collapse_ws]. *)
Lemma collapse_ws_nonempty b t : rstrip t = t → t ≠ "" → collapse_ws b t ≠ "".
Proof.
  revert b; induction t as [|c t IH]; intros b Hr Ht; [done|]. simpl.
  destruct (is_space c) eqn:Hc; [destruct b|]; try discriminate.
  apply IH; [by eapply rstrip_tail|].
  intros ->. simpl in Hr. by rewrite Hc in Hr.
Qed.

Lemma rstrip_collapse b t : rstrip t = t → rstrip (collapse_ws b t) = collapse_ws b t.
Proof.
  revert b; induction t as [|c t IH]; intros b Hr; [done|].
  pose proof (rstrip_tail _ _ Hr) as Ht. simpl.
  destruct (is_space c) eqn:Hc; [destruct b|]; [by apply IH| |].
  - assert (t ≠ "") as Hne by (intros ->; simpl in Hr; by rewrite Hc in Hr).
    simpl. rewrite IH by done.
    destruct (String.eqb (collapse_ws true t) "") eqn:He; [|done].
    apply String.eqb_eq in He. by apply collapse_ws_nonempty in He.
  - simpl. rewrite Hc, IH by done. done.
Qed.

Lemma lstrip_collapse t : lstrip t = t → lstrip (collapse_ws false t) = collapse_ws false t.
Proof.
  destruct t as [|c t]; [done|]. intros Hc%lstrip_lead. simpl. rewrite Hc. simpl. by rewrite Hc.
Qed.

(** The canonical form [normalize_company_name] produces. *)
Definition canonical_name (s : string) : bool :=
  String.eqb (lstrip s) s && String.eqb (rstrip s) s && ws_canon false s.

Lemma py_strip_ends s : lstrip (py_strip s) = py_strip s ∧ rstrip (py_strip s) = py_strip s.
Proof.
  unfold py_strip. split; [apply rstrip_keeps_lead, lstrip_idem|apply rstrip_idem].
Qed.

Lemma canonical_name_normalize s : canonical_name (normalize_company_name s) = true.
Proof.
  unfold canonical_name, normalize_company_name.
  destruct (py_strip_ends s) as [Hl Hr].
  rewrite lstrip_collapse, rstrip_collapse, collapse_ws_canon by done.
  by rewrite !String.eqb_refl.
Qed.

Lemma normalize_canonical_id s : canonical_name s = true → normalize_company_name s = s.
Proof.
  unfold canonical_name, normalize_company_name, py_strip.
  intros [[Hl Hr]%andb_true_iff Hw]%andb_true_iff.
  apply String.eqb_eq in Hl, Hr. rewrite Hl, Hr. by apply collapse_ws_id.
Qed.

(** ** Case folding commutes with normalization *)

Lemma char_lower_space c : is_space (char_lower c) = is_space c.
Proof. destruct c as [[] [] [] [] [] [] [] []]; reflexivity. Qed.

Lemma char_lower_idem c : char_lower (char_lower c) = char_lower c.
Proof. destruct c as [[] [] [] [] [] [] [] []]; reflexivity. Qed.

Lemma str_lower_idem s : str_lower (str_lower s) = str_lower s.
Proof. induction s as [|c s IH]; simpl; [done|]. by rewrite char_lower_idem, IH. Qed.

Lemma str_lower_empty s : String.eqb (str_lower s) "" = String.eqb s "".
Proof. by destruct s. Qed.

Lemma str_lower_lstrip s : lstrip (str_lower s) = str_lower (lstrip s).
Proof.
  induction s as [|c s IH]; simpl; [done|].
  rewrite char_lower_space. by destruct (is_space c).
Qed.

Lemma str_lower_rstrip s : rstrip (str_lower s) = str_lower (rstrip s).
Proof.
  induction s as [|c s IH]; simpl; [done|].
  rewrite char_lower_space, IH, str_lower_empty.
  by destruct (is_space c && String.eqb (rstrip s) "").
Qed.

Lemma str_lower_collapse b s : collapse_ws b (str_lower s) = str_lower (collapse_ws b s).
Proof.
  revert b; induction s as [|c s IH]; intros b; simpl; [done|].
  rewrite char_lower_space. destruct (is_space c), b; simpl; by rewrite ?IH.
Qed.

Lemma normalize_str_lower s :
  normalize_company_name (str_lower s) = str_lower (normalize_company_name s).
Proof.
  unfold normalize_company_name, py_strip.
  by rewrite str_lower_lstrip, str_lower_rstrip, str_lower_collapse.
Qed.

#[export] Hint Rewrite char_lower_space char_lower_idem str_lower_idem
  str_lower_lstrip str_lower_rstrip str_lower_collapse normalize_str_lower : esg_rw.

(** ** Theorems: names and keys *)


Example normalize_adani : normalize_company_name "  Adani   Power " = "Adani Power".
Proof. reflexivity. Qed.

Section CacheKey.
Context `{Sha1}.

Lemma make_cache_key_eq a b :
  str_lower (normalize_company_name a) = str_lower (normalize_company_name b) →
  make_cache_key a = make_cache_key b.
Proof. unfold make_cache_key. by intros ->. Qed.

(** the cache key is insensitive to whitespace and case: a name,
    its normalized form and its lowercase form share one key, whatever
    the digest function. *)
Theorem make_cache_key_canonical s :
  make_cache_key (normalize_company_name s) = make_cache_key s ∧
  make_cache_key (str_lower s) = make_cache_key s.
Proof.
  split; apply make_cache_key_eq.
  - by rewrite (normalize_canonical_id _ (canonical_name_normalize s)).
  - by rewrite normalize_str_lower, str_lower_idem.
Qed.

End CacheKey.

(** An injective digest, used to exercise the theorems above. *)
Definition identity_digest : Sha1 := {| sha1_hexdigest := λ s, s |}.



(** ** Theorems: keyword detection *)

Lemma detect_esg_aspects_spec text kmap a :
  a ∈ detect_esg_aspects text kmap ↔
  ∃ kws, (a, kws) ∈ kmap ∧ ∃ kw, kw ∈ kws ∧ py_contains kw (str_lower text) = true.
Proof.
  unfold detect_esg_aspects. rewrite list_elem_of_fmap. split.
  - intros ([a' kws] & -> & Hin). apply list_elem_of_In, filter_In in Hin as [Hin Hex].
    apply existsb_exists in Hex as (kw & Hkw & Hc).
    exists kws. split; [by apply list_elem_of_In|]. exists kw. by rewrite list_elem_of_In.
  - intros (kws & Hin & kw & Hkw & Hc). exists (a, kws). split; [done|].
    apply list_elem_of_In, filter_In. split; [by apply list_elem_of_In|].
    apply existsb_exists. exists kw. by rewrite <-list_elem_of_In.
Qed.

(** keyword detection tests substrings, not words: any text whose
    lowercase form contains "sec" (as in "second", "sector", "security")
    is flagged with the governance aspect. *)
Theorem detect_governance_substring text :
  py_contains "sec" (str_lower text) = true →
  "governance" ∈ detect_esg_aspects text ESG_KEYWORDS.
Proof.
  intros Hsec. apply detect_esg_aspects_spec.
  exists GOVERNANCE_KEYWORDS. split; [by right; right; left|].
  exists "sec". split; [|done]. unfold GOVERNANCE_KEYWORDS. set_solver.
Qed.

Lemma detect_governance_substring_witness :
  py_contains "sec" (str_lower "Second-quarter results beat estimates") = true ∧
  "governance" ∈ detect_esg_aspects "Second-quarter results beat estimates" ESG_KEYWORDS.
Proof. split; [reflexivity|]. apply detect_governance_substring. reflexivity. Defined.

(** ** Theorems: deduplication *)

(** Some article of [p] with a truthy key has a key equal to [k]. *)
Definition earlier_match (p : list article) (k : pyval) : bool :=
  existsb (λ e', truthy (dedup_key e') && py_eqb k (dedup_key e')) p.

(** The declarative reading of the loop: an article is kept iff its key
    is truthy and no earlier article ([p] holds them all) has a truthy
    key equal to it. *)
Fixpoint first_occurrences (p : list article) (l : list article) : list article :=
  match l with
  | [] => []
  | e :: es =>
      (if truthy (dedup_key e) && negb (earlier_match p (dedup_key e)) then [e] else [])
      ++ first_occurrences (p ++ [e]) es
  end.

Lemma earlier_match_snoc p e k :
  earlier_match (p ++ [e]) k = earlier_match p k || (truthy (dedup_key e) && py_eqb k (dedup_key e)).
Proof. unfold earlier_match. rewrite existsb_app. simpl. by rewrite orb_false_r. Qed.

(** [seen] represents the earlier articles [p]: a hashable key is in
    [seen] iff it equals the truthy key of some earlier article. *)
Definition seen_repr (seen : list pyval) (p : list article) : Prop :=
  ∀ k, hashable k = true → existsb (py_eqb k) seen = earlier_match p k.

Lemma seen_repr_skip seen p e :
  seen_repr seen p → (truthy (dedup_key e) = false ∨ existsb (py_eqb (dedup_key e)) seen = true) →
  seen_repr seen (p ++ [e]).
Proof.
  intros Hr Hcase k Hk. rewrite earlier_match_snoc, <-Hr by done.
  destruct (truthy (dedup_key e)) eqn:Ht; simpl; [|by rewrite orb_false_r].
  destruct Hcase as [|Hin]; [done|].
  destruct (py_eqb k (dedup_key e)) eqn:Heq; [|by rewrite orb_false_r].
  rewrite orb_true_r. apply existsb_exists in Hin as (s & Hs & Hes).
  apply existsb_exists. exists s. split; [done|]. by eapply py_eqb_trans.
Qed.

Lemma seen_repr_keep seen p e :
  seen_repr seen p → truthy (dedup_key e) = true → seen_repr (dedup_key e :: seen) (p ++ [e]).
Proof.
  intros Hr Ht k Hk. simpl. rewrite earlier_match_snoc, <-Hr, Ht by done.
  simpl. apply orb_comm.
Qed.

Lemma dedup_from_first seen p l :
  seen_repr seen p →
  (∀ e, e ∈ l → truthy (dedup_key e) = true → hashable (dedup_key e) = true) →
  dedup_from seen l = Ok (first_occurrences p l).
Proof.
  revert seen p. induction l as [|e l IH]; intros seen p Hr Hh; [done|]. simpl.
  assert (∀ e', e' ∈ l → truthy (dedup_key e') = true → hashable (dedup_key e') = true)
    as Hh' by (intros; apply Hh; [by right|done]).
  destruct (truthy (dedup_key e)) eqn:Ht; simpl.
  - unfold set_mem. rewrite (Hh e) by (by left || done). simpl.
    rewrite Hr by (apply Hh; [left|done]).
    destruct (earlier_match p (dedup_key e)) eqn:Hm; simpl.
    + apply IH; [|done]. apply seen_repr_skip; [done|]. right. rewrite Hr; [done|].
      apply Hh; [left|done].
    + rewrite (IH (dedup_key e :: seen) (p ++ [e])); [done| |done].
      by apply seen_repr_keep.
  - apply IH; [|done]. apply seen_repr_skip; [done|by left].
Qed.

(** C9: when every truthy identity key is hashable, deduplication keeps
    exactly the articles whose key (the url, else the title) is truthy
    and differs from the key of every earlier article, in input order:
    the first article of each key survives, articles with neither url
    nor title are dropped. *)
Theorem deduplicate_articles_first l :
  (∀ e, e ∈ l → truthy (dedup_key e) = true → hashable (dedup_key e) = true) →
  deduplicate_articles l = Ok (first_occurrences [] l).
Proof. intros Hh. apply dedup_from_first; [|done]. intros k _. done. Qed.

Lemma dedup_from_unhashable seen l e :
  e ∈ l → truthy (dedup_key e) = true → hashable (dedup_key e) = false →
  dedup_from seen l = Err TypeError.
Proof.
  revert seen. induction l as [|e' l IH]; intros seen Hin Ht Hh; [by apply not_elem_of_nil in Hin|].
  apply elem_of_cons in Hin as [->|Hin]; simpl.
  - rewrite Ht. simpl. unfold set_mem. by rewrite Hh.
  - destruct (truthy (dedup_key e')); simpl; [|by apply IH].
    unfold set_mem. destruct (hashable (dedup_key e')); simpl; [|done].
    destruct (existsb _ _); [by apply IH|]. by rewrite IH.
Qed.

(** C32: an article whose url (or, without one, title) is a JSON list or
    object makes deduplication raise [TypeError] (unhashable type),
    which [fetch_articles] does not catch. *)
Theorem deduplicate_articles_unhashable l e :
  e ∈ l → truthy (dedup_key e) = true → hashable (dedup_key e) = false →
  deduplicate_articles l = Err TypeError.
Proof. apply dedup_from_unhashable. Qed.

(** Two articles with the same url, two without url sharing a title, and
    one with neither. *)
Definition dedup_sample : list article :=
  [ mk_article (PStr "Spill") PNone (PStr "u1") PNone (Aware 3) "openai_web_search";
    mk_article (PStr "Spill again") PNone (PStr "u1") PNone (Aware 2) "openai_web_search";
    mk_article (PStr "Strike") PNone PNone PNone (Aware 1) "openai_web_search";
    mk_article (PStr "Strike") (PStr "dup") PNone PNone (Aware 1) "openai_web_search";
    mk_article (PStr "") PNone PNone PNone (Aware 0) "openai_web_search" ].

Lemma deduplicate_articles_first_witness :
  (∀ e, e ∈ dedup_sample → truthy (dedup_key e) = true → hashable (dedup_key e) = true) ∧
  deduplicate_articles dedup_sample
  = Ok [ mk_article (PStr "Spill") PNone (PStr "u1") PNone (Aware 3) "openai_web_search";
         mk_article (PStr "Strike") PNone PNone PNone (Aware 1) "openai_web_search" ].
Proof.
  assert (∀ e, e ∈ dedup_sample → truthy (dedup_key e) = true → hashable (dedup_key e) = true)
    as Hh by (rewrite <-Forall_forall; repeat constructor).
  split; [exact Hh|]. rewrite (deduplicate_articles_first dedup_sample Hh). reflexivity.
Defined.

Lemma deduplicate_articles_unhashable_witness :
  let e := mk_article (PStr "t") PNone (PList [PStr "u"]) PNone (Aware 0) "openai_web_search" in
  e ∈ [e] ∧ truthy (dedup_key e) = true ∧ hashable (dedup_key e) = false ∧
  deduplicate_articles [e] = Err TypeError.
Proof.
  intros e. split; [by left|]. split; [reflexivity|]. split; [reflexivity|].
  apply (deduplicate_articles_unhashable [e] e); [by left|reflexivity|reflexivity].
Defined.

(** ** Theorems: the latest articles *)

Lemma py_take_firstn {A} (l : list A) limit : ∃ n, py_take l limit = firstn n l.
Proof. unfold py_take. destruct (Z.leb 0 limit); eauto. Qed.

(** A successful [take_latest] is a prefix of the entries sorted newest
    first, of length [limit] when [limit] is not negative. *)
Lemma take_latest_prefix l limit r :
  take_latest l limit = Ok r →
  mixed_tz l = false ∧ ∃ n, r = take n (sort_desc published_stamp Z.ltb l) ∧
    (0 ≤ limit → n = Z.to_nat limit)%Z.
Proof.
  unfold take_latest, py_take. destruct (mixed_tz l); [discriminate|]. intros [= <-].
  split; [done|]. destruct (Z.leb_spec 0 limit); eexists; (split; [reflexivity|lia]).
Qed.

Lemma sort_desc_published_sorted l :
  StronglySorted (λ x y, published_stamp y ≤ published_stamp x)%Z (sort_desc published_stamp Z.ltb l).
Proof.
  eapply StronglySorted_weaken; [|apply sort_desc_sorted; apply _].
  intros x y Hxy. unfold desc in Hxy. apply Z.ltb_ge in Hxy. lia.
Qed.

(** C8: when all timestamps are of one kind, [take_latest l limit]
    returns min(limit, |l|) articles for a non-negative [limit], newest
    first, and they are the newest of [l]: every article left out is no
    newer than every article kept. *)
Theorem take_latest_spec l limit r :
  take_latest l limit = Ok r →
  mixed_tz l = false ∧
  (0 ≤ limit → length r = min (Z.to_nat limit) (length l))%Z ∧
  StronglySorted (λ x y, published_stamp y ≤ published_stamp x)%Z r ∧
  ∃ rest, r ++ rest ≡ₚ l ∧
    ∀ x y, x ∈ r → y ∈ rest → (published_stamp y ≤ published_stamp x)%Z.
Proof.
  intros (Hmix & n & -> & Hn)%take_latest_prefix. split; [done|].
  set (s := sort_desc published_stamp Z.ltb l).
  pose proof (sort_desc_published_sorted l) as Hs. fold s in Hs.
  pose proof (take_drop n s) as Hsplit.
  rewrite <-Hsplit in Hs. apply StronglySorted_app_inv in Hs as (H1 & _ & H12).
  split; [|split; [done|]].
  - intros Hl. rewrite length_take, Hn by done. unfold s.
    by rewrite (Permutation_length (sort_desc_perm _ _ _)).
  - exists (drop n s). split; [rewrite Hsplit; apply sort_desc_perm|]. intros x y Hx Hy. by apply H12.
Qed.

Lemma first_occurrences_distinct p l :
  (∀ e, e ∈ l → truthy (dedup_key e) = true → hashable (dedup_key e) = true) →
  NoDup (dedup_key <$> first_occurrences p l) ∧
  ∀ e, e ∈ first_occurrences p l →
    truthy (dedup_key e) = true ∧ earlier_match p (dedup_key e) = false.
Proof.
  revert p. induction l as [|e l IH]; intros p Hh; simpl; [split; [constructor|set_solver]|].
  destruct (IH (p ++ [e])) as [Hnd Hall]; [intros; apply Hh; [by right|done]|].
  assert (∀ x, x ∈ first_occurrences (p ++ [e]) l →
            truthy (dedup_key x) = true ∧ earlier_match p (dedup_key x) = false) as Hall'.
  { intros x Hx. destruct (Hall x Hx) as [Ht Hm]. rewrite earlier_match_snoc in Hm.
    apply orb_false_iff in Hm as [Hm _]. done. }
  destruct (truthy (dedup_key e) && negb (earlier_match p (dedup_key e))) eqn:Hk; simpl.
  - apply andb_true_iff in Hk as [Ht Hm%negb_true_iff]. split.
    + constructor; [|done]. intros (x & Hx & Hin)%list_elem_of_fmap.
      destruct (Hall x Hin) as [_ Hm']. rewrite earlier_match_snoc, Ht, <-Hx in Hm'.
      rewrite py_eqb_refl in Hm' by (apply Hh; [left|done]).
      by rewrite orb_true_r in Hm'.
    + intros x [->|Hx]%elem_of_cons; [done|by apply Hall'].
  - split; [done|]. exact Hall'.
Qed.

Lemma dedup_from_hashable seen l r :
  dedup_from seen l = Ok r →
  ∀ e, e ∈ l → truthy (dedup_key e) = true → hashable (dedup_key e) = true.
Proof.
  intros Hd e He Ht. destruct (hashable (dedup_key e)) eqn:Hh; [done|].
  by rewrite (dedup_from_unhashable seen l e) in Hd.
Qed.

(** The articles deduplication returns have truthy, pairwise distinct keys. *)
Lemma deduplicate_articles_distinct l r :
  deduplicate_articles l = Ok r →
  NoDup (dedup_key <$> r) ∧ Forall (λ e, truthy (dedup_key e) = true) r.
Proof.
  intros Hd. pose proof (dedup_from_hashable _ _ _ Hd) as Hh.
  unfold deduplicate_articles in Hd.
  rewrite (dedup_from_first [] [] l ltac:(by intros k _) Hh) in Hd. injection Hd as <-.
  destruct (first_occurrences_distinct [] l Hh) as [Hnd Hall]. split; [done|].
  apply Forall_forall. intros e He. by apply Hall.
Qed.

Lemma dedup_from_raises seen l : raises_only (λ e, e = TypeError) (dedup_from seen l).
Proof.
  revert seen. induction l as [|e l IH]; intros seen; simpl; [by intros e'|].
  destruct (negb (truthy (dedup_key e))); [apply IH|].
  apply raises_only_bind.
  - unfold set_mem. destruct (hashable _); intros e' [= <-]; done.
  - intros b _. destruct b; [apply IH|]. apply raises_only_bind; [apply IH|]. by intros ? _ e'.
Qed.

(** The two newest articles of [dedup_sample]. *)
Lemma take_latest_spec_witness :
  take_latest dedup_sample 2 = Ok (firstn 2 dedup_sample) ∧
  length (firstn 2 dedup_sample) = min (Z.to_nat 2) (length dedup_sample).
Proof.
  split; [reflexivity|].
  apply (take_latest_spec dedup_sample 2 (firstn 2 dedup_sample)); [reflexivity|lia].
Defined.
