(* ===== verification/Clients.v ===== *)
(** * [src/esg/clients.py]: the article source

    [fetch_articles] asks the web-search oracle for recent ESG news about
    a company, extracts a JSON object from its free-text answer
    ([_parse_articles_payload]: direct parse, then the fenced blocks the
    regex of line 116 finds, then the slice from the first [{] to the
    last [}]), turns each item into an article, deduplicates and keeps
    the latest [limit].

    The oracle is a record [oracle]: the configuration that decides
    whether it is used ([OpenAI] imported, [settings.OPENAI_API_KEY]),
    and its answer to each prompt ([None]: the request failed or the
    answer had no text).  Computations that talk to it run in the monad [M]: an
    error monad that also appends every prompt sent to a log, so that
    the order of the calls is part of the model.

    Theorems: the regex scanner terminates within its fuel and every
    block it returns is a brace-delimited substring; the extraction
    chain returns the first decoding in the order of the code and only
    ever raises [JSONDecodeError]; [fetch_articles] degrades to [[]] when
    the oracle is off, fails, or answers without JSON, and otherwise
    returns at most [limit] distinct articles, newest first; an answer
    mixing dated and undated items, or whose JSON is not an object,
    makes it raise. *)

From S2P Require Import Prelude Python Sorting Keywords Utils.

(** ** The oracle and the computations that call it *)

(** The requests the code sends, by their arguments; [Prompts.v]
    writes out the messages sent for each ([prompt_request]). *)
Inductive prompt :=
  | WebSearchPrompt (company : string) (limit : Z)
  | OverviewPrompt (company : string)
  | AnalysisPrompt (company : string) (articles : list article).

(** The OpenAI client and its configuration: [openai_installed] is
    [OpenAI is not None], false when [from openai import OpenAI] fails
    (lines 26-29, and services.py lines 22-25); [OPENAI_API_KEY] is the
    setting of that name, any Python value; [respond] is the model's
    answer to each request. *)
Record oracle := {
  openai_installed : bool;
  OPENAI_API_KEY : pyval;
  respond : prompt → option string
}.

(** [bool(OpenAI and settings.OPENAI_API_KEY)]: the guard of line 39
    and [ESGService._openai_available].  [settings.OPENAI_MODEL] is not
    tested. *)
Definition openai_available (o : oracle) : bool :=
  openai_installed o && truthy (OPENAI_API_KEY o).

Definition M (A : Type) : Type := list prompt → res A * list prompt.

#[export] Instance M_ret : MRet M := λ A a log, (Ok a, log).
#[export] Instance M_bind : MBind M := λ A B f m log,
  match m log with
  | (Ok a, log') => f a log'
  | (Err e, log') => (Err e, log')
  end.

(** Send a prompt: it is logged whatever the answer. *)
Definition call (o : oracle) (p : prompt) : M (option string) :=
  λ log, (Ok (respond o p), log ++ [p]).

Definition lift {A} (r : res A) : M A := λ log, (r, log).

(** [try: m except <kinds accepted by h>: ...]: [h e] is [Some k] when
    the handler catches [e] and continues with [k]. *)
Definition catch {A} (m : M A) (h : exn → option (M A)) : M A :=
  λ log, match m log with
         | (Err e, log') => match h e with Some k => k log' | None => (Err e, log') end
         | r => r
         end.

(** ** The JSON decoder *)

(** [json.loads]; [None] is the [JSONDecodeError] it raises. *)
Class JsonCodec := { json_loads : string → option pyval }.

(** ** The fenced-block regex [```(?:json)?\s*(\{.*?\})\s*```] *)

(** [\s*] is greedy, and what follows it ([{] or a backquote) is not
    whitespace, so only the longest run can lead to a match. *)
Fixpoint skip_ws (s : string) : string :=
  match s with
  | EmptyString => EmptyString
  | String c s' => if is_space c then skip_ws s' else s
  end.

(** [\s*```] after the closing brace; the text after the match. *)
Definition close_fence (s : string) : option string := strip_prefix "```" (skip_ws s).

(** The lazy [.*?\}]: the shortest body whose closing brace is followed
    by the closing fence; the body (with its brace) and the rest. *)
Fixpoint lazy_body (s : string) : option (string * string) :=
  match s with
  | EmptyString => None
  | String c s' =>
      match (if Ascii.eqb c "}" then close_fence s' else None) with
      | Some rest => Some (String "}" EmptyString, rest)
      | None =>
          match lazy_body s' with
          | Some (b, rest) => Some (String c b, rest)
          | None => None
          end
      end
  end.

(** [\s*(\{.*?\})\s*```] after the opening fence. *)
Definition open_body (s : string) : option (string * string) :=
  match skip_ws s with
  | String c s' =>
      if Ascii.eqb c "{" then
        match lazy_body s' with
        | Some (b, rest) => Some (String "{" b, rest)
        | None => None
        end
      else None
  | EmptyString => None
  end.

(** A match starting at the head of [s]: the group and the text after
    the match.  The optional [json] is tried first, as the regex engine
    does. *)
Definition match_fence_at (s : string) : option (string * string) :=
  match strip_prefix "```" s with
  | None => None
  | Some s1 =>
      match (match strip_prefix "json" s1 with Some s2 => open_body s2 | None => None end) with
      | Some r => Some r
      | None => open_body s1
      end
  end.

(** [re.findall]: scan left to right, resuming after each match. *)
Fixpoint findall_fenced_fuel (fuel : nat) (s : string) : list string :=
  match fuel with
  | O => []
  | S f =>
      match match_fence_at s with
      | Some (g, rest) => g :: findall_fenced_fuel f rest
      | None =>
          match s with
          | EmptyString => []
          | String _ s' => findall_fenced_fuel f s'
          end
      end
  end.

(** Each step consumes at least one character, so [|s| + 1] steps are
    enough (proved below: more fuel finds nothing more). *)
Definition findall_fenced (s : string) : list string :=
  findall_fenced_fuel (S (String.length s)) s.

(** ** [_parse_articles_payload] *)

(** The first fenced block that decodes. *)
Fixpoint first_decoded `{JsonCodec} (blocks : list string) : option pyval :=
  match blocks with
  | [] => None
  | b :: bs => match json_loads b with Some v => Some v | None => first_decoded bs end
  end.

(** [text[text.find('{'):text.rfind('}') + 1]] when both exist in order. *)
Definition brace_slice (text : string) : option string :=
  let start := find_char "{" text in
  let end_ := rfind_char "}" text in
  if negb (Z.eqb start (-1)) && negb (Z.eqb end_ (-1)) && Z.ltb start end_
  then Some (str_slice text start (end_ + 1)) else None.

Definition parse_articles_payload `{JsonCodec} (raw_text : string) : res pyval :=
  let text := py_strip raw_text in
  match json_loads text with
  | Some v => Ok v
  | None =>
      match first_decoded (findall_fenced text) with
      | Some v => Ok v
      | None =>
          match brace_slice text with
          | Some candidate =>
              match json_loads candidate with Some v => Ok v | None => Err JSONDecodeError end
          | None => Err JSONDecodeError
          end
      end
  end.

(** ** [fetch_articles] *)

Definition LOOKBACK_DAYS : Z := 730.

(** One raw item of the answer (lines 89-98); [now] is [utcnow()], a
    naive datetime. *)
Definition article_of_item `{DateLib} (now : Z) (item : pyval) : res article :=
  pa ← py_get item "published_at" PNone;
  title ← py_get item "title" (PStr "");
  description ← py_get item "description" (PStr "");
  url ← py_get item "url" PNone;
  source ← py_get item "source" PNone;
  let published_at := match safe_parse_datetime pa with Some d => d | None => Naive now end in
  mret (mk_article title description url source published_at "openai_web_search").

(** [for item in payload.get('articles', []): ...] *)
Definition articles_of_payload `{DateLib} (now : Z) (payload : pyval) : res (list article) :=
  raw ← py_get payload "articles" (PList []);
  items ← py_iter raw;
  res_map (article_of_item now) items.

(** Only [JSONDecodeError] from the extraction is caught (line 83). *)
Definition fetch_articles `{JsonCodec, DateLib} (o : oracle) (now : Z)
    (company_name : string) (limit : Z) : M (list article) :=
  if negb (openai_available o) then mret [] else
  answer ← call o (WebSearchPrompt company_name limit);
  match answer with
  | None => mret []
  | Some response_text =>
      match parse_articles_payload response_text with
      | Err JSONDecodeError => mret []
      | Err e => lift (Err e)
      | Ok payload =>
          lift (articles ← articles_of_payload now payload;
                unique_articles ← deduplicate_articles articles;
                take_latest unique_articles limit)
      end
  end.

(** ** Theorems: the fenced-block scanner *)

Lemma strip_prefix_length p s t :
  strip_prefix p s = Some t → String.length t + String.length p = String.length s.
Proof.
  revert s; induction p as [|a p IH]; intros [|b s]; simpl; try congruence.
  - intros [= <-]. simpl. lia.
  - intros [= <-]. simpl. lia.
  - destruct (Ascii.eqb a b); [|done]. intros H%IH. lia.
Qed.

Lemma skip_ws_length s : String.length (skip_ws s) ≤ String.length s.
Proof. induction s as [|c s IH]; simpl; [lia|]. destruct (is_space c); simpl; lia. Qed.

Lemma close_fence_length s t : close_fence s = Some t → String.length t < String.length s.
Proof.
  unfold close_fence. intros H%strip_prefix_length. pose proof (skip_ws_length s).
  simpl in H. lia.
Qed.

(** The body ends with the closing brace, and the rest is shorter. *)
Lemma lazy_body_spec s b rest :
  lazy_body s = Some (b, rest) →
  (∃ b', b = (b' ++ "}")%string) ∧ String.length rest < String.length s.
Proof.
  revert b rest; induction s as [|c s IH]; intros b rest; simpl; [done|].
  destruct (Ascii.eqb c "}"); [destruct (close_fence s) as [r|] eqn:Hf|].
  1: { intros [= <- <-]. split; [by exists ""%string|].
       apply close_fence_length in Hf. simpl; lia. }
  all: destruct (lazy_body s) as [[b0 r0]|] eqn:Hb; [|done]; intros [= <- <-];
       destruct (IH _ _ eq_refl) as [[b' ->] Hl]; split; [by exists (String c b')|simpl; lia].
Qed.

Lemma open_body_spec s g rest :
  open_body s = Some (g, rest) →
  (∃ b, g = ("{" ++ b ++ "}")%string) ∧ String.length rest < String.length s.
Proof.
  unfold open_body. pose proof (skip_ws_length s) as Hsk.
  destruct (skip_ws s) as [|c s'] eqn:Hs; [done|].
  destruct (Ascii.eqb c "{"); [|done].
  destruct (lazy_body s') as [[b r]|] eqn:Hb; [|done]. intros [= <- <-].
  destruct (lazy_body_spec _ _ _ Hb) as [[b' ->] Hl].
  split; [by exists b'|simpl in Hsk; lia].
Qed.

Lemma match_fence_at_spec s g rest :
  match_fence_at s = Some (g, rest) →
  (∃ b, g = ("{" ++ b ++ "}")%string) ∧ String.length rest < String.length s.
Proof.
  unfold match_fence_at.
  destruct (strip_prefix "```" s) as [s1|] eqn:H1; [|done].
  apply strip_prefix_length in H1. simpl in H1.
  destruct (strip_prefix "json" s1) as [s2|] eqn:H2.
  - apply strip_prefix_length in H2. simpl in H2.
    destruct (open_body s2) as [[g' r']|] eqn:Ho.
    + intros [= <- <-]. destruct (open_body_spec _ _ _ Ho). split; [done|lia].
    + intros (? & ?)%open_body_spec. split; [done|lia].
  - intros (? & ?)%open_body_spec. split; [done|lia].
Qed.

Lemma findall_fenced_fuel_stable n m s :
  String.length s < n → String.length s < m → findall_fenced_fuel n s = findall_fenced_fuel m s.
Proof.
  revert m s; induction n as [|n IH]; intros [|m] s Hn Hm; try lia; simpl.
  destruct (match_fence_at s) as [[g rest]|] eqn:Hmf.
  - apply match_fence_at_spec in Hmf as [_ Hl]. f_equal. apply IH; lia.
  - destruct s as [|c s]; [done|]. simpl in *. apply IH; lia.
Qed.

(** the scan of [re.findall] terminates: any fuel beyond the length
    of the text gives the same blocks as [findall_fenced]. *)
Theorem findall_fenced_fuel_enough n s :
  String.length s < n → findall_fenced_fuel n s = findall_fenced s.
Proof. intros Hn. apply findall_fenced_fuel_stable; simpl; lia. Qed.

Lemma findall_fenced_fuel_enough_witness :
  String.length "```json{a}```" < 100 ∧
  findall_fenced_fuel 100 "```json{a}```" = findall_fenced "```json{a}```".
Proof. split; [simpl; lia|]. apply findall_fenced_fuel_enough. simpl; lia. Defined.

(** Every block the scanner returns is delimited by braces. *)
Lemma findall_fenced_braces s g :
  g ∈ findall_fenced s → ∃ b, g = ("{" ++ b ++ "}")%string.
Proof.
  unfold findall_fenced. generalize (S (String.length s)) as n.
  intros n. revert s. induction n as [|n IH]; intros s; simpl; [by intros ?%not_elem_of_nil|].
  destruct (match_fence_at s) as [[g' rest]|] eqn:Hmf.
  - intros [->|Hin]%elem_of_cons; [by apply match_fence_at_spec in Hmf as []|by eapply IH].
  - destruct s; [by intros ?%not_elem_of_nil|]. apply IH.
Qed.

Example findall_fenced_sample :
  findall_fenced "Here: ```json  {a: 1} ``` and ```{b}``` and ```json{c}x``` {d}```"
  = ["{a: 1}"; "{b}"; "{c}x``` {d}"].
Proof. reflexivity. Qed.

(** ** Theorems: the extraction chain *)

(** The first fenced block that decodes is the one used. *)
Lemma first_decoded_first `{JsonCodec} pre g post v :
  Forall (λ b, json_loads b = None) pre → json_loads g = Some v →
  first_decoded (pre ++ g :: post) = Some v.
Proof. induction 1 as [|b pre Hb _ IH]; simpl; [by intros ->|]. rewrite Hb. done. Qed.

Lemma first_decoded_none `{JsonCodec} bs :
  Forall (λ b, json_loads b = None) bs → first_decoded bs = None.
Proof. induction 1 as [|b bs Hb _ IH]; simpl; [done|]. by rewrite Hb. Qed.

Section Extraction.
Context `{JsonCodec}.

Lemma parse_articles_payload_error raw e :
  parse_articles_payload raw = Err e → e = JSONDecodeError.
Proof. unfold parse_articles_payload. repeat case_match; congruence. Qed.

End Extraction.


(** ** Theorems: [fetch_articles] *)

Section Fetch.
Context `{JsonCodec, DateLib}.

Lemma fetch_articles_call o now c lim log :
  openai_available o = true →
  fetch_articles o now c lim log =
  (match respond o (WebSearchPrompt c lim) with
   | None => mret []
   | Some t =>
       match parse_articles_payload t with
       | Err JSONDecodeError => mret []
       | Err e => lift (Err e)
       | Ok payload =>
           lift (articles ← articles_of_payload now payload;
                 unique_articles ← deduplicate_articles articles;
                 take_latest unique_articles lim)
       end
   end) (log ++ [WebSearchPrompt c lim]).
Proof. intros Ha. unfold fetch_articles. by rewrite Ha. Qed.

(** C24: the article source fails softly: with the oracle unconfigured
    it returns [[]] without a request; when the request fails, or its
    answer holds no extractable JSON, it returns [[]] after the one
    request. *)
Theorem fetch_articles_soft_failure o now c lim log :
  (openai_available o = false → fetch_articles o now c lim log = (Ok [], log)) ∧
  (openai_available o = true → respond o (WebSearchPrompt c lim) = None →
     fetch_articles o now c lim log = (Ok [], log ++ [WebSearchPrompt c lim])) ∧
  (∀ text, openai_available o = true → respond o (WebSearchPrompt c lim) = Some text →
     parse_articles_payload text = Err JSONDecodeError →
     fetch_articles o now c lim log = (Ok [], log ++ [WebSearchPrompt c lim])).
Proof.
  split; [|split].
  - intros Ha. unfold fetch_articles. by rewrite Ha.
  - intros Ha Hr. rewrite fetch_articles_call, Hr by done. done.
  - intros t Ha Hr Hp. rewrite fetch_articles_call, Hr, Hp by done. done.
Qed.

(** The web search is the one request a fetch sends. *)
Lemma fetch_articles_log o now c lim log :
  snd (fetch_articles o now c lim log)
  = if openai_available o then log ++ [WebSearchPrompt c lim] else log.
Proof.
  destruct (openai_available o) eqn:Ha; [|unfold fetch_articles; by rewrite Ha].
  rewrite fetch_articles_call by done.
  destruct (respond o _); [|done]. by destruct (parse_articles_payload _) as [|[]].
Qed.

(** The articles of a successful fetch. *)
Lemma fetch_articles_result o now c lim log arts log' :
  fetch_articles o now c lim log = (Ok arts, log') → (0 ≤ lim)%Z →
  length arts ≤ Z.to_nat lim ∧
  StronglySorted (λ x y, published_stamp y ≤ published_stamp x)%Z arts ∧
  NoDup (dedup_key <$> arts).
Proof.
  intros Hf Hlim.
  assert (Hnil : arts = [] → length arts ≤ Z.to_nat lim ∧
            StronglySorted (λ x y, published_stamp y ≤ published_stamp x)%Z arts ∧
            NoDup (dedup_key <$> arts)) by (intros ->; repeat constructor; simpl; lia).
  destruct (openai_available o) eqn:Ha.
  2: { unfold fetch_articles in Hf. rewrite Ha in Hf. injection Hf as <- _. by apply Hnil. }
  rewrite fetch_articles_call in Hf by done.
  destruct (respond o _) as [t|]; [|injection Hf as <- _; by apply Hnil].
  destruct (parse_articles_payload t) as [payload|[]]; simpl in Hf; try discriminate Hf.
  2: { injection Hf as <- _. by apply Hnil. }
  injection Hf as Hr _. res_simpl.
  destruct (deduplicate_articles_distinct _ _ Hm0) as [Hnd _].
  destruct (take_latest_prefix _ _ _ Hr) as (_ & n & -> & Hn).
  pose proof (sort_desc_published_sorted a0) as Hs.
  set (s := sort_desc published_stamp Z.ltb a0) in *.
  assert (Hperm : take n s ++ drop n s ≡ₚ a0) by (rewrite take_drop; apply sort_desc_perm).
  split_and!; [rewrite length_take, Hn by done; lia| |].
  - rewrite <-(take_drop n s) in Hs. by apply StronglySorted_app_inv in Hs as [? _].
  - rewrite <-Hperm, fmap_app in Hnd. by apply NoDup_app in Hnd as [? _].
Qed.

(** C23: a successful fetch with a non-negative [limit] returns at most
    [limit] articles, newest first, no two with the same identity key,
    having sent at most the one web-search request. *)
Theorem fetch_articles_ok o now c lim log arts log' :
  fetch_articles o now c lim log = (Ok arts, log') → (0 ≤ lim)%Z →
  length arts ≤ Z.to_nat lim ∧
  StronglySorted (λ x y, published_stamp y ≤ published_stamp x)%Z arts ∧
  NoDup (dedup_key <$> arts) ∧
  (log' = log ∨ log' = log ++ [WebSearchPrompt c lim]).
Proof.
  intros Hf Hlim. pose proof (fetch_articles_log o now c lim log) as Hlog.
  rewrite Hf in Hlog. simpl in Hlog.
  destruct (fetch_articles_result _ _ _ _ _ _ _ Hf Hlim) as (Hlen & Hs & Hnd).
  split_and!; [done..|]. destruct (openai_available o); [by right|by left].
Qed.

Lemma safe_parse_datetime_aware v d : safe_parse_datetime v = Some d → dt_aware d = true.
Proof.
  destruct v as [| | | |s| |]; simpl; try done.
  destruct (String.eqb s ""); [done|]. destruct (parse_datetime_text s) as [[]|]; by intros [= <-].
Qed.

(** C28: an answer with one item whose [published_at] parses (to an
    aware datetime) and one whose [published_at] is missing or does not
    parse (so it gets the naive [utcnow()] default), with distinct urls,
    makes the sort of [take_latest] compare naive with aware datetimes:
    [fetch_articles] raises [TypeError] instead of returning the
    articles. *)
Theorem fetch_articles_mixed_tz o now c lim log text kvs1 kvs2 u1 u2 :
  openai_available o = true → respond o (WebSearchPrompt c lim) = Some text →
  parse_articles_payload text = Ok (PDict [("articles", PList [PDict kvs1; PDict kvs2])]) →
  assoc_get "url" kvs1 = Some (PStr u1) → assoc_get "url" kvs2 = Some (PStr u2) →
  u1 ≠ "" → u2 ≠ "" → u1 ≠ u2 →
  is_Some (safe_parse_datetime (default PNone (assoc_get "published_at" kvs1))) →
  safe_parse_datetime (default PNone (assoc_get "published_at" kvs2)) = None →
  fetch_articles o now c lim log = (Err TypeError, log ++ [WebSearchPrompt c lim]).
Proof.
  intros Ha Hr Hp Hu1 Hu2 Hn1%String.eqb_neq Hn2%String.eqb_neq Hne [d Hd] Hnd.
  rewrite fetch_articles_call, Hr, Hp by done. cbn [lift mbind res_bind].
  unfold default, id in Hd, Hnd. unfold articles_of_payload. cbn.
  rewrite Hu1, Hu2, Hd, Hnd. unfold dedup_key, py_or. cbn [truthy art_url negb].
  rewrite Hn1, Hn2. cbn. rewrite Hn1, Hn2, (proj2 (String.eqb_neq u2 u1)) by congruence. cbn.
  unfold take_latest, mixed_tz. cbn. by rewrite (safe_parse_datetime_aware _ _ Hd).
Qed.

(** C29: an answer whose JSON is not an object (a list, a string, a
    number) makes [payload.get] raise [AttributeError], which escapes
    [fetch_articles] although the spec treats malformed answers as a
    soft failure. *)
Theorem fetch_articles_not_object o now c lim log text payload :
  openai_available o = true → respond o (WebSearchPrompt c lim) = Some text →
  parse_articles_payload text = Ok payload → (∀ kvs, payload ≠ PDict kvs) →
  fetch_articles o now c lim log = (Err AttributeError, log ++ [WebSearchPrompt c lim]).
Proof.
  intros Ha Hr Hp Hnd. rewrite fetch_articles_call, Hr, Hp by done.
  destruct payload; simpl; try done. by destruct (Hnd kvs).
Qed.
End Fetch.

(** ** Witnesses on a concrete answer *)

(** A decoder given by a table of texts and their values, and a date
    library that parses one ISO date (to a naive datetime, as dateutil
    does for a date without offset). *)
Fixpoint table_lookup (tbl : list (string * pyval)) (s : string) : option pyval :=
  match tbl with
  | [] => None
  | (k, v) :: tbl' => if String.eqb k s then Some v else table_lookup tbl' s
  end.

Definition table_codec (tbl : list (string * pyval)) : JsonCodec :=
  {| json_loads := table_lookup tbl |}.

Definition sample_dates : DateLib := {|
  dateutil_parser := Some (λ s, if String.eqb s "2024-05-01" then Some (Naive 1714521600) else None);
  fromisoformat := λ _, None;
  iso_of_aware := λ _, "2024-05-01T00:00:00+00:00";
  strftime_date := λ _, "May 01, 2024";
  strftime_generated := λ _, "May 01, 2024 at 12:00 AM UTC"
|}.

Module FetchSamples.
(** One dated and one undated item. *)
Definition answer_payload : pyval :=
  PDict [("articles", PList [
    PDict [("title", PStr "Oil spill at plant"); ("url", PStr "https://news/a");
           ("published_at", PStr "2024-05-01")];
    PDict [("title", PStr "Workers strike"); ("url", PStr "https://news/b")]])].

#[local] Instance codec : JsonCodec :=
  table_codec [("ANSWER", answer_payload); ("LIST", PList []); ("{A}", answer_payload)].
#[local] Existing Instance sample_dates.

Definition answering (text : string) : oracle :=
  {| openai_installed := true; OPENAI_API_KEY := PStr "sk-test"; respond := λ _, Some text |}.
Definition offline : oracle := {| openai_installed := true; OPENAI_API_KEY := PNone; respond := λ _, None |}.
Definition broken : oracle := {| openai_installed := true; OPENAI_API_KEY := PStr "sk-test"; respond := λ _, None |}.

Lemma fetch_articles_soft_failure_witness :
  fetch_articles offline 0 "Adani Power" 50 [] = (Ok [], []) ∧
  fetch_articles broken 0 "Adani Power" 50 [] = (Ok [], [WebSearchPrompt "Adani Power" 50]) ∧
  fetch_articles (answering "no json here") 0 "Adani Power" 50 []
    = (Ok [], [WebSearchPrompt "Adani Power" 50]).
Proof.
  destruct (fetch_articles_soft_failure offline 0 "Adani Power" 50 []) as [H1 _].
  destruct (fetch_articles_soft_failure broken 0 "Adani Power" 50 []) as [_ [H2 _]].
  destruct (fetch_articles_soft_failure (answering "no json here") 0 "Adani Power" 50 [])
    as [_ [_ H3]].
  split; [apply H1; reflexivity|]. split; [apply H2; reflexivity|].
  apply (H3 "no json here"); reflexivity.
Defined.

Lemma fetch_articles_mixed_tz_witness :
  fetch_articles (answering "ANSWER") 1714600000 "Adani Power" 50 []
  = (Err TypeError, [WebSearchPrompt "Adani Power" 50]).
Proof.
  eapply (fetch_articles_mixed_tz _ _ _ _ [] _ _ _ "https://news/a" "https://news/b");
    try reflexivity; try discriminate.
  eexists. reflexivity.
Defined.

Lemma fetch_articles_not_object_witness :
  fetch_articles (answering "LIST") 0 "Adani Power" 50 []
  = (Err AttributeError, [WebSearchPrompt "Adani Power" 50]).
Proof.
  eapply fetch_articles_not_object; [reflexivity|reflexivity|reflexivity|].
  intros kvs; discriminate.
Defined.

(** The same answer with both items dated succeeds. *)
Definition dated_payload : pyval :=
  PDict [("articles", PList [
    PDict [("title", PStr "Oil spill at plant"); ("url", PStr "https://news/a");
           ("published_at", PStr "2024-05-01")];
    PDict [("title", PStr "Oil spill at plant"); ("url", PStr "https://news/a");
           ("published_at", PStr "2024-05-01")]])].

Lemma fetch_articles_ok_witness :
  @fetch_articles (table_codec [("DATED", dated_payload)]) sample_dates
    (answering "DATED") 0 "Adani Power" 50 []
  = (Ok [mk_article (PStr "Oil spill at plant") (PStr "") (PStr "https://news/a") PNone
           (Aware 1714521600) "openai_web_search"], [WebSearchPrompt "Adani Power" 50]) ∧
  length [mk_article (PStr "Oil spill at plant") (PStr "") (PStr "https://news/a") PNone
           (Aware 1714521600) "openai_web_search"] ≤ Z.to_nat 50.
Proof.
  assert (H : @fetch_articles (table_codec [("DATED", dated_payload)]) sample_dates
    (answering "DATED") 0 "Adani Power" 50 []
    = (Ok [mk_article (PStr "Oil spill at plant") (PStr "") (PStr "https://news/a") PNone
           (Aware 1714521600) "openai_web_search"], [WebSearchPrompt "Adani Power" 50]))
    by reflexivity.
  split; [exact H|]. apply (fetch_articles_ok _ _ _ _ _ _ _ H). lia.
Defined.

End FetchSamples.

(** ** Running [M] computations *)

Lemma M_bind_ok {A B} (m : M A) (f : A → M B) log a log1 :
  m log = (Ok a, log1) → (m ≫= f) log = f a log1.
Proof. intros Hm. unfold mbind, M_bind. by rewrite Hm. Qed.

Lemma M_bind_err {A B} (m : M A) (f : A → M B) log e log1 :
  m log = (Err e, log1) → (m ≫= f) log = (Err e, log1).
Proof. intros Hm. unfold mbind, M_bind. by rewrite Hm. Qed.

Lemma articles_of_payload_raises `{DateLib} now payload :
  raises_only (λ e, e = TypeError ∨ e = AttributeError) (articles_of_payload now payload).
Proof.
  unfold articles_of_payload.
  apply raises_only_bind; [eapply raises_only_weaken; [|apply py_get_raises]; by right|].
  intros raw _. apply raises_only_bind; [eapply raises_only_weaken; [|apply py_iter_raises]; by left|].
  intros its _. apply raises_only_res_map. intros v. unfold article_of_item.
  raises_step; eapply raises_only_weaken; try apply py_get_raises; by right.
Qed.

(** The article source raises no [ESGServiceError]. *)
Lemma fetch_articles_raises `{JsonCodec, DateLib} o now c lim log :
  raises_only (λ e, e = TypeError ∨ e = AttributeError) (fst (fetch_articles o now c lim log)).
Proof.
  destruct (openai_available o) eqn:Ha; [|unfold fetch_articles; rewrite Ha; by intros e].
  rewrite fetch_articles_call by done.
  destruct (respond o _) as [t|]; [|by intros e].
  destruct (parse_articles_payload t) as [payload|e] eqn:Hp.
  - simpl. apply raises_only_bind; [apply articles_of_payload_raises|]. intros arts _.
    apply raises_only_bind; [eapply raises_only_weaken; [|apply dedup_from_raises]; by left|].
    intros u _. intros e He. left. unfold take_latest in He.
    by destruct (mixed_tz _); [injection He|].
  - rewrite (parse_articles_payload_error t e Hp). simpl. by intros e'.
Qed.
