(* ===== verification/Prompts.v ===== *)
(** * The requests sent to the OpenAI client

    [Clients.v] names each request by its arguments ([prompt]); this
    file writes out what is sent for each: the list of chat messages
    (role and content), the tools and the output bound.

    - [fetch_articles] ([src/esg/clients.py], lines 43-70) sends a system
      message with the article [limit] written into it by [str.format],
      and a user message with the company, [LOOKBACK_DAYS] and the ESG
      keywords, sorted in code-point order and joined with comma-space;
      with the [web_search] tool and [max_output_tokens=2000].
    - [_execute_openai_prompt] ([src/esg/services.py], lines 243-256)
      sends a system message only when [system_prompt] is truthy, then
      the user message.  [_fetch_company_overview] (lines 79-84) calls it
      with the user prompt alone, [_analyse_with_openai] (lines 103-123)
      with a system prompt naming the company and a user prompt that
      embeds [json.dumps] of the article payload ([Json.v]).

    Theorem: the payload embedded in the analysis request decodes back to one object per article, in
    order, with its title, description, url, source and ISO date. *)

From stdpp Require Import sorting.
From S2P Require Import Prelude Python Keywords Utils Clients Json.

(** ** Messages *)

Record message := mk_message {
  role : string;
  content : string
}.

(** [client.responses.create(model=..., input=..., tools=..., max_output_tokens=...)];
    the model name is a setting, the same for every request. *)
Record api_request := mk_api_request {
  req_input : list message;
  req_tools : list string;
  req_max_output_tokens : option Z
}.

Definition nl : string := str1 "010".

(** A text between double quotes. *)
Definition quoted (s : string) : string := String dq (s +:+ str1 dq).

(** ** [fetch_articles] *)

(** [sorted(ALL_KEYWORDS)]: ascending code-point order. *)
Definition sorted_keywords : list string := merge_sort String.le ALL_KEYWORDS.

(** [', '.join(sorted(ALL_KEYWORDS))]. *)
Definition keywords : string := String.concat ", " sorted_keywords.

Definition web_search_system_prompt (limit : Z) : string :=
  "You are an ESG research assistant. Use the web_search tool to find recent (last 2 years) "
  +:+ "news items describing environmental, social, or governance risks involving the requested company. Make the search less strict and retrieve several relevant results. "
  +:+ "Return strictly valid JSON with a top-level key " +:+ quoted "articles"
  +:+ " containing a list of objects with "
  +:+ "keys: title, description, url, source, published_at (ISO 8601). Include up to "
  +:+ int_repr limit +:+ " distinct articles "
  +:+ "from credible sources. Focus on risk/controversy narratives, not generic corporate press releases.".

Definition web_search_user_prompt (company_name : string) : string :=
  "Company: " +:+ company_name +:+ nl
  +:+ "Time horizon: last " +:+ int_repr LOOKBACK_DAYS +:+ " days (approx. 2 years)." +:+ nl
  +:+ "Relevant ESG keywords: " +:+ keywords +:+ "." +:+ nl
  +:+ "Provide concise descriptions summarising the ESG risk highlighted by each article.".

Definition web_search_request (company_name : string) (limit : Z) : api_request :=
  mk_api_request
    [mk_message "system" (web_search_system_prompt limit);
     mk_message "user" (web_search_user_prompt company_name)]
    ["web_search"] (Some 2000%Z).

(** ** [ESGService] *)

(** [_execute_openai_prompt]: [if system_prompt:] on [str | None]. *)
Definition openai_messages (system_prompt : option string) (user_prompt : string) : list message :=
  match system_prompt with
  | Some s => if String.eqb s "" then [] else [mk_message "system" s]
  | None => []
  end ++ [mk_message "user" user_prompt].

Definition execute_request (system_prompt : option string) (user_prompt : string) : api_request :=
  mk_api_request (openai_messages system_prompt user_prompt) [] None.

Definition overview_prompt (company_name : string) : string :=
  "Provide a concise two-sentence overview of the company named "
  +:+ "'" +:+ company_name +:+ "'. Focus on its core business, scale, and recent strategic priorities.".

(** One element of [payload]: a [datetime] is always truthy, so
    [published_at] is always its [isoformat]. *)
Definition payload_item `{DateLib} (a : article) : pyval :=
  PDict [("title", art_title a);
         ("description", art_description a);
         ("url", art_url a);
         ("source", art_source a);
         ("published_at", PStr (isoformat (art_published_at a)))].

Definition analysis_system_prompt (company_name : string) : string :=
  "You are an ESG analyst. Analyse the provided news items for "
  +:+ company_name +:+ " and return a JSON report with keys 'items' and 'overall_score'. "
  +:+ "Each item must include 'title', 'description', 'date', 'source', 'url', and a 'scores' object "
  +:+ "with numeric values (0-100) for 'environment', 'social', 'governance', and 'overall'.".

Definition analysis_footer : string := nl +:+ nl +:+ "Respond strictly in JSON.".

Definition analysis_user_prompt `{DateLib, FloatRepr} (articles : list article) : string :=
  "News items JSON:" +:+ nl +:+ json_dumps (PList (map payload_item articles)) +:+ analysis_footer.

(** The request behind each [prompt] of the model. *)
Definition prompt_request `{DateLib, FloatRepr} (p : prompt) : api_request :=
  match p with
  | WebSearchPrompt c limit => web_search_request c limit
  | OverviewPrompt c => execute_request None (overview_prompt c)
  | AnalysisPrompt c arts =>
      execute_request (Some (analysis_system_prompt c)) (analysis_user_prompt arts)
  end.

(** ** Reading a request back *)

(** The payload of an analysis user prompt: the JSON text between the
    header and the footer, decoded. *)
Definition read_analysis_payload `{FloatLib} (user_prompt : string) : option pyval :=
  match strip_prefix ("News items JSON:" +:+ nl) user_prompt with
  | Some t =>
      match parse_value (String.length t) t with
      | Some (v, rest) => if String.eqb rest analysis_footer then Some v else None
      | None => None
      end
  | None => None
  end.

(** ** Lemmas *)





Lemma strip_prefix_app_assoc p q r : strip_prefix (p +:+ q) (p +:+ (q +:+ r)) = Some r.
Proof. rewrite <- str_app_assoc. apply strip_prefix_app. Qed.


(** ** The analysis request *)

Section Analysis.
Context `{DateLib, FloatRepr, FloatLib}.
Context `{!FloatReprLaws}.

(** C16: the analysis request sends the system prompt naming the
    company, then a user prompt whose JSON payload, read back between
    its header and its footer, is one object per article, in the order
    of the articles, with its title, description, url, source and the
    [isoformat] of its date, given the laws of [float.__repr__]. *)
Theorem analysis_request_payload c arts :
  ∃ u, req_input (prompt_request (AnalysisPrompt c arts)) =
         [mk_message "system" (analysis_system_prompt c); mk_message "user" u]
     ∧ read_analysis_payload u =
         Some (PList (map (λ a, PDict [("title", art_title a);
                                       ("description", art_description a);
                                       ("url", art_url a);
                                       ("source", art_source a);
                                       ("published_at", PStr (isoformat (art_published_at a)))])
                          arts)).
Proof.
  exists (analysis_user_prompt arts). split; [reflexivity|].
  unfold read_analysis_payload, analysis_user_prompt. rewrite strip_prefix_app_assoc.
  rewrite parse_value_dumps_list, String.eqb_refl; [done|].
  rewrite str_length_app. pose proof (json_size_le_length (PList (map payload_item arts))). lia.
Qed.
End Analysis.

(** ** Witnesses *)

Module PromptSamples.
#[local] Existing Instance sample_dates.
#[local] Existing Instances JsonSamples.decimal_repr JsonSamples.decimal_floats JsonSamples.decimal_laws.

Definition spill : article :=
  mk_article (PStr "Oil spill at the terminal") (PStr "Crude leaked into the bay.")
    (PStr "https://news.example/spill") PNone (Naive 1714521600) "openai_web_search".

Lemma analysis_request_payload_witness :
  @FloatReprLaws JsonSamples.decimal_repr JsonSamples.decimal_floats ∧
  ∃ u, req_input (prompt_request (AnalysisPrompt "Adani Power" [spill])) =
         [mk_message "system" (analysis_system_prompt "Adani Power"); mk_message "user" u]
     ∧ read_analysis_payload u =
         Some (PList [PDict [("title", PStr "Oil spill at the terminal");
                             ("description", PStr "Crude leaked into the bay.");
                             ("url", PStr "https://news.example/spill");
                             ("source", PNone);
                             ("published_at", PStr "2024-05-01T00:00:00+00:00")]]).
Proof.
  split; [exact JsonSamples.decimal_laws|].
  destruct (analysis_request_payload "Adani Power" [spill]) as (u & Hreq & Hpay).
  exists u. split; [exact Hreq|]. rewrite Hpay. reflexivity.
Defined.

Lemma web_search_request_sample :
  req_input (web_search_request "Adani Power" 50) !! 0%nat
  = Some (mk_message "system" (web_search_system_prompt 50)).
Proof. reflexivity. Qed.
End PromptSamples.
