(* ===== verification/Scoring.v ===== *)
(** * The scoring engine of [ESGService] ([src/esg/services.py])

    Per-article ESG scores, from the reasoning oracle's JSON report
    ([_analyse_with_openai], each item through
    [_normalize_item_structure]) or from the keyword heuristic
    ([_analyse_with_heuristics]); the weighted overall score
    ([_calculate_weighted_score], weights 4/3/3), the clamping of every
    score into [0, 100] ([_coerce_score]), the mean over the items
    ([_compute_overall_score]), the descending stable sort
    ([_sort_items_by_score]), and the fallback policy of
    [_analyse_articles].

    Scores are exact rationals; [round(x, 2)] is [py_round2], proved
    within half a hundredth of its argument and compatible with [Qeq].

    Theorems: the weighted score is [round((4E+3S+3G)/10, 2)] and lies in
    [[0, 100]]; [_coerce_score] lands in [[0, 100]] or raises
    [OverflowError] on a huge integer, and sends NaN to 100; every
    normalized item is in range and its missing [overall] defaults to
    the weighted score; the heuristic scores 70 per detected aspect and
    returns items sorted stably by overall score with their mean; the
    oracle path falls back to the heuristic exactly on [ESGServiceError]
    (unconfigured, failed request, non-JSON answer), while a non-object
    report raises [AttributeError]; a report's [overall_score] is kept
    verbatim; every analysis is well formed ([items_wf]); the display
    date is a string exactly on falsy or string input, ["N/A"] for a
    falsy one, and any other truthy value passed through unchanged. *)

From S2P Require Import Prelude Python Sorting Keywords Utils Clients.

Local Open Scope Q_scope.

(** ** Rounding and the float order on scores *)

(** Round half to even of [q] to an integer, on its exact value. *)
Definition round_half_even (q : Q) : Z :=
  let n := Qnum q in
  let d := Zpos (Qden q) in
  let f := (n / d)%Z in
  match Z.compare (2 * (n mod d)) d with
  | Lt => f
  | Gt => (f + 1)%Z
  | Eq => if Z.even f then f else (f + 1)%Z
  end.

(** [round(x, 2)]. *)
Definition py_round2 (x : Q) : Q := round_half_even (x * 100) # 100.

(** [a < b] on finite floats. *)
Definition Qltb (a b : Q) : bool := negb (Qle_bool b a).

(** ** [_coerce_score] *)

(** [min(100.0, x)] and [max(0.0, x)]: the first argument is kept unless
    the second compares smaller (resp. greater), so a NaN yields the
    constant. *)
Definition py_min100 (f : pyfloat) : pyfloat := if pyfloat_lt f (Fin 100) then f else Fin 100.
Definition py_max0 (f : pyfloat) : pyfloat := if pyfloat_lt (Fin 0) f then f else Fin 0.

(** [max(0.0, min(100.0, number))]; the result is always finite
    ([clamp_finite]), the last branch is never taken. *)
Definition clamp_score (number : pyfloat) : Q :=
  match py_max0 (py_min100 number) with Fin q => q | _ => 0 end.

Definition coerce_score `{FloatLib} (value : pyval) (default : Q) : res Q :=
  match py_float value with
  | Ok number => Ok (clamp_score number)
  | Err TypeError | Err ValueError => Ok default
  | Err e => Err e
  end.

(** ** [_calculate_weighted_score] *)

Definition WEIGHT_environment : Z := 4.
Definition WEIGHT_social : Z := 3.
Definition WEIGHT_governance : Z := 3.

(** Both callers pass a dict whose three entries are numbers, on which
    [_coerce_score] is [clamp_score]. *)
Definition calculate_weighted_score (environment social governance : Q) : Q :=
  let total_weight := (WEIGHT_environment + WEIGHT_social + WEIGHT_governance)%Z in
  let weighted_sum :=
    inject_Z WEIGHT_environment * clamp_score (Fin environment)
    + inject_Z WEIGHT_social * clamp_score (Fin social)
    + inject_Z WEIGHT_governance * clamp_score (Fin governance) in
  if Z.eqb total_weight 0 then 0 else py_round2 (weighted_sum / inject_Z total_weight).

(** ** Analysed items *)

Record scoreset := mk_scores {
  environment : Q;
  social : Q;
  governance : Q;
  overall : Q
}.

(** The dict of one analysed item. *)
Record item := mk_item {
  it_title : pyval;
  it_description : pyval;
  it_date : pyval;
  it_display_date : pyval;
  it_source : pyval;
  it_url : pyval;
  it_scores : scoreset
}.

Definition item_overall (it : item) : Q := overall (it_scores it).

(** [_format_display_date] on a JSON value (never a [datetime] here). *)
Definition format_display_date `{DateLib} (value : pyval) : pyval :=
  match (if truthy value then safe_parse_datetime value else None) with
  | Some dt => PStr (strftime_date dt)
  | None => py_or value (PStr "N/A")
  end.

(** [_compute_overall_score]: every item's [overall] is a float, so the
    [isinstance] filter keeps them all. *)
Definition compute_overall_score (items : list item) : Q :=
  match items with
  | [] => 0
  | _ =>
      let valid_scores := map item_overall items in
      py_round2 (fold_right Qplus 0 valid_scores / inject_Z (Z.of_nat (length valid_scores)))
  end.

Definition sort_items_by_score (items : list item) : list item :=
  sort_desc item_overall Qltb items.

(** ** Rounding and clamping lemmas *)

(** The rounded integer is within half a unit of [q], in Z. *)
Lemma round_half_even_close_Z q :
  (2 * (round_half_even q * Zpos (Qden q) - Qnum q) ≤ Zpos (Qden q))%Z ∧
  (2 * (Qnum q - round_half_even q * Zpos (Qden q)) ≤ Zpos (Qden q))%Z.
Proof.
  unfold round_half_even. set (n := Qnum q). set (d := Zpos (Qden q)).
  assert (Hd : (0 < d)%Z) by (unfold d; lia).
  pose proof (Z.div_mod n d ltac:(lia)) as Hdm. pose proof (Z.mod_pos_bound n d Hd) as Hm.
  destruct (Z.compare_spec (2 * (n mod d)) d);
    [destruct (Z.even (n / d))|..]; split; nia.
Qed.

Lemma round_half_even_close q :
  inject_Z (round_half_even q) <= q + (1 # 2) ∧ q - (1 # 2) <= inject_Z (round_half_even q).
Proof.
  destruct (round_half_even_close_Z q) as [H1 H2].
  unfold Qle, Qplus, Qminus, Qplus, Qopp, inject_Z; simpl. split; nia.
Qed.

(** [round(x, 2)] moves [x] by at most half a hundredth. *)
Lemma py_round2_close x : py_round2 x - x <= 1 # 200 ∧ x - py_round2 x <= 1 # 200.
Proof.
  unfold py_round2. destruct (round_half_even_close (x * 100)) as [H1 H2].
  set (z := round_half_even (x * 100)) in *.
  assert (Hz : z # 100 == inject_Z z * (1 # 100)) by (unfold Qeq, Qmult, inject_Z; simpl; lia).
  rewrite Hz. split; lra.
Qed.

(** An integer within half a unit of [[lo, hi]] lies in it. *)
Lemma Z_of_Q_window (z lo hi : Z) :
  inject_Z lo - (1 # 2) <= inject_Z z → inject_Z z <= inject_Z hi + (1 # 2) →
  (lo ≤ z ≤ hi)%Z.
Proof. unfold Qle, Qminus, Qplus, Qopp, inject_Z; simpl. lia. Qed.

(** [round(x, 2)] keeps a score in [[0, 100]]. *)
Lemma py_round2_range x : 0 <= x <= 100 → 0 <= py_round2 x <= 100.
Proof.
  intros Hx. unfold py_round2. destruct (round_half_even_close (x * 100)) as [H1 H2].
  assert (Hw : (0 ≤ round_half_even (x * 100) ≤ 10000)%Z).
  { apply Z_of_Q_window; change (inject_Z 0) with 0; change (inject_Z 10000) with 10000; lra. }
  unfold Qle; simpl. lia.
Qed.

(** A value with at most two decimals is left unchanged by [round(x, 2)]. *)
Lemma py_round2_hundredths (z : Z) : py_round2 (z # 100) = z # 100.
Proof.
  unfold py_round2, round_half_even. cbn [Qnum Qden Qmult Pos.mul].
  rewrite Z.div_mul, Z.mod_mul by lia. reflexivity.
Qed.

Lemma clamp_finite f : ∃ q, py_max0 (py_min100 f) = Fin q.
Proof.
  destruct f as [q| | |]; unfold py_min100, py_max0; simpl;
    repeat (case_match; simpl in *); eauto; discriminate.
Qed.

(** A clamped score lies in [[0, 100]]. *)
Lemma clamp_score_range f : 0 <= clamp_score f <= 100.
Proof.
  unfold clamp_score, py_max0, py_min100.
  destruct f as [q| | |]; simpl; try lra.
  destruct (Qle_bool 100 q) eqn:H1; simpl.
  - rewrite Qle_bool_iff in H1. simpl. lra.
  - destruct (Qle_bool q 0) eqn:H2; simpl; [lra|].
    rewrite <-not_true_iff_false, Qle_bool_iff in H1, H2.
    lra.
Qed.

(** On a finite value in range, clamping is the identity. *)
Lemma clamp_score_id q : 0 <= q <= 100 → clamp_score (Fin q) == q.
Proof.
  intros Hq. unfold clamp_score, py_max0, py_min100; simpl.
  destruct (Qle_bool 100 q) eqn:H1; simpl.
  - rewrite Qle_bool_iff in H1. destruct (Qle_bool 100 0) eqn:H0; simpl; [discriminate|lra].
  - destruct (Qle_bool q 0) eqn:H2; simpl; [apply Qle_bool_iff in H2; lra|reflexivity].
Qed.

#[export] Instance Qltb_strict_weak : StrictWeak Qltb.
Proof.
  unfold Qltb. split; intros *.
  - by rewrite (proj2 (Qle_bool_iff k k) (Qle_refl k)).
  - rewrite !negb_true_iff, <-!not_true_iff_false, !Qle_bool_iff.
    intros H1%Qnot_le_lt H2%Qnot_le_lt H3. lra.
  - rewrite !negb_true_iff, <-!not_true_iff_false, !Qle_bool_iff.
    intros Hca%Qnot_le_lt. destruct (Qlt_le_dec a b); [left|right]; intros ?; lra.
Qed.

#[export] Hint Resolve clamp_score_range py_round2_range : esg.

From Stdlib Require Import Qround.

(** Rounding depends on the value of [q] only: on its floor and on how
    its fractional part compares with one half. *)
Lemma round_half_even_floor q :
  round_half_even q =
  match Qcompare (q - inject_Z (Qfloor q)) (1 # 2) with
  | Lt => Qfloor q
  | Gt => (Qfloor q + 1)%Z
  | Eq => if Z.even (Qfloor q) then Qfloor q else (Qfloor q + 1)%Z
  end.
Proof.
  destruct q as [n d]. unfold round_half_even, Qfloor. cbn [Qnum Qden].
  replace (Qcompare _ _) with (Z.compare (2 * (n mod Zpos d)) (Zpos d)); [done|].
  unfold Qcompare, Qminus, Qplus, Qopp, inject_Z. cbn [Qnum Qden].
  rewrite Z.mod_eq by lia. f_equal; lia.
Qed.

#[export] Instance round_half_even_proper : Proper (Qeq ==> eq) round_half_even.
Proof.
  intros x y Hxy. rewrite !round_half_even_floor.
  assert (Qfloor x = Qfloor y) as Hf
    by (apply Z.le_antisymm; apply Qfloor_resp_le; rewrite Hxy; apply Qle_refl).
  rewrite Hf, Hxy. done.
Qed.

#[export] Instance py_round2_proper : Proper (Qeq ==> eq) py_round2.
Proof. intros x y Hxy. unfold py_round2. by rewrite Hxy. Qed.

(** ** Theorems: scores *)

Lemma py_float_errors `{FloatLib} v e :
  py_float v = Err e →
  e = TypeError ∨ e = ValueError ∨ (e = OverflowError ∧ ∃ z, v = PInt z ∧ float_overflows z = true).
Proof.
  destruct v; simpl; try (intros [= <-]; by auto).
  - destruct (float_overflows z) eqn:Hz; [intros [= <-]; right; right; eauto|done].
  - destruct (float_of_string s); [done|intros [= <-]; auto].
Qed.

Section Coerce.
Context `{FloatLib}.

(** C2: [_coerce_score] with a default in [[0, 100]] returns a score in
    [[0, 100]]; its only exception is [OverflowError], for an integer
    too large for a float, which no caller catches. *)
Theorem coerce_score_range v d :
  0 <= d <= 100 →
  (∃ q, coerce_score v d = Ok q ∧ 0 <= q <= 100) ∨
  (coerce_score v d = Err OverflowError ∧ ∃ z, v = PInt z ∧ float_overflows z = true).
Proof.
  intros Hd. unfold coerce_score.
  destruct (py_float v) as [f|e] eqn:Hf; [left; eauto using clamp_score_range|].
  destruct (py_float_errors v e Hf) as [->|[->|[-> Hz]]]; [left; eauto..|by right].
Qed.

(** C31: a NaN score (JSON [NaN], or the string "nan") is not treated
    as invalid: [min(100.0, nan)] is [100.0], so the axis gets the
    maximum risk score 100 instead of the default. *)
Theorem coerce_score_nan v d : py_float v = Ok NaN → coerce_score v d = Ok 100.
Proof. intros Hf. unfold coerce_score. by rewrite Hf. Qed.
End Coerce.

Lemma coerce_score_nan_witness :
  @py_float {| float_of_string := λ _, Some NaN |} (PStr "nan") = Ok NaN ∧
  @coerce_score {| float_of_string := λ _, Some NaN |} (PStr "nan") 0 = Ok 100.
Proof. split; [reflexivity|]. apply coerce_score_nan. reflexivity. Defined.

Lemma coerce_score_range_witness :
  @coerce_score {| float_of_string := λ _, None |} (PInt 250) 0 = Ok 100 ∧
  (0 <= 0 <= 100 →
   (∃ q, @coerce_score {| float_of_string := λ _, None |} (PInt 250) 0 = Ok q ∧ 0 <= q <= 100) ∨
   (@coerce_score {| float_of_string := λ _, None |} (PInt 250) 0 = Err OverflowError ∧
    ∃ z, PInt 250 = PInt z ∧ float_overflows z = true)).
Proof. split; [reflexivity|]. intros Hd. apply coerce_score_range. exact Hd. Defined.

(** The weighted score is in [[0, 100]] whatever its arguments: each
    axis is clamped first. *)
Lemma calculate_weighted_score_range e s g : 0 <= calculate_weighted_score e s g <= 100.
Proof.
  unfold calculate_weighted_score. simpl. apply py_round2_range.
  pose proof (clamp_score_range (Fin e)). pose proof (clamp_score_range (Fin s)).
  pose proof (clamp_score_range (Fin g)).
  unfold WEIGHT_environment, WEIGHT_social, WEIGHT_governance.
  change (inject_Z (4 + 3 + 3)) with (10 # 1). unfold Qdiv. change (/ (10 # 1)) with (1 # 10).
  change (inject_Z 4) with 4. change (inject_Z 3) with 3. split; lra.
Qed.

(** C1: on axis scores in [[0, 100]] the weighted score is
    [round((4*E + 3*S + 3*G)/10, 2)], and it lies in [[0, 100]]. *)
Theorem calculate_weighted_score_spec e s g :
  0 <= e <= 100 → 0 <= s <= 100 → 0 <= g <= 100 →
  calculate_weighted_score e s g = py_round2 ((4 * e + 3 * s + 3 * g) / 10) ∧
  0 <= calculate_weighted_score e s g <= 100.
Proof.
  intros He Hs Hg. split; [|apply calculate_weighted_score_range].
  unfold calculate_weighted_score. simpl.
  by rewrite (clamp_score_id e), (clamp_score_id s), (clamp_score_id g) by done.
Qed.

(** ** [_normalize_item_structure] *)

Section Analysis.
Context `{FloatLib, DateLib, JsonCodec}.

Definition normalize_item_structure (it : pyval) : res item :=
  scores0 ← py_get it "scores" PNone;
  let scores := py_or scores0 (PDict []) in
  ev ← py_get scores "environment" PNone;
  e ← coerce_score ev 0;
  sv ← py_get scores "social" PNone;
  s ← coerce_score sv 0;
  gv ← py_get scores "governance" PNone;
  g ← coerce_score gv 0;
  ov ← py_get scores "overall" PNone;
  o ← coerce_score ov (calculate_weighted_score e s g);
  date0 ← py_get it "date" PNone;
  date_value ← (if truthy date0 then mret date0 else py_get it "published_at" PNone);
  title ← py_get it "title" (PStr "");
  description ← py_get it "description" (PStr "");
  source ← py_get it "source" PNone;
  url ← py_get it "url" PNone;
  mret (mk_item title description date_value (format_display_date date_value)
          source url (mk_scores e s g o)).

(** ** [_analyse_with_heuristics] *)

(** [' '.join(filter(None, [title, description]))]: [join] raises on a
    truthy part that is not a string. *)
Definition heuristic_text (a : article) : res string :=
  parts ← res_map (λ v, match v with PStr s => Ok s | _ => Err TypeError end)
                  (List.filter truthy [art_title a; art_description a]);
  mret (String.concat " " parts).

(** [scores[aspect] = base_score] for each detected aspect, starting
    from zero on the three axes ([ESG_KEYWORDS] names no others). *)
Definition aspect_scores (aspects : list string) : Q * Q * Q :=
  fold_left (λ '(e, s, g) aspect,
      if String.eqb aspect "environment" then (70, s, g)
      else if String.eqb aspect "social" then (e, 70, g)
      else if String.eqb aspect "governance" then (e, s, 70)
      else (e, s, g))
    aspects (0, 0, 0).

Definition heuristic_item (a : article) : res item :=
  text ← heuristic_text a;
  let aspects := detect_esg_aspects text ESG_KEYWORDS in
  let '(e, s, g) := aspect_scores aspects in
  let overall := calculate_weighted_score e s g in
  let date_iso := PStr (isoformat (art_published_at a)) in
  mret (mk_item (art_title a) (art_description a) date_iso (format_display_date date_iso)
          (art_source a) (art_url a) (mk_scores e s g overall)).

Record analysis := mk_analysis {
  an_items : list item;
  an_overall_score : pyval
}.

Definition analyse_with_heuristics (articles : list article) : res analysis :=
  items ← res_map heuristic_item articles;
  let items := sort_items_by_score items in
  mret (mk_analysis items (PFloat (Fin (compute_overall_score items)))).

(** ** The oracle path *)

(** [_execute_openai_prompt]: every failure becomes [ESGServiceError]. *)
Definition execute_openai_prompt (o : oracle) (p : prompt) : M string :=
  if negb (openai_available o) then lift (Err (ESGServiceError "OpenAI is not configured.")) else
  answer ← call o p;
  match answer with
  | Some text => mret text
  | None => lift (Err (ESGServiceError "OpenAI request failed"))
  end.

(** The report once decoded (lines 129-138). *)
Definition analysis_of_report (parsed : pyval) : res analysis :=
  raw_items ← py_get parsed "items" (PList []);
  its ← py_iter raw_items;
  items ← res_map normalize_item_structure its;
  let items := sort_items_by_score items in
  overall_score ← py_get parsed "overall_score" PNone;
  let overall_score :=
    match overall_score with
    | PNone => PFloat (Fin (compute_overall_score items))
    | v => v
    end in
  mret (mk_analysis items (py_or overall_score (PInt 0))).

Definition analyse_with_openai (o : oracle) (company_name : string) (articles : list article)
    : M analysis :=
  response_text ← execute_openai_prompt o (AnalysisPrompt company_name articles);
  match json_loads response_text with
  | None => lift (Err (ESGServiceError "Failed to parse OpenAI ESG analysis"))
  | Some parsed => lift (analysis_of_report parsed)
  end.

Definition is_service_error (e : exn) : bool :=
  match e with ESGServiceError _ => true | _ => false end.

(** [_analyse_articles]: only [ESGServiceError] falls back. *)
Definition analyse_articles (o : oracle) (company_name : string) (articles : list article)
    : M analysis :=
  match articles with
  | [] => mret (mk_analysis [] (PInt 0))
  | _ =>
      if openai_available o then
        catch (analyse_with_openai o company_name articles)
          (λ e, if is_service_error e then Some (lift (analyse_with_heuristics articles)) else None)
      else lift (analyse_with_heuristics articles)
  end.
End Analysis.

(** ** Theorems: the heuristic path *)

Definition has_aspect (name : string) (aspects : list string) : bool :=
  existsb (λ a, String.eqb a name) aspects.

Lemma aspect_scores_acc l e s g :
  fold_left (λ '(e, s, g) aspect,
      if String.eqb aspect "environment" then (70, s, g)
      else if String.eqb aspect "social" then (e, 70, g)
      else if String.eqb aspect "governance" then (e, s, 70)
      else (e, s, g)) l (e, s, g)
  = (if has_aspect "environment" l then 70 else e,
     if has_aspect "social" l then 70 else s,
     if has_aspect "governance" l then 70 else g).
Proof.
  revert e s g; induction l as [|a l IH]; intros e s g; simpl; [done|].
  unfold has_aspect in *. simpl.
  destruct (String.eqb_spec a "environment") as [->|Hne];
    [rewrite IH; simpl; by repeat case_match|].
  destruct (String.eqb_spec a "social") as [->|Hns];
    [rewrite IH; simpl; by repeat case_match|].
  destruct (String.eqb_spec a "governance") as [->|Hng];
    [rewrite IH; simpl; by repeat case_match|].
  rewrite IH. done.
Qed.

Lemma aspect_scores_spec l :
  aspect_scores l = (if has_aspect "environment" l then 70 else 0,
                     if has_aspect "social" l then 70 else 0,
                     if has_aspect "governance" l then 70 else 0).
Proof. apply aspect_scores_acc. Qed.

Section HeuristicTheorems.
Context `{DateLib}.

Lemma heuristic_item_shape a it :
  heuristic_item a = Ok it →
  ∃ be bs bg : bool,
    it_scores it = mk_scores (if be then 70 else 0) (if bs then 70 else 0) (if bg then 70 else 0)
      (calculate_weighted_score (if be then 70 else 0) (if bs then 70 else 0)
                                (if bg then 70 else 0)).
Proof.
  unfold heuristic_item. intros Hit. res_simpl. rewrite aspect_scores_spec in Hit.
  injection Hit as <-. by do 3 eexists.
Qed.

(** the keyword heuristic gives each axis the flat score 70 when
    one of its keywords occurs in the article's title and description
    (lowercased), 0 otherwise, and the weighted overall of the three. *)
Theorem heuristic_item_scores a it :
  heuristic_item a = Ok it →
  ∃ text, heuristic_text a = Ok text ∧
    let aspects := detect_esg_aspects text ESG_KEYWORDS in
    it_scores it =
      mk_scores (if has_aspect "environment" aspects then 70 else 0)
                (if has_aspect "social" aspects then 70 else 0)
                (if has_aspect "governance" aspects then 70 else 0)
                (calculate_weighted_score
                   (if has_aspect "environment" aspects then 70 else 0)
                   (if has_aspect "social" aspects then 70 else 0)
                   (if has_aspect "governance" aspects then 70 else 0)).
Proof.
  unfold heuristic_item. intros Hit. res_simpl. exists a0. split; [done|].
  rewrite aspect_scores_spec in Hit. injection Hit as <-. done.
Qed.
End HeuristicTheorems.

(** ** Theorems: aggregation *)

Lemma sum_range l :
  Forall (λ q, 0 <= q <= 100) l → 0 <= fold_right Qplus 0 l <= 100 * inject_Z (Z.of_nat (length l)).
Proof.
  induction 1 as [|x l Hx Hl IH]; simpl; [change (inject_Z (Z.of_nat 0)) with 0; lra|].
  rewrite Nat2Z.inj_succ, <-Z.add_1_r, inject_Z_plus. change (inject_Z 1) with 1. lra.
Qed.

(** The mean of scores in [[0, 100]], rounded, is in [[0, 100]]. *)
Lemma compute_overall_score_range items :
  Forall (λ it, 0 <= item_overall it <= 100) items → 0 <= compute_overall_score items <= 100.
Proof.
  intros Hall. unfold compute_overall_score.
  destruct items as [|it items]; [lra|]. apply py_round2_range.
  set (l := map item_overall (it :: items)).
  assert (Hl : Forall (λ q, 0 <= q <= 100) l) by (by apply Forall_map).
  pose proof (sum_range l Hl) as [H0 H1].
  assert (Hn : 0 < inject_Z (Z.of_nat (length l))).
  { unfold l; simpl. change 0 with (inject_Z 0). rewrite <-Zlt_Qlt. lia. }
  split; [apply Qle_shift_div_l|apply Qle_shift_div_r]; lra.
Qed.

#[export] Hint Resolve compute_overall_score_range : esg.

Lemma sum_perm l1 l2 : l1 ≡ₚ l2 → fold_right Qplus 0 l1 == fold_right Qplus 0 l2.
Proof.
  induction 1 as [|x l1 l2 _ IH|x y l|l1 l2 l3 _ IH1 _ IH2]; simpl; [lra|rewrite IH; lra|lra|].
  by rewrite IH1.
Qed.

(** The mean does not depend on the order of the items. *)
Lemma compute_overall_score_perm items items' :
  items ≡ₚ items' → compute_overall_score items = compute_overall_score items'.
Proof.
  intros Hp. unfold compute_overall_score.
  destruct items as [|it items], items' as [|it' items'];
    try (apply Permutation_length in Hp; discriminate); [done|].
  apply py_round2_proper. apply Qdiv_comp.
  - apply sum_perm. by apply Permutation_map.
  - by rewrite !length_map, (Permutation_length Hp).
Qed.

Section HeuristicAnalysis.
Context `{DateLib}.

Lemma heuristic_item_range a it : heuristic_item a = Ok it → 0 <= item_overall it <= 100.
Proof.
  intros (be & bs & bg & Hs)%heuristic_item_shape. unfold item_overall. rewrite Hs.
  apply calculate_weighted_score_range.
Qed.

(** C7: the heuristic analysis scores every article, orders the items
    by overall score, highest first, keeping the fetch order among
    ties, and reports the mean of the item scores (their sum divided by
    the number of articles, rounded to two places; 0 with no article),
    a value in [[0, 100]]. *)
Theorem analyse_with_heuristics_spec articles an :
  analyse_with_heuristics articles = Ok an →
  ∃ items, res_map heuristic_item articles = Ok items ∧
    an_items an = sort_items_by_score items ∧
    StronglySorted (λ x y, item_overall y <= item_overall x) (an_items an) ∧
    (∀ k, List.filter (same item_overall Qltb k) (an_items an)
          = List.filter (same item_overall Qltb k) items) ∧
    length (an_items an) = length articles ∧
    ∃ q, an_overall_score an = PFloat (Fin q) ∧ 0 <= q <= 100 ∧
      q = match articles with
          | [] => 0
          | _ => py_round2 (fold_right Qplus 0 (map item_overall items)
                            / inject_Z (Z.of_nat (length articles)))
          end.
Proof.
  unfold analyse_with_heuristics. intros Han. res_simpl. subst an. simpl.
  assert (Hr : 0 <= compute_overall_score (sort_items_by_score a) <= 100).
  { apply compute_overall_score_range. unfold sort_items_by_score.
    rewrite sort_desc_perm. eapply res_map_Forall; [|done]. apply heuristic_item_range. }
  pose proof (res_map_length _ _ _ Hm) as Hlen.
  exists a. split_and!; [done|done| | | |exists (compute_overall_score (sort_items_by_score a));
    split_and!; [done|apply Hr|apply Hr|]].
  4: { rewrite (compute_overall_score_perm _ a) by apply sort_desc_perm.
       unfold compute_overall_score. rewrite length_map, <-Hlen.
       by destruct articles, a. }
  - eapply StronglySorted_weaken; [|apply sort_desc_sorted; apply _].
    intros x y Hxy. unfold desc, Qltb in Hxy. apply negb_false_iff, Qle_bool_iff in Hxy. done.
  - intros k. apply sort_desc_stable; apply _.
  - unfold sort_items_by_score. rewrite (Permutation_length (sort_desc_perm _ _ _)).
    by eapply res_map_length.
Qed.
End HeuristicAnalysis.

(** ** Theorems: normalizing the oracle's items *)

Definition scores_in_range (sc : scoreset) : Prop :=
  0 <= environment sc <= 100 ∧ 0 <= social sc <= 100 ∧
  0 <= governance sc <= 100 ∧ 0 <= overall sc <= 100.


Section NormalizeTheorems.
Context `{FloatLib, DateLib}.

Lemma coerce_score_ok_range v d q : 0 <= d <= 100 → coerce_score v d = Ok q → 0 <= q <= 100.
Proof.
  unfold coerce_score. intros Hd.
  destruct (py_float v) as [f|[]]; intros [= <-]; by try apply clamp_score_range.
Qed.

Lemma coerce_score_raises v d : raises_only (λ e, e = OverflowError) (coerce_score v d).
Proof.
  unfold coerce_score. intros e.
  destruct (py_float v) as [f|e'] eqn:Hf; [discriminate|].
  destruct (py_float_errors v e' Hf) as [->|[->|[-> _]]]; by intros [= <-].
Qed.

(** The four scores of a normalized item are coerced: the axes with
    default 0, the overall with the weighted score as default. *)
Lemma normalize_item_structure_scores v it :
  normalize_item_structure v = Ok it →
  ∃ ev sv gv ov e s g o, it_scores it = mk_scores e s g o ∧
    coerce_score ev 0 = Ok e ∧ coerce_score sv 0 = Ok s ∧ coerce_score gv 0 = Ok g ∧
    coerce_score ov (calculate_weighted_score e s g) = Ok o.
Proof.
  unfold normalize_item_structure. intros Hn. res_simpl. subst it.
  do 8 eexists. split; [reflexivity|]. split_and!; eassumption.
Qed.

Lemma coerced_scores_in_range ev sv gv ov e s g o :
  coerce_score ev 0 = Ok e → coerce_score sv 0 = Ok s → coerce_score gv 0 = Ok g →
  coerce_score ov (calculate_weighted_score e s g) = Ok o →
  scores_in_range (mk_scores e s g o).
Proof.
  intros He Hs Hg Ho. unfold scores_in_range; simpl.
  split_and!; eapply coerce_score_ok_range;
    try eassumption; first [lra | apply calculate_weighted_score_range].
Qed.

(** C3: every item normalized from the oracle's report carries four
    scores in [[0, 100]], whatever the JSON it came from. *)
Theorem normalize_item_structure_range v it :
  normalize_item_structure v = Ok it → scores_in_range (it_scores it).
Proof.
  intros (ev & sv & gv & ov & e & s & g & o & -> & He & Hs & Hg & Ho)%normalize_item_structure_scores.
  by eapply coerced_scores_in_range.
Qed.

(** Normalizing an item raises only [AttributeError] (the item, or
    its truthy [scores], is not a JSON object) or [OverflowError] (a
    huge integer score); neither is the [ESGServiceError] that would
    trigger the heuristic fallback. *)
Theorem normalize_item_structure_raises v :
  raises_only (λ e, e = AttributeError ∨ e = OverflowError) (normalize_item_structure v).
Proof.
  unfold normalize_item_structure. raises_step;
    try (eapply raises_only_weaken; [|apply py_get_raises]; by left);
    try (eapply raises_only_weaken; [|apply coerce_score_raises]; by right).
  case_match; [apply raises_only_ret|].
  eapply raises_only_weaken; [|apply py_get_raises]; by left.
Qed.

(** when the oracle's [scores] object has no [overall], the item's
    overall score is the weighted score of its three normalized axes. *)
Theorem normalize_item_structure_default kvs sc it :
  assoc_get "scores" kvs = Some (PDict sc) → assoc_get "overall" sc = None →
  normalize_item_structure (PDict kvs) = Ok it →
  overall (it_scores it) =
  calculate_weighted_score (environment (it_scores it)) (social (it_scores it))
                           (governance (it_scores it)).
Proof.
  intros Hs Ho Hn. unfold normalize_item_structure in Hn. simpl in Hn. rewrite Hs in Hn.
  assert (∃ sc', py_or (PDict sc) (PDict []) = PDict sc' ∧ assoc_get "overall" sc' = None)
    as (sc' & Hsc' & Ho') by (unfold py_or; destruct (truthy (PDict sc)); [exists sc|exists []]; done).
  rewrite Hsc' in Hn. res_simpl. subst it. simpl.
  match goal with
  | H : py_get (PDict sc') "overall" PNone = Ok _ |- _ => simpl in H; rewrite Ho' in H
  end.
  res_simpl. subst. simpl in *. res_simpl.
  match goal with
  | H : coerce_score PNone _ = Ok _ |- _ => unfold coerce_score in H; simpl in H; by injection H
  end.
Qed.
(** C27: the display date of an item is a string exactly when the date
    it is computed from is falsy or a string; a falsy date becomes
    ["N/A"], and a truthy date that is not a string (a number from the
    oracle's JSON) is passed through unchanged as the display date. *)
Theorem format_display_date_str v :
  ((∃ s, format_display_date v = PStr s) ↔ (truthy v = false ∨ ∃ s, v = PStr s)) ∧
  (truthy v = false → format_display_date v = PStr "N/A") ∧
  (truthy v = true → (∀ s, v ≠ PStr s) → format_display_date v = v).
Proof.
  split_and!; [|unfold format_display_date, py_or; by intros ->|].
  2: { intros Ht Hns. unfold format_display_date, py_or. rewrite Ht.
       destruct v as [| | | |s| |]; try done. by destruct (Hns s). }
  unfold format_display_date. destruct (truthy v) eqn:Ht.
  - assert (Hpass : (∀ s, v ≠ PStr s) → safe_parse_datetime v = None →
                    ¬ ∃ s, py_or v (PStr "N/A") = PStr s).
    { intros Hns _ [s Hs]. unfold py_or in Hs. rewrite Ht in Hs. by apply (Hns s). }
    destruct v as [| | | |s| |]; try discriminate Ht.
    4: { split; [eauto|intros _].
         destruct (safe_parse_datetime (PStr s)); [eauto|]. unfold py_or. rewrite Ht. eauto. }
    all: split; [intros Hs; exfalso; apply Hpass; [intros ? [=]|done|done]
                |intros [?|[? [=]]]; congruence].
  - unfold py_or. rewrite Ht. split; [auto|eauto].
Qed.


End NormalizeTheorems.

(** ** Theorems: the fallback policy of [_analyse_articles] *)

Section AnalyseTheorems.
Context `{FloatLib, DateLib, JsonCodec}.

Lemma analyse_with_openai_eq o c arts log :
  openai_available o = true →
  analyse_with_openai o c arts log =
  (match respond o (AnalysisPrompt c arts) with
   | None => Err (ESGServiceError "OpenAI request failed")
   | Some text =>
       match json_loads text with
       | None => Err (ESGServiceError "Failed to parse OpenAI ESG analysis")
       | Some parsed => analysis_of_report parsed
       end
   end, log ++ [AnalysisPrompt c arts]).
Proof.
  intros Ha. unfold analyse_with_openai, execute_openai_prompt. rewrite Ha.
  cbv [mbind M_bind call mret M_ret lift negb].
  destruct (respond o _) as [t|]; [|done]. by destruct (json_loads t).
Qed.

Lemma analyse_articles_available o c arts log :
  arts ≠ [] → openai_available o = true →
  analyse_articles o c arts log =
  match analyse_with_openai o c arts log with
  | (Err e, log') =>
      if is_service_error e then (analyse_with_heuristics arts, log') else (Err e, log')
  | r => r
  end.
Proof.
  intros Hne Ha. unfold analyse_articles. destruct arts as [|a arts]; [done|].
  rewrite Ha. unfold catch. destruct (analyse_with_openai _ _ _ _) as [[|e] log']; [done|].
  by destruct (is_service_error e).
Qed.

(** C6: the heuristic path takes over when the oracle is unconfigured
    (no request is sent), when the request fails, and when its answer
    is not JSON; in the last two cases after the one request. *)
Theorem analyse_articles_fallback o c arts log :
  arts ≠ [] →
  (openai_available o = false → analyse_articles o c arts log = (analyse_with_heuristics arts, log)) ∧
  (openai_available o = true → respond o (AnalysisPrompt c arts) = None →
     analyse_articles o c arts log
     = (analyse_with_heuristics arts, log ++ [AnalysisPrompt c arts])) ∧
  (∀ text, openai_available o = true → respond o (AnalysisPrompt c arts) = Some text →
     json_loads text = None →
     analyse_articles o c arts log
     = (analyse_with_heuristics arts, log ++ [AnalysisPrompt c arts])).
Proof.
  intros Hne. split; [|split].
  - intros Ha. unfold analyse_articles. destruct arts; [done|]. by rewrite Ha.
  - intros Ha Hr. rewrite analyse_articles_available, analyse_with_openai_eq, Hr by done. done.
  - intros t Ha Hr Hj.
    rewrite analyse_articles_available, analyse_with_openai_eq, Hr, Hj by done. done.
Qed.

(** a report that is valid JSON but not an object (a list, a
    string) makes [parsed.get] raise [AttributeError]; it is not an
    [ESGServiceError], so the heuristic fallback is skipped and the
    exception escapes the analysis. *)
Theorem analyse_articles_report_not_object o c arts log text parsed :
  arts ≠ [] → openai_available o = true → respond o (AnalysisPrompt c arts) = Some text →
  json_loads text = Some parsed → (∀ kvs, parsed ≠ PDict kvs) →
  analyse_articles o c arts log = (Err AttributeError, log ++ [AnalysisPrompt c arts]).
Proof.
  intros Hne Ha Hr Hj Hnd.
  rewrite analyse_articles_available, analyse_with_openai_eq, Hr, Hj by done.
  unfold analysis_of_report. destruct parsed; try done. by destruct (Hnd kvs).
Qed.

(** when the report is an object, its [overall_score] is returned
    verbatim whenever it is present and truthy, even if it is not a
    number or disagrees with the items; only a missing (or null)
    value is recomputed as the mean of the items. *)
Theorem analysis_of_report_overall_verbatim kvs v an :
  assoc_get "overall_score" kvs = Some v → v ≠ PNone → truthy v = true →
  analysis_of_report (PDict kvs) = Ok an → an_overall_score an = v.
Proof.
  intros Hv Hn Ht Han. unfold analysis_of_report in Han. res_simpl.
  match goal with
  | H : py_get (PDict kvs) "overall_score" PNone = Ok _ |- _ =>
      simpl in H; rewrite Hv in H; injection H as <-
  end.
  subst an. simpl. destruct v; try done; unfold py_or; by rewrite Ht.
Qed.
End AnalyseTheorems.


Section NoServiceError.
Context `{FloatLib, DateLib, JsonCodec}.

Lemma analyse_with_heuristics_raises arts :
  raises_only (λ e, e = TypeError) (analyse_with_heuristics arts).
Proof.
  unfold analyse_with_heuristics. raises_step.
  apply raises_only_res_map. intros a. unfold heuristic_item, heuristic_text. raises_step.
  - apply raises_only_res_map. intros v. destruct v; by intros e [= <-].
  - by destruct (aspect_scores _) as [[e s] g].
Qed.

Lemma analysis_of_report_raises parsed :
  raises_only (λ e, is_service_error e = false) (analysis_of_report parsed).
Proof.
  unfold analysis_of_report. raises_step;
    try (eapply raises_only_weaken; [|apply py_get_raises]; by intros e ->).
  - eapply raises_only_weaken; [|apply py_iter_raises]; by intros e ->.
  - apply raises_only_res_map. intros v.
    eapply raises_only_weaken; [|apply normalize_item_structure_raises].
    by intros e [->| ->].
Qed.

(** [_analyse_articles] never lets an [ESGServiceError] escape:
    every failure of the oracle path that is one falls back to the
    heuristic; what can escape are the other exceptions (a non-object
    report, a huge integer score, a non-string title). *)
Theorem analyse_articles_no_service_error o c arts log :
  raises_only (λ e, is_service_error e = false) (fst (analyse_articles o c arts log)).
Proof.
  destruct arts as [|a arts]; [by intros e|].
  assert (Hh : raises_only (λ e, is_service_error e = false) (analyse_with_heuristics (a :: arts)))
    by (eapply raises_only_weaken; [|apply analyse_with_heuristics_raises]; by intros e ->).
  destruct (openai_available o) eqn:Ha.
  - rewrite analyse_articles_available, analyse_with_openai_eq by done.
    destruct (respond o _) as [t|]; simpl; [|done].
    destruct (json_loads t) as [parsed|]; simpl; [|done].
    destruct (analysis_of_report parsed) as [an|e] eqn:Hr; [by intros e|].
    pose proof (analysis_of_report_raises parsed e Hr) as He. rewrite He.
    intros e' [= <-]. done.
  - unfold analyse_articles. rewrite Ha. exact Hh.
Qed.
End NoServiceError.

(** ** Well-formed analyses *)

Definition items_wf (items : list item) : Prop :=
  Forall (λ it, scores_in_range (it_scores it)) items ∧
  StronglySorted (λ x y, item_overall y <= item_overall x) items.

Lemma sort_items_by_score_sorted l :
  StronglySorted (λ x y, item_overall y <= item_overall x) (sort_items_by_score l).
Proof.
  eapply StronglySorted_weaken; [|apply sort_desc_sorted; apply _].
  intros x y Hxy. unfold desc, Qltb in Hxy. by apply negb_false_iff, Qle_bool_iff in Hxy.
Qed.

Lemma sort_items_by_score_wf l :
  Forall (λ it, scores_in_range (it_scores it)) l → items_wf (sort_items_by_score l).
Proof.
  intros Hl. split; [|apply sort_items_by_score_sorted].
  unfold sort_items_by_score. by rewrite sort_desc_perm.
Qed.

Section AnalysisWf.
Context `{FloatLib, DateLib, JsonCodec}.

Lemma heuristic_item_in_range a it : heuristic_item a = Ok it → scores_in_range (it_scores it).
Proof.
  intros (be & bs & bg & Hs)%heuristic_item_shape. rewrite Hs.
  unfold scores_in_range; simpl.
  split_and!; first [apply calculate_weighted_score_range | by destruct be | by destruct bs
                     | by destruct bg].
Qed.

Lemma analyse_with_heuristics_wf arts an :
  analyse_with_heuristics arts = Ok an → items_wf (an_items an).
Proof.
  unfold analyse_with_heuristics. intros Han. res_simpl. subst an. simpl.
  apply sort_items_by_score_wf. eapply res_map_Forall; [|done]. apply heuristic_item_in_range.
Qed.

Lemma analysis_of_report_wf parsed an : analysis_of_report parsed = Ok an → items_wf (an_items an).
Proof.
  unfold analysis_of_report. intros Han. res_simpl. subst an. simpl.
  apply sort_items_by_score_wf. eapply res_map_Forall; [|done].
  intros v it (ev & sv & gv & ov & e & s & g & o & -> & He & Hs & Hg & Ho)%normalize_item_structure_scores.
  by eapply coerced_scores_in_range.
Qed.

(** Whatever path the analysis takes, its items are scored in range
    and ordered by overall score. *)
Lemma analyse_articles_wf o c arts log an log' :
  analyse_articles o c arts log = (Ok an, log') → items_wf (an_items an).
Proof.
  destruct arts as [|a arts].
  { intros [= <- _]. split; constructor. }
  destruct (openai_available o) eqn:Ha.
  - rewrite analyse_articles_available, analyse_with_openai_eq by done.
    destruct (respond o _) as [t|]; simpl; [|intros [= Hh _]; by eapply analyse_with_heuristics_wf].
    destruct (json_loads t) as [parsed|]; simpl;
      [|intros [= Hh _]; by eapply analyse_with_heuristics_wf].
    destruct (analysis_of_report parsed) as [an'|e] eqn:Hr; simpl.
    + intros [= <- _]. by eapply analysis_of_report_wf.
    + destruct (is_service_error e); [|done]. intros [= Hh _]. by eapply analyse_with_heuristics_wf.
  - unfold analyse_articles. rewrite Ha. intros [= Hh _]. by eapply analyse_with_heuristics_wf.
Qed.
End AnalysisWf.

(** ** Witnesses *)

Lemma calculate_weighted_score_spec_witness :
  0 <= 70 <= 100 ∧ 0 <= 0 <= 100 ∧
  calculate_weighted_score 70 0 0 = py_round2 ((4 * 70 + 3 * 0 + 3 * 0) / 10) ∧
  calculate_weighted_score 70 0 0 = 2800 # 100.
Proof.
  split_and!; try lra.
  - apply (calculate_weighted_score_spec 70 0 0); lra.
  - reflexivity.
Defined.

Module ScoringSamples.
#[local] Instance no_float_strings : FloatLib := {| float_of_string := λ _, None |}.
#[local] Existing Instance sample_dates.
#[local] Instance report_codec : JsonCodec :=
  table_codec [("LIST", PList []);
               ("REPORT", PDict [("items", PList []); ("overall_score", PStr "high")])].

Definition oil_spill : article :=
  mk_article (PStr "Oil spill near the port") (PStr "Cleanup continues") PNone PNone
             (Aware 5) "openai_web_search".
Definition board_fraud : article :=
  mk_article (PStr "Board probes fraud") (PStr "Workers strike over safety") PNone PNone
             (Aware 6) "openai_web_search".

(** The spec's example: "oil spill" scores 70/0/0 with overall 28. *)
Lemma heuristic_item_scores_witness :
  ∃ it, heuristic_item oil_spill = Ok it ∧ it_scores it = mk_scores 70 0 0 (2800 # 100).
Proof.
  eexists. split; [reflexivity|].
  destruct (heuristic_item_scores oil_spill _ eq_refl) as (text & Ht & Hs).
  vm_compute in Ht. injection Ht as <-. rewrite Hs. reflexivity.
Defined.

Lemma analyse_with_heuristics_spec_witness :
  ∃ an, analyse_with_heuristics [oil_spill; board_fraud] = Ok an ∧
    map item_overall (an_items an) = [4200 # 100; 2800 # 100] ∧
    ∃ q, an_overall_score an = PFloat (Fin q) ∧ 0 <= q <= 100.
Proof.
  eexists. split; [reflexivity|]. split; [reflexivity|].
  destruct (analyse_with_heuristics_spec [oil_spill; board_fraud] _ eq_refl)
    as (items & _ & _ & _ & _ & _ & q & Hq & Hr & _). by exists q.
Defined.

Definition json_scores : list (string * pyval) :=
  [("environment", PInt 80); ("social", PFloat (Fin 20)); ("governance", PStr "n/a")].
Definition json_fields : list (string * pyval) :=
  [("title", PStr "Emissions probe"); ("scores", PDict json_scores)].
Definition json_item : pyval := PDict json_fields.

Lemma normalize_item_structure_range_witness :
  ∃ it, normalize_item_structure json_item = Ok it ∧ scores_in_range (it_scores it) ∧
    it_scores it = mk_scores 80 20 0 (3800 # 100).
Proof.
  eexists. split; [reflexivity|]. split; [|reflexivity].
  by apply (normalize_item_structure_range json_item).
Defined.

Lemma normalize_item_structure_default_witness :
  ∃ it, normalize_item_structure json_item = Ok it ∧
    overall (it_scores it) = calculate_weighted_score 80 20 0.
Proof.
  eexists. split; [reflexivity|].
  apply (normalize_item_structure_default json_fields json_scores); reflexivity.
Defined.

Definition offline : oracle := {| openai_installed := true; OPENAI_API_KEY := PNone; respond := λ _, None |}.
Definition answering (text : string) : oracle := {| openai_installed := true; OPENAI_API_KEY := PStr "sk-test"; respond := λ _, Some text |}.

Lemma analyse_articles_fallback_witness :
  analyse_articles offline "Adani Power" [oil_spill] []
  = (analyse_with_heuristics [oil_spill], []) ∧
  analyse_articles (answering "not json") "Adani Power" [oil_spill] []
  = (analyse_with_heuristics [oil_spill], [AnalysisPrompt "Adani Power" [oil_spill]]).
Proof.
  split.
  - apply (analyse_articles_fallback offline "Adani Power" [oil_spill] []); [done|reflexivity].
  - apply (analyse_articles_fallback (answering "not json") "Adani Power" [oil_spill] []
             ltac:(done)) with "not json"; reflexivity.
Defined.

Lemma analyse_articles_report_not_object_witness :
  analyse_articles (answering "LIST") "Adani Power" [oil_spill] []
  = (Err AttributeError, [AnalysisPrompt "Adani Power" [oil_spill]]).
Proof.
  eapply analyse_articles_report_not_object; [done|reflexivity|reflexivity|reflexivity|].
  intros kvs; discriminate.
Defined.

Lemma analysis_of_report_overall_verbatim_witness :
  ∃ an, analysis_of_report (PDict [("items", PList []); ("overall_score", PStr "high")]) = Ok an
    ∧ an_overall_score an = PStr "high".
Proof.
  eexists. split; [reflexivity|].
  apply (analysis_of_report_overall_verbatim [("items", PList []); ("overall_score", PStr "high")]);
    [reflexivity|discriminate|reflexivity|reflexivity].
Defined.
End ScoringSamples.

Module DisplaySamples.
#[local] Instance no_float_strings : FloatLib := {| float_of_string := λ _, None |}.
(** A date library whose parser reads back the one ISO text it prints. *)
#[local] Instance iso_dates : DateLib := {|
  dateutil_parser := Some (λ s, if String.eqb s "2024-05-01T00:00:00+00:00" then Some (Aware 1714521600)
                               else None);
  fromisoformat := λ _, None;
  iso_of_aware := λ _, "2024-05-01T00:00:00+00:00";
  strftime_date := λ _, "May 01, 2024";
  strftime_generated := λ _, "May 01, 2024 at 12:00 AM UTC"
|}.

(** A numeric date from the oracle is displayed as the number itself. *)
Lemma format_display_date_str_witness :
  format_display_date (PInt 2024) = PInt 2024 ∧ ¬ ∃ s, format_display_date (PInt 2024) = PStr s.
Proof.
  split; [apply (format_display_date_str (PInt 2024)); [reflexivity|intros s; discriminate]|].
  rewrite (proj1 (format_display_date_str (PInt 2024))).
  intros [Hf|[s Hs]]; discriminate.
Defined.

End DisplaySamples.

