(* ===== verification/Service.v ===== *)
(** * The profile service: [ESGService] in [src/esg/services.py]

    [get_company_esg_profile] normalizes the name, derives the cache key
    and answers from the cache when the entry is live; otherwise
    [_build_profile] runs the overview request, the article fetch and
    the analysis, in that order, and the profile is cached for
    [cache_timeout] seconds.

    The service state [state] holds the Django cache (a [gmap] from key
    to profile and expiry instant, with the semantics of Django's local
    memory cache: an entry is live while [now < expiry]) and the log of
    the oracle requests sent so far.

    Theorems: a cache hit answers without touching the oracle or the
    state; a profile built at [t] is served from the cache, for any
    spelling of the name with the same key, until [t + timeout] and
    rebuilt after; the requests of a miss go overview, web search,
    analysis, and the analysis request carries the web search's
    articles (at most [max_items], newest first, distinct); an empty
    article list gives the zero profile, and so does every miss of an
    unconfigured service, which sends no request; every cached
    profile is well formed and [get_company_esg_profile] preserves this
    invariant; no [ESGServiceError] ever leaves the service. *)

From S2P Require Import Prelude Python Sorting Keywords Utils Clients Scoring.

(** ** Profiles and the cache *)

Record profile := mk_profile {
  company : string;
  generated_at : string;
  generated_at_display : string;
  overview : string;
  overall_score : pyval;
  items : list item;
  total_items : nat;
  search_window_days : Z
}.

(** The cache entries: the value and its expiry instant. *)
Abbreviation cache_map := (gmap string (profile * Z)).

(** [cache.get(key)]: a stored value is returned while it has not
    expired ([expiry <= now] is expired, as in Django's cache). *)
Definition cache_get (c : cache_map) (now : Z) (key : string) : option profile :=
  match c !! key with
  | Some (v, expiry) => if Z.ltb now expiry then Some v else None
  | None => None
  end.

(** [cache.set(key, value, timeout=timeout)]. *)
Definition cache_set (c : cache_map) (now : Z) (key : string) (v : profile) (timeout : Z)
    : cache_map :=
  <[key := (v, (now + timeout)%Z)]> c.

(** [ESGService(cache_timeout=3600, max_items=50)]. *)
Record service := mk_service {
  cache_timeout : Z;
  max_items : Z
}.

Definition default_service : service := mk_service (60 * 60)%Z 50%Z.

Record state := mk_state {
  st_cache : cache_map;
  st_log : list prompt
}.

(** ** The operations *)

Section Service.
Context `{Sha1, FloatLib, DateLib, JsonCodec}.

Definition fetch_company_overview (o : oracle) (company_name : string) : M string :=
  if negb (openai_available o) then
    mret ("Overview unavailable for " ++ company_name
          ++ ". Configure OPENAI_API_KEY to enable this summary.")%string
  else
    catch (response_text ← execute_openai_prompt o (OverviewPrompt company_name);
           mret (py_strip response_text))
      (λ e, if is_service_error e
            then Some (mret ("Overview unavailable for " ++ company_name ++ ".")%string)
            else None).

(** [now] is [datetime.utcnow()], naive. *)
Definition build_profile (svc : service) (o : oracle) (now : Z) (company_name : string)
    : M profile :=
  overview ← fetch_company_overview o company_name;
  articles ← fetch_articles o now company_name (max_items svc);
  analysis ← analyse_articles o company_name articles;
  mret (mk_profile company_name (isoformat (Naive now)) (strftime_generated (Naive now))
          overview (an_overall_score analysis) (an_items analysis)
          (length (an_items analysis)) LOOKBACK_DAYS).

(** A profile dict is never empty, so [if cached_value:] is a
    presence test. *)
Definition get_company_esg_profile (svc : service) (o : oracle) (now : Z) (st : state)
    (company_name : string) : res (profile * bool) * state :=
  let normalized := normalize_company_name company_name in
  let key := make_cache_key normalized in
  match cache_get (st_cache st) now key with
  | Some cached_value => (Ok (cached_value, true), st)
  | None =>
      match build_profile svc o now normalized (st_log st) with
      | (Ok p, log') =>
          (Ok (p, false), mk_state (cache_set (st_cache st) now key p (cache_timeout svc)) log')
      | (Err e, log') => (Err e, mk_state (st_cache st) log')
      end
  end.
End Service.

(** ** Lemmas on the steps of a build *)

Lemma cache_get_set c now key v timeout t :
  cache_get (cache_set c now key v timeout) t key
  = if Z.ltb t (now + timeout) then Some v else None.
Proof. unfold cache_get, cache_set. by rewrite lookup_insert_eq. Qed.

Section ServiceTheorems.
Context `{Sha1, FloatLib, DateLib, JsonCodec}.

(** The overview degrades to a placeholder and never raises. *)
Lemma fetch_company_overview_eq o n log :
  fetch_company_overview o n log =
  if openai_available o then
    (Ok (match respond o (OverviewPrompt n) with
         | Some t => py_strip t
         | None => "Overview unavailable for " ++ n ++ "."
         end)%string, log ++ [OverviewPrompt n])
  else
    (Ok ("Overview unavailable for " ++ n
         ++ ". Configure OPENAI_API_KEY to enable this summary.")%string, log).
Proof.
  unfold fetch_company_overview. destruct (openai_available o) eqn:Ha; [|done].
  unfold catch, execute_openai_prompt. rewrite Ha.
  cbv [mbind M_bind call mret M_ret lift negb]. by destruct (respond o _).
Qed.

Lemma analyse_articles_log o n arts log :
  snd (analyse_articles o n arts log)
  = match arts with
    | [] => log
    | _ => if openai_available o then log ++ [AnalysisPrompt n arts] else log
    end.
Proof.
  destruct arts as [|a arts]; [done|]. destruct (openai_available o) eqn:Ha.
  - rewrite analyse_articles_available, analyse_with_openai_eq by done.
    destruct (respond o _) as [t|]; simpl; [|done].
    destruct (json_loads t); simpl; [|done].
    destruct (analysis_of_report _) as [|e]; simpl; [done|by destruct (is_service_error e)].
  - unfold analyse_articles. by rewrite Ha.
Qed.

(** C5: a live cache entry answers the request: the cached profile is
    returned with [from_cache = True], and neither the oracle nor the
    state (cache and request log) is touched. *)
Theorem get_company_esg_profile_hit svc o now st name p :
  cache_get (st_cache st) now (make_cache_key (normalize_company_name name)) = Some p →
  get_company_esg_profile svc o now st name = (Ok (p, true), st).
Proof. intros Hc. unfold get_company_esg_profile. by rewrite Hc. Qed.

Lemma get_company_esg_profile_miss_cache svc o t st name p st1 :
  get_company_esg_profile svc o t st name = (Ok (p, false), st1) →
  st_cache st1 = cache_set (st_cache st) t (make_cache_key (normalize_company_name name)) p
                           (cache_timeout svc).
Proof.
  unfold get_company_esg_profile.
  destruct (cache_get _ _ _); [by intros [=]|].
  destruct (build_profile _ _ _ _ _) as [[p'|e] log']; [|discriminate].
  by intros [= -> <-].
Qed.

(** C4: a profile built by a miss at [t1] is served from the cache, with
    [from_cache = True], to every request whose name has the same key
    (any spacing or case of it) up to, not including, [t1 + timeout];
    from then on the entry is expired and a request never reports
    [from_cache = True]. *)
Theorem get_company_esg_profile_ttl svc o o' t1 t2 st st1 name name' p :
  get_company_esg_profile svc o t1 st name = (Ok (p, false), st1) →
  make_cache_key (normalize_company_name name') = make_cache_key (normalize_company_name name) →
  ((t2 < t1 + cache_timeout svc)%Z →
     get_company_esg_profile svc o' t2 st1 name' = (Ok (p, true), st1)) ∧
  ((t1 + cache_timeout svc ≤ t2)%Z → ∀ q b st2,
     get_company_esg_profile svc o' t2 st1 name' = (Ok (q, b), st2) → b = false).
Proof.
  intros Hmiss Hkey. apply get_company_esg_profile_miss_cache in Hmiss.
  assert (Hget : ∀ t, cache_get (st_cache st1) t (make_cache_key (normalize_company_name name'))
                      = if Z.ltb t (t1 + cache_timeout svc) then Some p else None)
    by (intros t; rewrite Hmiss, Hkey; apply cache_get_set).
  split.
  - intros Ht. unfold get_company_esg_profile. by rewrite Hget, (proj2 (Z.ltb_lt _ _) Ht).
  - intros Ht q b st2. unfold get_company_esg_profile.
    rewrite Hget, (proj2 (Z.ltb_ge _ _) Ht).
    destruct (build_profile _ _ _ _ _) as [[|] ?]; [by intros [= _ <- _]|done].
Qed.

(** The three steps of a build, with the log each leaves. *)
Lemma build_profile_steps svc o now n log p log' :
  build_profile svc o now n log = (Ok p, log') →
  ∃ ov log1 arts log2 an,
    fetch_company_overview o n log = (Ok ov, log1) ∧
    fetch_articles o now n (max_items svc) log1 = (Ok arts, log2) ∧
    analyse_articles o n arts log2 = (Ok an, log') ∧
    p = mk_profile n (isoformat (Naive now)) (strftime_generated (Naive now)) ov
          (an_overall_score an) (an_items an) (length (an_items an)) LOOKBACK_DAYS.
Proof.
  unfold build_profile, mbind, M_bind.
  destruct (fetch_company_overview o n log) as [[ov|e] log1] eqn:Hov; [|done].
  destruct (fetch_articles o now n (max_items svc) log1) as [[arts|e] log2] eqn:Hfa; [|done].
  destruct (analyse_articles o n arts log2) as [[an|e] log3] eqn:Han; [|done].
  intros [= <- <-]. by exists ov, log1, arts, log2, an.
Qed.

(** The requests of a successful build, with the articles fetched. *)
Lemma build_profile_log svc o now n log p log' :
  build_profile svc o now n log = (Ok p, log') →
  ∃ log1 arts log2,
    log1 = log ++ (if openai_available o then [OverviewPrompt n] else []) ∧
    fetch_articles o now n (max_items svc) log1 = (Ok arts, log2) ∧
    log' = log ++
      (if openai_available o
       then [OverviewPrompt n; WebSearchPrompt n (max_items svc)]
            ++ match arts with [] => [] | _ => [AnalysisPrompt n arts] end
       else []).
Proof.
  intros (ov & log1 & arts & log2 & an & Hov & Hfa & Han & _)%build_profile_steps.
  exists log1, arts, log2. rewrite fetch_company_overview_eq in Hov.
  pose proof (fetch_articles_log o now n (max_items svc) log1) as L2. rewrite Hfa in L2.
  pose proof (analyse_articles_log o n arts log2) as L3. rewrite Han in L3. simpl in L2, L3.
  destruct (openai_available o); injection Hov as _ <-; subst log2 log';
    (split; [by rewrite ?app_nil_r|]); (split; [done|]).
  - rewrite <-!app_assoc. by destruct arts.
  - rewrite !app_nil_r. by destruct arts.
Qed.

(** C21: the requests of a successful build go in the order of the
    code: the overview, then the web search, then the analysis, sent
    exactly when the web search (run after the overview request) found
    articles, and carrying those articles; with the oracle unconfigured
    none is sent. *)
Theorem build_profile_requests svc o now n log p log' :
  build_profile svc o now n log = (Ok p, log') →
  ∃ arts log2,
    fetch_articles o now n (max_items svc)
      (log ++ (if openai_available o then [OverviewPrompt n] else [])) = (Ok arts, log2) ∧
    log' = log ++
      (if openai_available o
       then [OverviewPrompt n; WebSearchPrompt n (max_items svc)]
            ++ match arts with [] => [] | _ => [AnalysisPrompt n arts] end
       else []).
Proof. intros (log1 & arts & log2 & -> & Hfa & ->)%build_profile_log. by exists arts, log2. Qed.

(** C22: the analysis request of a build is for the normalized name and
    carries the articles of its web search: at least one, at most
    [max_items], newest first, no two with the same identity key. *)
Theorem build_profile_analysis_articles svc o now n log p log' c arts :
  build_profile svc o now n log = (Ok p, log') → (0 ≤ max_items svc)%Z →
  AnalysisPrompt c arts ∈ log' → AnalysisPrompt c arts ∉ log →
  c = n ∧ arts ≠ [] ∧ length arts ≤ Z.to_nat (max_items svc) ∧
  StronglySorted (λ x y, published_stamp y ≤ published_stamp x)%Z arts ∧
  NoDup (dedup_key <$> arts).
Proof.
  intros (log1 & arts' & log2 & _ & Hfa & ->)%build_profile_log Hmax Hin Hnot.
  apply elem_of_app in Hin as [Hin|Hin]; [done|].
  destruct (openai_available o); [|by apply not_elem_of_nil in Hin].
  apply elem_of_app in Hin as [Hin|Hin].
  { repeat (apply elem_of_cons in Hin as [Hin|Hin]; [discriminate Hin|]). by apply not_elem_of_nil in Hin. }
  destruct arts' as [|a0 arts0]; [by apply not_elem_of_nil in Hin|].
  apply list_elem_of_singleton in Hin. injection Hin as -> ->.
  destruct (fetch_articles_result _ _ _ _ _ _ _ Hfa Hmax) as (? & ? & ?). by split_and!.
Qed.

(** when no article is found the profile is the zero profile:
    overall score 0, no items, [total_items = 0]. *)
Theorem build_profile_no_articles svc o now n log ov log1 log2 :
  fetch_company_overview o n log = (Ok ov, log1) →
  fetch_articles o now n (max_items svc) log1 = (Ok [], log2) →
  ∃ p, build_profile svc o now n log = (Ok p, log2) ∧
    overall_score p = PInt 0 ∧ total_items p = 0 ∧ items p = [] ∧ overview p = ov.
Proof.
  intros Hov Hfa. unfold build_profile.
  erewrite M_bind_ok by exact Hov. erewrite M_bind_ok by exact Hfa.
  eexists. split; [reflexivity|]. done.
Qed.

Lemma fetch_articles_unavailable o now n lim log :
  openai_available o = false → fetch_articles o now n lim log = (Ok [], log).
Proof. intros Ha. unfold fetch_articles. by rewrite Ha. Qed.

(** C18: without the [openai] package or with a falsy
    [settings.OPENAI_API_KEY], a request that misses the cache sends no
    request to the model, never raises, and stores and answers the
    zero-score profile: the placeholder overview, no items, overall
    score 0, generated now. *)
Theorem get_company_esg_profile_unconfigured svc o now st name :
  let n := normalize_company_name name in
  openai_available o = false →
  cache_get (st_cache st) now (make_cache_key n) = None →
  let p := mk_profile n (isoformat (Naive now)) (strftime_generated (Naive now))
             ("Overview unavailable for " ++ n ++ ". Configure OPENAI_API_KEY to enable this summary.")
             (PInt 0) [] 0 LOOKBACK_DAYS in
  get_company_esg_profile svc o now st name
  = (Ok (p, false), mk_state (cache_set (st_cache st) now (make_cache_key n) p (cache_timeout svc))
                             (st_log st)).
Proof.
  intros n Ha Hg p. unfold get_company_esg_profile. fold n. rewrite Hg.
  unfold build_profile.
  erewrite M_bind_ok by (rewrite fetch_company_overview_eq, Ha; reflexivity).
  erewrite M_bind_ok by (apply fetch_articles_unavailable, Ha).
  reflexivity.
Qed.
End ServiceTheorems.

(** ** The cache invariant *)

(** A profile as [_build_profile] assembles it. *)
Definition profile_wf (p : profile) : Prop :=
  total_items p = length (items p) ∧
  canonical_name (company p) = true ∧
  search_window_days p = LOOKBACK_DAYS ∧
  items_wf (items p).

Definition cache_wf (c : cache_map) : Prop := map_Forall (λ _ entry, profile_wf entry.1) c.

Lemma cache_get_wf c now k p : cache_wf c → cache_get c now k = Some p → profile_wf p.
Proof.
  unfold cache_get. intros Hwf. destruct (c !! k) as [[p0 e]|] eqn:Hl; [|done].
  destruct (Z.ltb now e); [intros [= <-]|done]. by apply (Hwf _ _ Hl).
Qed.

Lemma cache_set_wf c now k p t : cache_wf c → profile_wf p → cache_wf (cache_set c now k p t).
Proof. intros Hwf Hp. by apply map_Forall_insert_2. Qed.

Section Invariant.
Context `{Sha1, FloatLib, DateLib, JsonCodec}.

Lemma build_profile_wf svc o now name log p log' :
  build_profile svc o now (normalize_company_name name) log = (Ok p, log') → profile_wf p.
Proof.
  intros (ov & log1 & arts & log2 & an & _ & _ & Han & ->)%build_profile_steps.
  split_and!; [done| |done|by eapply analyse_articles_wf].
  apply canonical_name_normalize.
Qed.

(** C10: every profile in the cache is well formed ([total_items] is the
    number of items, the company is a normalized name, the window is
    730 days, every item's four scores lie in [[0, 100]] and the items
    are ordered by overall score), and [get_company_esg_profile]
    preserves this and returns only well-formed profiles. *)
Theorem get_company_esg_profile_wf svc o now st name r st' :
  cache_wf (st_cache st) →
  get_company_esg_profile svc o now st name = (r, st') →
  cache_wf (st_cache st') ∧ ∀ p b, r = Ok (p, b) → profile_wf p.
Proof.
  intros Hwf. unfold get_company_esg_profile.
  destruct (cache_get _ _ _) as [p|] eqn:Hc.
  - intros [= <- <-]. split; [done|]. intros p' b [= <- _]. by eapply cache_get_wf.
  - destruct (build_profile _ _ _ _ _) as [[p|e] log'] eqn:Hb; intros [= <- <-]; [|done].
    pose proof (build_profile_wf _ _ _ _ _ _ _ Hb).
    split; [by apply cache_set_wf|by intros p' b [= <- _]].
Qed.

(** The cache half of the invariant, for the clients of the service. *)
Lemma get_company_esg_profile_cache_wf svc o now st name :
  cache_wf (st_cache st) → cache_wf (st_cache (snd (get_company_esg_profile svc o now st name))).
Proof.
  intros Hwf. unfold get_company_esg_profile.
  destruct (cache_get _ _ _); [done|].
  destruct (build_profile _ _ _ _ _) as [[p|e] log'] eqn:Hb; [|done].
  apply cache_set_wf; [done|]. by eapply build_profile_wf.
Qed.

Lemma build_profile_err svc o now n log e log' :
  build_profile svc o now n log = (Err e, log') →
  (∃ log1 l, fetch_articles o now n (max_items svc) log1 = (Err e, l)) ∨
  (∃ arts log2 l, analyse_articles o n arts log2 = (Err e, l)).
Proof.
  unfold build_profile, mbind, M_bind.
  destruct (fetch_company_overview o n log) as [[ov|e0] log1] eqn:Hov.
  2: { rewrite fetch_company_overview_eq in Hov. by destruct (openai_available o). }
  destruct (fetch_articles o now n (max_items svc) log1) as [[arts|e1] log2] eqn:Hfa.
  2: { intros [= <- _]. left. eauto. }
  destruct (analyse_articles o n arts log2) as [[an|e2] log3] eqn:Han; [done|].
  intros [= <- _]. right. eauto.
Qed.

(** No [ESGServiceError] ever leaves [get_company_esg_profile]:
    the overview, the fetch and the analysis each recover from their
    own; what can escape are other exceptions ([TypeError],
    [AttributeError], [OverflowError]), which the dashboard view only
    reports through its generic handler. *)
Theorem get_company_esg_profile_no_service_error svc o now st name :
  raises_only (λ e, is_service_error e = false) (fst (get_company_esg_profile svc o now st name)).
Proof.
  unfold get_company_esg_profile. destruct (cache_get _ _ _); [by intros e|].
  destruct (build_profile _ _ _ _ _) as [[p|e] log'] eqn:Hb; [by intros e'|].
  simpl. intros e' [= <-].
  destruct (build_profile_err _ _ _ _ _ _ _ Hb) as [(log1 & l & Hf)|(arts & log2 & l & Ha)].
  - pose proof (fetch_articles_raises o now (normalize_company_name name) (max_items svc) log1 e)
      as He. rewrite Hf in He. by destruct (He eq_refl) as [-> | ->].
  - pose proof (analyse_articles_no_service_error o (normalize_company_name name) arts log2 e)
      as He. rewrite Ha in He. by apply He.
Qed.
End Invariant.

(** ** Witnesses: two requests for the same company one hour apart *)

Module ServiceSamples.
#[local] Existing Instance identity_digest.
#[local] Instance no_float_strings : FloatLib := {| float_of_string := λ _, None |}.
#[local] Existing Instance sample_dates.
#[local] Instance codec : JsonCodec := table_codec [("DATED", FetchSamples.dated_payload)].

Definition offline : oracle := {| openai_installed := true; OPENAI_API_KEY := PNone; respond := λ _, None |}.
Definition answering (text : string) : oracle :=
  {| openai_installed := true; OPENAI_API_KEY := PStr "sk-test"; respond := λ _, Some text |}.
Definition st0 : state := mk_state ∅ [].

Lemma get_company_esg_profile_ttl_witness :
  ∃ p st1, get_company_esg_profile default_service offline 1000 st0 "Adani Power"
           = (Ok (p, false), st1) ∧
    get_company_esg_profile default_service offline 2000 st1 " adani  power"
    = (Ok (p, true), st1) ∧
    ∀ q b st2, get_company_esg_profile default_service offline 4600 st1 " adani  power"
               = (Ok (q, b), st2) → b = false.
Proof.
  eexists _, _. split; [reflexivity|].
  edestruct (get_company_esg_profile_ttl default_service offline offline 1000 2000 st0 _
               "Adani Power" " adani  power" _ eq_refl eq_refl) as [Hlive _].
  edestruct (get_company_esg_profile_ttl default_service offline offline 1000 4600 st0 _
               "Adani Power" " adani  power" _ eq_refl eq_refl) as [_ Hexp].
  split; [apply Hlive; simpl; lia|apply Hexp; simpl; lia].
Defined.

Lemma get_company_esg_profile_hit_witness :
  ∃ p st1, get_company_esg_profile default_service offline 1000 st0 "Adani Power"
           = (Ok (p, false), st1) ∧
    get_company_esg_profile default_service (answering "DATED") 1500 st1 "ADANI POWER"
    = (Ok (p, true), st1).
Proof.
  eexists _, _. split; [reflexivity|]. apply get_company_esg_profile_hit. reflexivity.
Defined.

Lemma build_profile_requests_witness :
  ∃ p log', build_profile default_service (answering "DATED") 0 "Adani Power" [] = (Ok p, log') ∧
    ∃ arts log2,
      fetch_articles (answering "DATED") 0 "Adani Power" 50 [OverviewPrompt "Adani Power"]
      = (Ok arts, log2) ∧ arts ≠ [] ∧
      log' = [OverviewPrompt "Adani Power"; WebSearchPrompt "Adani Power" 50;
              AnalysisPrompt "Adani Power" arts].
Proof.
  destruct (build_profile default_service (answering "DATED") 0 "Adani Power" []) as [r log'] eqn:Hb.
  assert (Hr : ∃ p, r = Ok p) by (vm_compute in Hb; injection Hb as <- _; eauto).
  destruct Hr as [p ->]. exists p, log'. split; [done|].
  destruct (build_profile_requests default_service (answering "DATED") 0 "Adani Power" [] p log' Hb)
    as (arts & log2 & Hfa & Hlog).
  exists arts, log2. split; [exact Hfa|].
  assert (Ha : arts ≠ []) by (vm_compute in Hfa; injection Hfa as <- _; discriminate).
  split; [exact Ha|]. rewrite Hlog. by destruct arts.
Defined.

Lemma build_profile_no_articles_witness :
  ∃ p, build_profile default_service offline 0 "Adani Power" [] = (Ok p, []) ∧
    overall_score p = PInt 0 ∧ total_items p = 0 ∧ items p = [] ∧
    overview p = "Overview unavailable for Adani Power. Configure OPENAI_API_KEY to enable this summary."%string.
Proof. eapply build_profile_no_articles; reflexivity. Defined.

Lemma get_company_esg_profile_wf_witness :
  ∃ r st1, get_company_esg_profile default_service offline 1000 st0 "Adani Power" = (r, st1) ∧
    cache_wf (st_cache st1).
Proof.
  eexists _, _. split; [reflexivity|].
  eapply (get_company_esg_profile_wf default_service offline 1000 st0 "Adani Power");
    [apply map_Forall_empty|reflexivity].
Defined.
(** Installed, but the key is the empty string. *)
Definition no_key : oracle :=
  {| openai_installed := true; OPENAI_API_KEY := PStr ""; respond := λ _, Some "DATED" |}.

Lemma get_company_esg_profile_unconfigured_witness :
  openai_available no_key = false ∧
  get_company_esg_profile default_service no_key 1000 st0 " Adani  Power"
  = (Ok (mk_profile "Adani Power" (isoformat (Naive 1000)) (strftime_generated (Naive 1000))
           "Overview unavailable for Adani Power. Configure OPENAI_API_KEY to enable this summary."
           (PInt 0) [] 0 730, false),
     mk_state (cache_set ∅ 1000 (make_cache_key "Adani Power")
                 (mk_profile "Adani Power" (isoformat (Naive 1000)) (strftime_generated (Naive 1000))
                    "Overview unavailable for Adani Power. Configure OPENAI_API_KEY to enable this summary."
                    (PInt 0) [] 0 730) 3600) []).
Proof.
  split; [reflexivity|].
  exact (get_company_esg_profile_unconfigured default_service no_key 1000 st0 " Adani  Power"
           eq_refl eq_refl).
Defined.

Definition spill : article :=
  mk_article (PStr "Oil spill at plant") (PStr "") (PStr "https://news/a") PNone
    (Aware 1714521600) "openai_web_search".

Lemma build_profile_analysis_articles_witness :
  ∃ p log', build_profile default_service (answering "DATED") 0 "Adani Power" [] = (Ok p, log') ∧
    AnalysisPrompt "Adani Power" [spill] ∈ log' ∧
    length [spill] ≤ Z.to_nat (max_items default_service).
Proof.
  destruct (build_profile default_service (answering "DATED") 0 "Adani Power" [])
    as [[p|e] log'] eqn:Hb; [|vm_compute in Hb; discriminate Hb].
  assert (Hin : AnalysisPrompt "Adani Power" [spill] ∈ log').
  { vm_compute in Hb. injection Hb as _ <-. apply list_elem_of_In. right; right; left. reflexivity. }
  exists p, log'. split_and!; [done|done|].
  destruct (build_profile_analysis_articles default_service _ _ _ _ _ _ _ _ Hb
              ltac:(cbv; discriminate) Hin (not_elem_of_nil _)) as (_ & _ & Hlen & _).
  exact Hlen.
Defined.

End ServiceSamples.
