(* ===== verification/Concurrency.v ===== *)
(** * Concurrent requests to the profile service

    [get_company_esg_profile] ([src/esg/services.py], lines 43-52) is
    three steps on shared state: [cache.get] (line 46), [_build_profile]
    (line 50, with its oracle requests) and [cache.set] (line 51).
    Django serves requests concurrently and the code takes no lock; the
    spec (section 5) accepts that callers asking for the same company
    before the first one finishes each rebuild the profile, the last
    write winning.

    Here each request is a thread whose steps a scheduler interleaves:
    [phase] is where a request stands, [thread_step] is one step of one
    request at the instant the scheduler gives it, [conf_step] a step of
    the configuration (the service state shared by all threads, and the
    phase of each), and [run] a whole schedule.  The build is one step:
    the oracle requests of two builds are not interleaved in the log.

    Theorem: two requests for the same company that both miss both
    rebuild, both builds' requests are sent, and the cache keeps the
    profile of the one that stored last. *)

From S2P Require Import Prelude Python Utils Clients Scoring Service.

(** ** Threads and configurations *)

(** Where a request of [get_company_esg_profile] stands. *)
Inductive phase :=
  | Pending (o : oracle) (name : string)
  | Missed (o : oracle) (name : string)
  | Built (key : string) (p : profile)
  | Finished (r : res (profile * bool)).

Record conf := mk_conf {
  cf_state : state;
  cf_threads : list phase
}.

Section Concurrency.
Context `{Sha1, FloatLib, DateLib, JsonCodec}.
Variable svc : service.

(** One step of one request; a finished request has no step. *)
Definition thread_step (now : Z) (ph : phase) (st : state) : option (phase * state) :=
  match ph with
  | Pending o name =>
      let key := make_cache_key (normalize_company_name name) in
      match cache_get (st_cache st) now key with
      | Some cached_value => Some (Finished (Ok (cached_value, true)), st)
      | None => Some (Missed o name, st)
      end
  | Missed o name =>
      let normalized := normalize_company_name name in
      match build_profile svc o now normalized (st_log st) with
      | (Ok p, log') => Some (Built (make_cache_key normalized) p, mk_state (st_cache st) log')
      | (Err e, log') => Some (Finished (Err e), mk_state (st_cache st) log')
      end
  | Built key p =>
      Some (Finished (Ok (p, false)),
            mk_state (cache_set (st_cache st) now key p (cache_timeout svc)) (st_log st))
  | Finished _ => None
  end.

Definition conf_step (i : nat) (now : Z) (c : conf) : option conf :=
  ph ← cf_threads c !! i;
  '(ph', st') ← thread_step now ph (cf_state c);
  Some (mk_conf st' (<[i := ph']> (cf_threads c))).

(** A schedule names the request that moves and the instant; a step of
    a finished or absent request does nothing. *)
Fixpoint run (sched : list (nat * Z)) (c : conf) : conf :=
  match sched with
  | [] => c
  | (i, now) :: sched' => run sched' (default c (conf_step i now c))
  end.

End Concurrency.


(** ** Lemmas *)

Section Lemmas.
Context `{Sha1, FloatLib, DateLib, JsonCodec}.
Variable svc : service.

Lemma conf_step_at i now st ts ph :
  ts !! i = Some ph →
  conf_step svc i now (mk_conf st ts)
  = (λ '(ph', st'), mk_conf st' (<[i := ph']> ts)) <$> thread_step svc now ph st.
Proof.
  intros Hi. unfold conf_step. simpl. rewrite Hi. simpl.
  by destruct (thread_step svc now ph st) as [[ph' st']|].
Qed.


Lemma run_step i now sched c c' :
  conf_step svc i now c = Some c' → run svc ((i, now) :: sched) c = run svc sched c'.
Proof. intros Hs. simpl. by rewrite Hs. Qed.


Lemma thread_step_miss now o name st :
  cache_get (st_cache st) now (make_cache_key (normalize_company_name name)) = None →
  thread_step svc now (Pending o name) st = Some (Missed o name, st).
Proof. intros Hg. simpl. by rewrite Hg. Qed.

Lemma thread_step_built now o name st p log' :
  build_profile svc o now (normalize_company_name name) (st_log st) = (Ok p, log') →
  thread_step svc now (Missed o name) st
  = Some (Built (make_cache_key (normalize_company_name name)) p, mk_state (st_cache st) log').
Proof. intros Hb. simpl. by rewrite Hb. Qed.

Lemma thread_step_store now key p st :
  thread_step svc now (Built key p) st
  = Some (Finished (Ok (p, false)), mk_state (cache_set (st_cache st) now key p (cache_timeout svc)) (st_log st)).
Proof. done. Qed.


End Lemmas.

(** ** Theorems *)

Section ConcurrencyTheorems.
Context `{Sha1, FloatLib, DateLib, JsonCodec}.
Variable svc : service.



(** C17: the race the spec accepts: two requests for names with the
    same key both look the cache up before either stores, so both
    rebuild (both answers have [from_cache] false and both builds' oracle
    requests are sent), and the cache keeps the profile of the request
    that stored last. *)
Theorem concurrent_misses_rebuild oA oB nameA nameB tA tB st pA pB logA logB :
  let key := make_cache_key (normalize_company_name nameA) in
  make_cache_key (normalize_company_name nameB) = key →
  cache_get (st_cache st) tA key = None → cache_get (st_cache st) tB key = None →
  build_profile svc oA tA (normalize_company_name nameA) (st_log st) = (Ok pA, logA) →
  build_profile svc oB tB (normalize_company_name nameB) logA = (Ok pB, logB) →
  let cache' := cache_set (cache_set (st_cache st) tA key pA (cache_timeout svc))
                  tB key pB (cache_timeout svc) in
  run svc [(0, tA); (1, tB); (0, tA); (1, tB); (0, tA); (1, tB)]%nat
      (mk_conf st [Pending oA nameA; Pending oB nameB])
  = mk_conf (mk_state cache' logB) [Finished (Ok (pA, false)); Finished (Ok (pB, false))] ∧
  cache' !! key = Some (pB, (tB + cache_timeout svc)%Z).
Proof.
  intros key Hk HA HB HbA HbB cache'. split; [|apply lookup_insert_eq].
  do 6 (erewrite run_step; [|erewrite conf_step_at; [|reflexivity]; cbn [st_cache st_log];
    first [rewrite thread_step_miss by (rewrite ?Hk; eassumption)
          |erewrite thread_step_built by eassumption
          |rewrite thread_step_store]; reflexivity]).
  unfold cache', key. by rewrite Hk.
Qed.
End ConcurrencyTheorems.

(** ** Witnesses *)

Module ConcurrencySamples.
#[local] Existing Instance identity_digest.
#[local] Instance no_float_strings : FloatLib := {| float_of_string := λ _, None |}.
#[local] Existing Instance sample_dates.
#[local] Instance codec : JsonCodec := table_codec [].

Definition offline : oracle := {| openai_installed := true; OPENAI_API_KEY := PNone; respond := λ _, None |}.

(** Two clients ask for the same company, with different spellings. *)
Definition c0 : conf :=
  mk_conf (mk_state ∅ []) [Pending offline "Adani Power"; Pending offline " adani  power"].



Lemma concurrent_misses_rebuild_witness :
  ∃ pA pB logA logB,
    build_profile default_service offline 1000 "Adani Power" [] = (Ok pA, logA) ∧
    build_profile default_service offline 1000 (normalize_company_name " adani  power") logA
    = (Ok pB, logB) ∧
    cf_threads (run default_service [(0%nat, 1000%Z); (1%nat, 1000%Z); (0%nat, 1000%Z); (1%nat, 1000%Z); (0%nat, 1000%Z); (1%nat, 1000%Z)] c0)
    = [Finished (Ok (pA, false)); Finished (Ok (pB, false))].
Proof.
  do 4 eexists. split; [reflexivity|]. split; [reflexivity|].
  edestruct (concurrent_misses_rebuild default_service offline offline "Adani Power" " adani  power"
               1000 1000 (mk_state ∅ [])) as [Hrun _]; [reflexivity..|].
  unfold c0. rewrite Hrun. reflexivity.
Defined.
End ConcurrencySamples.
