(* ===== verification/History.v ===== *)
(** * The search history ([src/esg/history.py], [src/dashboard/models.py])

    [SearchHistoryRepository] over the [SearchHistory] table, modelled as
    the list of its rows in insertion order.  [record_search] appends a
    row; [get_recent_searches] reads a user's rows newest first (the
    query [order_by('-searched_at')]; rows with the same timestamp come
    in insertion order, an order the database does not promise) and
    keeps the first row of each case-insensitive name, stopping once
    [limit] rows are collected.

    Theorems: [record_search] is a no-op exactly on a falsy user or
    name, but records an empty name for a whitespace-only one; the
    recent searches are the user's, newest first, with no two names
    equal up to case, at most [limit] of them for [limit >= 1], and one
    row for [limit <= 0]; [get_recent_searches] equals a reference that
    separates the deduplication up to case from the cut to
    [max(1, limit)] rows. *)

From S2P Require Import Prelude Python Sorting Utils.

Record search_history := mk_search {
  sh_user_id : Z;
  sh_company_name : string;
  sh_searched_at : Z
}.

(** [now] is [timezone.now()]. *)
Definition record_search (db : list search_history) (user_id : Z) (company_name : string)
    (now : Z) : list search_history :=
  if Z.eqb user_id 0 || String.eqb company_name "" then db
  else db ++ [mk_search user_id (normalize_company_name company_name) now].

(** [SearchHistory.objects.filter(user_id=user_id).order_by('-searched_at')]. *)
Definition user_searches (db : list search_history) (user_id : Z) : list search_history :=
  sort_desc sh_searched_at Z.ltb (List.filter (λ r, Z.eqb (sh_user_id r) user_id) db).

(** The loop of lines 30-42: [seen] holds the lowercased names kept so
    far, [count] is [len(results)]. *)
Fixpoint recent_loop (seen : list string) (count : nat) (limit : Z) (qs : list search_history)
    : list (string * Z) :=
  match qs with
  | [] => []
  | entry :: qs' =>
      let key := str_lower (sh_company_name entry) in
      if existsb (String.eqb key) seen then recent_loop seen count limit qs'
      else (sh_company_name entry, sh_searched_at entry) ::
           (if Z.leb limit (Z.of_nat (S count)) then []
            else recent_loop (key :: seen) (S count) limit qs')
  end.

Definition get_recent_searches (db : list search_history) (user_id : Z) (limit : Z)
    : list (string * Z) :=
  if Z.eqb user_id 0 then [] else recent_loop [] 0 limit (user_searches db user_id).

(** The reference for [get_recent_searches]: the first row of each name
    up to case, in the order of the query; the result keeps the first
    [max(1, limit)] of them (the loop tests the bound after appending). *)
Fixpoint first_by_lower (seen : list string) (qs : list search_history) : list search_history :=
  match qs with
  | [] => []
  | e :: qs' =>
      let key := str_lower (sh_company_name e) in
      if existsb (String.eqb key) seen then first_by_lower seen qs'
      else e :: first_by_lower (key :: seen) qs'
  end.

Definition recent_reference (db : list search_history) (user_id : Z) (limit : Z)
    : list (string * Z) :=
  if Z.eqb user_id 0 then []
  else map (λ r, (sh_company_name r, sh_searched_at r))
         (take (Z.to_nat (Z.max 1 limit)) (first_by_lower [] (user_searches db user_id))).

(** [SearchHistory.__str__] ([src/dashboard/models.py], lines 18-19),
    given the username of the row's user; [searched_at] is aware. *)
Definition search_history_str `{DateLib} (username : string) (row : search_history) : string :=
  username +:+ ": " +:+ sh_company_name row +:+ " at " +:+ iso_of_aware (sh_searched_at row).

(** ** Theorems *)

Lemma record_search_active db u c now :
  (u ≠ 0)%Z → c ≠ "" → record_search db u c now = db ++ [mk_search u (normalize_company_name c) now].
Proof.
  intros Hu Hc. unfold record_search.
  apply Z.eqb_neq in Hu. apply String.eqb_neq in Hc. by rewrite Hu, Hc.
Qed.

(** [record_search] does nothing when the user id is 0 or the name
    is empty, and otherwise appends exactly one row, with the normalized
    name and the current time. *)
Theorem record_search_spec db u c now :
  ((u = 0)%Z ∨ c = "" → record_search db u c now = db) ∧
  ((u ≠ 0)%Z → c ≠ "" →
     record_search db u c now = db ++ [mk_search u (normalize_company_name c) now]).
Proof.
  unfold record_search. split.
  - intros [->| ->]; [done|]. by rewrite orb_true_r.
  - apply record_search_active.
Qed.

(** a name made only of whitespace is not empty, so the guard lets
    it through and a row with the empty company name is recorded (the
    dashboard's GET path passes [?company=] values unstripped). *)
Theorem record_search_blank_name db u c now :
  (u ≠ 0)%Z → c ≠ "" → normalize_company_name c = "" →
  record_search db u c now = db ++ [mk_search u "" now].
Proof. intros Hu Hc Hn. by rewrite record_search_active, Hn. Qed.

Lemma recent_loop_sublist seen count limit qs :
  recent_loop seen count limit qs `sublist_of`
  map (λ r, (sh_company_name r, sh_searched_at r)) qs.
Proof.
  revert seen count; induction qs as [|e qs IH]; intros seen count; simpl; [done|].
  destruct (existsb _ seen); [by apply sublist_cons|].
  apply sublist_skip. case_match; [apply sublist_nil_l|apply IH].
Qed.

Lemma recent_loop_fresh seen count limit qs :
  NoDup ((λ e, str_lower e.1) <$> recent_loop seen count limit qs) ∧
  Forall (λ e, existsb (String.eqb (str_lower e.1)) seen = false) (recent_loop seen count limit qs).
Proof.
  revert seen count; induction qs as [|e qs IH]; intros seen count; simpl; [split; constructor|].
  destruct (existsb (String.eqb (str_lower (sh_company_name e))) seen) eqn:Hs; [apply IH|].
  case_match; simpl.
  { split; repeat constructor; [set_solver|done]. }
  destruct (IH (str_lower (sh_company_name e) :: seen) (S count)) as [Hnd Hf].
  split.
  - constructor; [|done]. intros (x & Hx & Hin)%list_elem_of_fmap.
    rewrite Forall_forall in Hf. specialize (Hf x Hin). simpl in Hf.
    by rewrite Hx, String.eqb_refl in Hf.
  - constructor; [done|]. eapply Forall_impl; [exact Hf|]. simpl. intros x Hx.
    by apply orb_false_iff in Hx as [_ ?].
Qed.

Lemma recent_loop_length seen count limit qs :
  (Z.of_nat count < limit)%Z → count + length (recent_loop seen count limit qs) ≤ Z.to_nat limit.
Proof.
  revert seen count; induction qs as [|e qs IH]; intros seen count Hc; simpl; [lia|].
  destruct (existsb _ seen); [by apply IH|]. simpl.
  destruct (Z.leb limit (Z.of_nat (S count))) eqn:Hl; simpl; [lia|].
  apply Z.leb_gt in Hl. specialize (IH (str_lower (sh_company_name e) :: seen) (S count) Hl). lia.
Qed.

(** Every recent search is a row of the user asked for. *)
Lemma get_recent_searches_owned db u limit e :
  e ∈ get_recent_searches db u limit →
  ∃ row, row ∈ db ∧ sh_user_id row = u ∧ e = (sh_company_name row, sh_searched_at row).
Proof.
  unfold get_recent_searches. case_match; [by intros ?%not_elem_of_nil|].
  intros He. eapply elem_of_sublist in He; [|apply recent_loop_sublist].
  apply list_elem_of_In, in_map_iff in He as (row & <- & Hrow).
  apply list_elem_of_In in Hrow. unfold user_searches in Hrow.
  rewrite sort_desc_perm in Hrow. apply list_elem_of_In, filter_In in Hrow as [Hin Hid].
  exists row. split_and!; [by apply list_elem_of_In|by apply Z.eqb_eq|done].
Qed.

(** C26: the recent searches of a user are rows of that user, newest
    first, with no two names equal up to case, and at most [limit] of
    them when [limit >= 1]. *)
Theorem get_recent_searches_spec db u limit :
  NoDup ((λ e, str_lower e.1) <$> get_recent_searches db u limit) ∧
  StronglySorted (λ x y, y.2 ≤ x.2)%Z (get_recent_searches db u limit) ∧
  (∀ e, e ∈ get_recent_searches db u limit →
     ∃ row, row ∈ db ∧ sh_user_id row = u ∧ e = (sh_company_name row, sh_searched_at row)) ∧
  ((1 ≤ limit)%Z → length (get_recent_searches db u limit) ≤ Z.to_nat limit).
Proof.
  unfold get_recent_searches. destruct (Z.eqb_spec u 0) as [->|Hu].
  { split_and!; [constructor|constructor|by intros e ?%not_elem_of_nil|simpl; lia]. }
  set (qs := user_searches db u).
  pose proof (recent_loop_sublist [] 0 limit qs) as Hsub.
  split_and!.
  - apply recent_loop_fresh.
  - eapply StronglySorted_sublist; [exact Hsub|]. apply StronglySorted_map.
    eapply StronglySorted_weaken; [|apply sort_desc_sorted; apply _].
    intros x y Hxy. unfold desc in Hxy. simpl. apply Z.ltb_ge in Hxy. lia.
  - intros e He. apply (get_recent_searches_owned db u limit).
    unfold get_recent_searches. apply Z.eqb_neq in Hu. by rewrite Hu.
  - intros Hl. pose proof (recent_loop_length [] 0 limit qs ltac:(simpl; lia)). lia.
Qed.

(** with [limit <= 0] the loop appends before it tests the bound,
    so a user with any history gets one row back instead of none. *)
Theorem get_recent_searches_nonpositive_limit db u limit e rest :
  (u ≠ 0)%Z → (limit ≤ 0)%Z → user_searches db u = e :: rest →
  get_recent_searches db u limit = [(sh_company_name e, sh_searched_at e)].
Proof.
  intros Hu Hl Hq. unfold get_recent_searches. apply Z.eqb_neq in Hu. rewrite Hu, Hq.
  simpl. case_match eqn:Hle; [done|]. apply Z.leb_gt in Hle. lia.
Qed.

Lemma recent_loop_reference seen count limit qs :
  count < Z.to_nat (Z.max 1 limit) →
  recent_loop seen count limit qs
  = map (λ r, (sh_company_name r, sh_searched_at r))
      (take (Z.to_nat (Z.max 1 limit) - count) (first_by_lower seen qs)).
Proof.
  revert seen count; induction qs as [|e qs IH]; intros seen count Hc; simpl;
    [by rewrite take_nil|].
  destruct (existsb _ seen); [by apply IH|].
  replace (Z.to_nat (Z.max 1 limit) - count) with (S (Z.to_nat (Z.max 1 limit) - S count)) by lia.
  rewrite firstn_cons. simpl. f_equal.
  destruct (Z.leb_spec limit (Z.of_nat (S count))) as [Hl|Hl].
  - replace (Z.to_nat (Z.max 1 limit) - S count) with 0 by lia. by rewrite take_0.
  - apply IH. lia.
Qed.

(** C33: [get_recent_searches] is the reference: the first row of each
    name up to case among the user's rows newest first, cut to
    [max(1, limit)] rows, so [limit <= 0] gives one row, not none. *)
Theorem get_recent_searches_reference db u limit :
  get_recent_searches db u limit = recent_reference db u limit.
Proof.
  unfold get_recent_searches, recent_reference. case_match; [done|].
  rewrite recent_loop_reference by lia. by rewrite Nat.sub_0_r.
Qed.

(** ** Witnesses *)

Definition history_sample : list search_history :=
  [mk_search 7 "Adani Power" 100; mk_search 7 "adani power" 200; mk_search 8 "Tata" 150;
   mk_search 7 "Infosys" 300].

Lemma record_search_spec_witness :
  record_search history_sample 0 "Tata" 400 = history_sample ∧
  record_search history_sample 7 "  Tata  Steel " 400
  = history_sample ++ [mk_search 7 "Tata Steel" 400].
Proof.
  split.
  - apply (proj1 (record_search_spec history_sample 0 "Tata" 400)). by left.
  - apply (proj2 (record_search_spec history_sample 7 "  Tata  Steel " 400)); done.
Defined.

Lemma record_search_blank_name_witness :
  record_search history_sample 7 "   " 400 = history_sample ++ [mk_search 7 "" 400].
Proof. apply record_search_blank_name; [lia|done|reflexivity]. Defined.

Lemma get_recent_searches_spec_witness :
  get_recent_searches history_sample 7 10 = [("Infosys", 300%Z); ("adani power", 200%Z)] ∧
  length (get_recent_searches history_sample 7 10) ≤ Z.to_nat 10.
Proof.
  split; [reflexivity|]. apply (get_recent_searches_spec history_sample 7 10). lia.
Defined.

Lemma get_recent_searches_nonpositive_limit_witness :
  get_recent_searches history_sample 7 0 = [("Infosys", 300%Z)].
Proof.
  apply (get_recent_searches_nonpositive_limit _ _ _ (mk_search 7 "Infosys" 300)
           [mk_search 7 "adani power" 200; mk_search 7 "Adani Power" 100]); [lia|lia|].
  reflexivity.
Defined.
