(* ===== verification/Dashboard.v ===== *)
(** * The dashboard view ([src/dashboard/views.py], [src/dashboard/forms.py])

    [dashboard_view] reads the user's ten recent searches, takes the
    company to search from the POSTed [CompanySearchForm] or from the
    [?company=] query parameter, and runs [_handle_company_search]:
    [get_company_esg_profile], then [record_search].  An exception of
    the search is turned into a flash message: [str(exc)] for an
    [ESGServiceError], a generic text for any other.

    The state [dash_state] pairs the profile service's state (cache and
    oracle log) with the search-history table; the rendered page is the
    [page] record (recent searches, result, messages).  Both clocks
    ([datetime.utcnow()] in the service, [timezone.now()] in the
    history) are read as the one instant [now].  The [@login_required]
    guard and [redirect_to_dashboard] are modelled in [Site.v], where
    the user id comes from the request's session.

    Theorems: a request without a company leaves the state alone; a
    successful search records exactly the row [record_search] makes and
    the service's state; a failed search records nothing and always
    shows the generic message (the [ESGServiceError] branch is dead);
    the recent searches shown are read before the search is recorded,
    and the next page lists the new search first; a blank [?company=]
    value records an empty company name. *)

From S2P Require Import Prelude Python Sorting Utils Clients Scoring Service History.

(** ** Requests, pages and state *)

(** The request: a POST carries the form's [company_name] field (absent
    or not), a GET the [company] query parameter. *)
Inductive request :=
  | Post (company_name : option string)
  | Get (company : option string).

Record page := mk_page {
  pg_recent : list (string * Z);
  pg_result : option (profile * bool);
  pg_messages : list string
}.

Record dash_state := mk_dash {
  ds_service : state;
  ds_db : list search_history
}.

(** [CompanySearchForm(request.POST).is_valid()] and its [cleaned_data]:
    a required [CharField] strips the value, rejects an empty one and
    one longer than [max_length=255]. *)
Definition form_clean (raw : option string) : option string :=
  match raw with
  | None => None
  | Some s =>
      let v := py_strip s in
      if String.eqb v "" then None
      else if Nat.ltb 255 (String.length v) then None
      else Some v
  end.

(** [searched_company] after the branch on [request.method], lines
    31-43, with the truthiness test of line 50 folded in. *)
Definition searched_company (req : request) : option string :=
  match req with
  | Post raw => form_clean raw
  | Get (Some c) => if String.eqb c "" then None else Some c
  | Get None => None
  end.

Definition unexpected_error_message : string :=
  "An unexpected error occurred while processing the request.".

(** The two [except] clauses of lines 55-60. *)
Definition error_message (e : exn) : string :=
  match e with
  | ESGServiceError msg => msg
  | _ => unexpected_error_message
  end.

Section Dashboard.
Context `{Sha1, FloatLib, DateLib, JsonCodec}.
Variable svc : service.
Variable o : oracle.

Definition handle_company_search (now user_id : Z) (company_name : string) (st : dash_state)
    : res (profile * bool) * dash_state :=
  match get_company_esg_profile svc o now (ds_service st) company_name with
  | (Ok (result, from_cache), sst) =>
      (Ok (result, from_cache), mk_dash sst (record_search (ds_db st) user_id company_name now))
  | (Err e, sst) => (Err e, mk_dash sst (ds_db st))
  end.

Definition dashboard_view (now user_id : Z) (req : request) (st : dash_state)
    : page * dash_state :=
  let recent_searches := get_recent_searches (ds_db st) user_id 10 in
  match searched_company req with
  | None => (mk_page recent_searches None [], st)
  | Some c =>
      match handle_company_search now user_id c st with
      | (Ok r, st') => (mk_page recent_searches (Some r) [], st')
      | (Err e, st') => (mk_page recent_searches None [error_message e], st')
      end
  end.
End Dashboard.

(** ** Lemmas *)

Lemma searched_company_nonempty req c : searched_company req = Some c → c ≠ "".
Proof.
  destruct req as [[s|]|[s|]]; simpl; try discriminate.
  - destruct (String.eqb_spec (py_strip s) "") as [|Hne]; [discriminate|].
    case_match; [discriminate|]. by intros [= <-].
  - destruct (String.eqb_spec s "") as [|Hne]; [discriminate|]. by intros [= <-].
Qed.

(** A row later than all of its user's rows heads that user's searches. *)
Lemma user_searches_snoc_latest db r :
  (∀ x, x ∈ db → sh_user_id x = sh_user_id r → (sh_searched_at x < sh_searched_at r)%Z) →
  user_searches (db ++ [r]) (sh_user_id r) = r :: user_searches db (sh_user_id r).
Proof.
  intros Hlt. unfold user_searches. rewrite List.filter_app. simpl. rewrite Z.eqb_refl.
  rewrite sort_desc_snoc. apply insert_desc_greatest. apply Forall_forall.
  intros y Hy%list_elem_of_In. rewrite sort_desc_perm in Hy.
  apply filter_In in Hy as [Hin Hid%Z.eqb_eq].
  apply Z.ltb_lt, Hlt; [by apply list_elem_of_In|done].
Qed.

(** The page lists the recent searches of the user, read first. *)
Lemma dashboard_view_recent `{Sha1, FloatLib, DateLib, JsonCodec} svc o now u req st pg st' :
  dashboard_view svc o now u req st = (pg, st') → pg_recent pg = get_recent_searches (ds_db st) u 10.
Proof.
  unfold dashboard_view. destruct (searched_company req) as [c|]; [|by intros [= <- _]].
  by destruct (handle_company_search _ _ _ _ _ _) as [[r|e] sst]; intros [= <- _].
Qed.

Section DashboardTheorems.
Context `{Sha1, FloatLib, DateLib, JsonCodec}.
Variable svc : service.
Variable o : oracle.

Lemma dashboard_view_search now u req st c :
  searched_company req = Some c →
  dashboard_view svc o now u req st =
  match get_company_esg_profile svc o now (ds_service st) c with
  | (Ok r, sst) =>
      (mk_page (get_recent_searches (ds_db st) u 10) (Some r) [],
       mk_dash sst (record_search (ds_db st) u c now))
  | (Err e, sst) =>
      (mk_page (get_recent_searches (ds_db st) u 10) None [error_message e], mk_dash sst (ds_db st))
  end.
Proof.
  intros Hs. unfold dashboard_view, handle_company_search. rewrite Hs.
  by destruct (get_company_esg_profile _ _ _ _ _) as [[[p fc]|e] sst].
Qed.
Lemma dashboard_view_ok now u req st c r sst :
  searched_company req = Some c →
  get_company_esg_profile svc o now (ds_service st) c = (Ok r, sst) →
  dashboard_view svc o now u req st =
  (mk_page (get_recent_searches (ds_db st) u 10) (Some r) [],
   mk_dash sst (record_search (ds_db st) u c now)).
Proof. intros Hs Hg. rewrite (dashboard_view_search now u req st c Hs), Hg. done. Qed.

(** a POST whose company name is blank after stripping, or longer
    than 255 characters, fails the form: no search is run, nothing is
    recorded, and the page shows the recent searches only. *)
Theorem dashboard_view_invalid_form now u s st :
  py_strip s = "" ∨ 255 < String.length (py_strip s) →
  dashboard_view svc o now u (Post (Some s)) st
  = (mk_page (get_recent_searches (ds_db st) u 10) None [], st).
Proof.
  intros Hs. unfold dashboard_view. simpl.
  destruct (String.eqb_spec (py_strip s) "") as [|Hne]; [done|].
  destruct Hs as [|Hl]; [done|]. by rewrite (proj2 (Nat.ltb_lt _ _) Hl).
Qed.

(** C20: a successful search shows the profile with its [from_cache]
    flag and no message, moves the service to its new state, and
    records one history row with the normalized name at [now] (none
    for the anonymous user id 0). *)
Theorem dashboard_view_success now u req st c p fc sst :
  searched_company req = Some c →
  get_company_esg_profile svc o now (ds_service st) c = (Ok (p, fc), sst) →
  dashboard_view svc o now u req st =
  (mk_page (get_recent_searches (ds_db st) u 10) (Some (p, fc)) [],
   mk_dash sst (if Z.eqb u 0 then ds_db st
                else ds_db st ++ [mk_search u (normalize_company_name c) now])).
Proof.
  intros Hs Hg. rewrite (dashboard_view_ok now u req st c _ sst Hs Hg).
  destruct (Z.eqb_spec u 0) as [->|Hu]; [done|].
  by rewrite record_search_active by eauto using searched_company_nonempty.
Qed.

(** C19: when the search raises, nothing is recorded and the page shows
    the generic message: [get_company_esg_profile] never raises an
    [ESGServiceError], so the [except ESGServiceError] branch with
    [str(exc)] is never taken. *)
Theorem dashboard_view_error_generic now u req st c e :
  searched_company req = Some c →
  fst (get_company_esg_profile svc o now (ds_service st) c) = Err e →
  dashboard_view svc o now u req st
  = (mk_page (get_recent_searches (ds_db st) u 10) None [unexpected_error_message],
     mk_dash (snd (get_company_esg_profile svc o now (ds_service st) c)) (ds_db st)).
Proof.
  intros Hs Hg. rewrite (dashboard_view_search now u req st c Hs).
  pose proof (get_company_esg_profile_no_service_error svc o now (ds_service st) c e Hg) as He.
  destruct (get_company_esg_profile _ _ _ _ _) as [r sst]. simpl in Hg |- *. subst r.
  by destruct e.
Qed.

(** the recent searches on the page are read before the search is
    recorded, so the current search is not among them; on the next
    page it comes first, when [now] is later than the user's earlier
    searches. *)
Theorem dashboard_view_next_page now u req st c pg st' :
  (u ≠ 0)%Z → searched_company req = Some c →
  (∀ x, x ∈ ds_db st → sh_user_id x = u → (sh_searched_at x < now)%Z) →
  dashboard_view svc o now u req st = (pg, st') → pg_result pg ≠ None →
  pg_recent pg = get_recent_searches (ds_db st) u 10 ∧
  head (get_recent_searches (ds_db st') u 10) = Some (normalize_company_name c, now).
Proof.
  intros Hu Hs Hlt. rewrite (dashboard_view_search now u req st c Hs).
  destruct (get_company_esg_profile _ _ _ _ _) as [[r|e] sst]; intros [= <- <-]; [|done].
  intros _. split; [done|]. simpl.
  rewrite record_search_active by eauto using searched_company_nonempty.
  unfold get_recent_searches. apply Z.eqb_neq in Hu as Hu'. rewrite Hu'.
  pose proof (user_searches_snoc_latest (ds_db st) (mk_search u (normalize_company_name c) now) Hlt)
    as Hq. cbn [sh_user_id] in Hq. by rewrite Hq.
Qed.

(** a [?company=] value made of blanks passes the view's
    truthiness test: the profile of the empty name is looked up, and a
    history row with the empty company name is recorded. *)
Theorem dashboard_view_blank_company now u c st p fc sst :
  (u ≠ 0)%Z → c ≠ "" → normalize_company_name c = "" →
  get_company_esg_profile svc o now (ds_service st) c = (Ok (p, fc), sst) →
  dashboard_view svc o now u (Get (Some c)) st
  = (mk_page (get_recent_searches (ds_db st) u 10) (Some (p, fc)) [],
     mk_dash sst (ds_db st ++ [mk_search u "" now])).
Proof.
  intros Hu Hc Hn Hg. assert (Hs : searched_company (Get (Some c)) = Some c).
  { simpl. by destruct (String.eqb_spec c ""). }
  rewrite (dashboard_view_ok now u _ st c _ sst Hs Hg), record_search_active, Hn by done.
  done.
Qed.
End DashboardTheorems.

(** ** Witnesses *)

Module DashboardSamples.
#[local] Existing Instance identity_digest.
#[local] Instance no_float_strings : FloatLib := {| float_of_string := λ _, None |}.
#[local] Existing Instance sample_dates.
#[local] Instance codec : JsonCodec := table_codec [("ANSWER", FetchSamples.answer_payload)].

Definition offline : oracle := {| openai_installed := true; OPENAI_API_KEY := PNone; respond := λ _, None |}.
Definition answering (text : string) : oracle :=
  {| openai_installed := true; OPENAI_API_KEY := PStr "sk-test"; respond := λ _, Some text |}.
Definition st0 : dash_state := mk_dash (mk_state ∅ []) history_sample.

Lemma dashboard_view_invalid_form_witness :
  dashboard_view default_service offline 1000 7 (Post (Some "   ")) st0
  = (mk_page [("Infosys", 300%Z); ("adani power", 200%Z)] None [], st0).
Proof. apply dashboard_view_invalid_form. left. reflexivity. Defined.

Lemma dashboard_view_success_witness :
  ∃ p sst, dashboard_view default_service offline 1000 7 (Post (Some " Adani  Power ")) st0
    = (mk_page (get_recent_searches history_sample 7 10) (Some (p, false)) [],
       mk_dash sst (history_sample ++ [mk_search 7 "Adani Power" 1000])).
Proof.
  eexists _, _. eapply (dashboard_view_success default_service offline 1000 7 _ st0 "Adani  Power");
    reflexivity.
Defined.

(** The undated article of the answer makes [take_latest] compare naive
    and aware datetimes: a [TypeError], reported generically. *)
Lemma dashboard_view_error_generic_witness :
  ∃ sst, dashboard_view default_service (answering "ANSWER") 1000 7 (Get (Some "Adani Power")) st0
    = (mk_page (get_recent_searches history_sample 7 10) None [unexpected_error_message],
       mk_dash sst history_sample).
Proof.
  eexists. eapply (dashboard_view_error_generic default_service (answering "ANSWER") 1000 7 _ st0
                     "Adani Power" TypeError); reflexivity.
Defined.

Lemma dashboard_view_next_page_witness :
  ∃ pg st', dashboard_view default_service offline 1000 7 (Get (Some "tata  steel")) st0 = (pg, st') ∧
    head (get_recent_searches (ds_db st') 7 10)
    = Some (normalize_company_name "tata  steel", 1000%Z) ∧
    normalize_company_name "tata  steel" = "tata steel".
Proof.
  eexists _, _. split; [reflexivity|]. split; [|reflexivity]. eapply proj2.
  eapply (dashboard_view_next_page default_service offline 1000 7 (Get (Some "tata  steel")) st0
            "tata  steel");
    [lia|reflexivity| |reflexivity|discriminate].
  intros x Hx _. repeat (apply elem_of_cons in Hx as [->|Hx]; [simpl; lia|]).
  by apply not_elem_of_nil in Hx.
Defined.

Lemma dashboard_view_blank_company_witness :
  ∃ p sst, dashboard_view default_service offline 1000 7 (Get (Some "   ")) st0
    = (mk_page (get_recent_searches history_sample 7 10) (Some (p, false)) [],
       mk_dash sst (history_sample ++ [mk_search 7 "" 1000])).
Proof.
  eexists _, _. eapply (dashboard_view_blank_company default_service offline 1000 7 "   " st0);
    [lia|done|reflexivity|reflexivity].
Defined.
End DashboardSamples.
