(* ===== verification/Site.v ===== *)
(** * The site: accounts, the login guard and the dashboard together

    [src/accounts/views.py] signs users up ([SignUpView.form_valid]:
    save the new user, then [login] them) and in ([SignInView], Django's
    [LoginView]); [src/dashboard/views.py] guards [dashboard_view] and
    [redirect_to_dashboard] with [@login_required].  This file puts the
    components together: the state [site] holds the dashboard's state
    (profile service and history table), the user accounts and the
    sessions; [site_handle] answers one request; [site_reachable] is
    the set of states some sequence of requests reaches from the empty
    site.

    The Django machinery the views rely on is modelled from its
    documentation (the code is not under [src/]): a session maps the
    client's session key to a user id, and [request.user] is that user
    or anonymous; a new user gets the next auto-increment id; the
    sign-up form ([accounts/forms.py] is not in the repository) is valid
    when its fields are and the username is not taken.

    Theorems: every reachable state satisfies [site_inv] (well-formed
    cache, unique positive account ids, sessions and history rows
    belong to accounts, history names are normalized); every request
    leaves the history as it was or appends one row, by the
    authenticated user of a dashboard request; a rendered page lists
    only searches of the user its session authenticates; a client that has just
    signed up reaches the dashboard, an anonymous one is sent to the
    login page without any effect. *)

From S2P Require Import Prelude Python Sorting Utils Clients Scoring Service History Dashboard.

(** ** State, requests and responses *)

(** Where a redirect goes: [reverse('dashboard:home')], the login URL. *)
Inductive target := ToDashboard | ToLogin.

Inductive response :=
  | Render (pg : page)
  | RenderSignup
  | RenderLogin
  | Redirect (t : target).

Record account := mk_account {
  acc_id : Z;
  acc_username : string
}.

Record site := mk_site {
  site_dash : dash_state;
  site_accounts : list account;
  site_sessions : list (Z * Z)
}.

Definition empty_site : site := mk_site (mk_dash (mk_state ∅ []) []) [] [].

Inductive site_request :=
  | SignUp (key : Z) (form_ok : bool) (username : string)
  | SignIn (key : Z) (credentials_ok : bool) (username : string)
  | Dashboard (key : Z) (o : oracle) (now : Z) (req : request)
  | Home (key : Z).

(** [request.user]: the user of the session with the client's key. *)
Definition session_user (s : site) (key : Z) : option Z :=
  snd <$> List.find (λ e, Z.eqb e.1 key) (site_sessions s).

(** [login(request, user)]: the client's session now holds [user]. *)
Definition login (s : site) (key uid : Z) : site :=
  mk_site (site_dash s) (site_accounts s) ((key, uid) :: site_sessions s).

(** The auto-increment primary key of a new user. *)
Definition next_id (accs : list account) : Z :=
  (1 + fold_right Z.max 0%Z (acc_id <$> accs))%Z.

Definition username_taken (accs : list account) (username : string) : bool :=
  existsb (λ a, String.eqb (acc_username a) username) accs.

(** [SignUpView]: [CreateView.form_valid] saves the user and redirects
    to [success_url]; [form_valid] of lines 18-21 then logs the new user
    in.  An invalid form renders the sign-up page again. *)
Definition sign_up (key : Z) (form_ok : bool) (username : string) (s : site) : response * site :=
  if form_ok && negb (username_taken (site_accounts s) username) then
    let uid := next_id (site_accounts s) in
    let s1 := mk_site (site_dash s) (site_accounts s ++ [mk_account uid username])
                      (site_sessions s) in
    (Redirect ToDashboard, login s1 key uid)
  else (RenderSignup, s).

(** [SignInView]: Django's [LoginView] logs in the user whose
    credentials check. *)
Definition sign_in (key : Z) (credentials_ok : bool) (username : string) (s : site)
    : response * site :=
  match List.find (λ a, String.eqb (acc_username a) username) (site_accounts s) with
  | Some a => if credentials_ok then (Redirect ToDashboard, login s key (acc_id a))
              else (RenderLogin, s)
  | None => (RenderLogin, s)
  end.

(** [@login_required]: an anonymous request is sent to the login page. *)
Definition login_required {A} (user : option Z) (view : Z → A → response * A) (st : A)
    : response * A :=
  match user with
  | None => (Redirect ToLogin, st)
  | Some u => view u st
  end.

Definition redirect_to_dashboard (u : Z) (s : site) : response * site := (Redirect ToDashboard, s).

Section Site.
Context `{Sha1, FloatLib, DateLib, JsonCodec}.
Variable svc : service.

Definition dashboard_page (o : oracle) (now : Z) (req : request) (u : Z) (s : site)
    : response * site :=
  let '(pg, d') := dashboard_view svc o now u req (site_dash s) in
  (Render pg, mk_site d' (site_accounts s) (site_sessions s)).

Definition site_handle (r : site_request) (s : site) : response * site :=
  match r with
  | SignUp key ok username => sign_up key ok username s
  | SignIn key ok username => sign_in key ok username s
  | Dashboard key o now req => login_required (session_user s key) (dashboard_page o now req) s
  | Home key => login_required (session_user s key) redirect_to_dashboard s
  end.

Inductive site_reachable : site → Prop :=
  | reach_empty : site_reachable empty_site
  | reach_step r s : site_reachable s → site_reachable (snd (site_handle r s)).
End Site.

(** The invariant of the site. *)
Definition site_inv (s : site) : Prop :=
  cache_wf (st_cache (ds_service (site_dash s))) ∧
  NoDup (acc_id <$> site_accounts s) ∧
  Forall (λ a, (0 < acc_id a)%Z) (site_accounts s) ∧
  Forall (λ e, e.2 ∈ acc_id <$> site_accounts s) (site_sessions s) ∧
  Forall (λ row, sh_user_id row ∈ acc_id <$> site_accounts s ∧
                 normalize_company_name (sh_company_name row) = sh_company_name row)
         (ds_db (site_dash s)).

(** ** Lemmas *)

Lemma max_id_bound accs :
  (0 ≤ fold_right Z.max 0%Z (acc_id <$> accs))%Z ∧
  Forall (λ a, (acc_id a ≤ fold_right Z.max 0%Z (acc_id <$> accs))%Z) accs.
Proof.
  induction accs as [|a accs [Hpos IH]]; [split; [simpl; lia|constructor]|].
  rewrite fmap_cons. cbn [fold_right]. rewrite Forall_cons.
  pose proof (Z.le_max_l (acc_id a) (fold_right Z.max 0%Z (acc_id <$> accs))).
  pose proof (Z.le_max_r (acc_id a) (fold_right Z.max 0%Z (acc_id <$> accs))).
  split; [lia|]. split; [lia|]. eapply Forall_impl; [exact IH|]. intros x Hx. cbv beta in Hx. lia.
Qed.

Lemma next_id_fresh accs :
  (0 < next_id accs)%Z ∧ Forall (λ a, (acc_id a < next_id accs)%Z) accs.
Proof.
  unfold next_id. destruct (max_id_bound accs) as [Hpos Hle].
  split; [lia|]. eapply Forall_impl; [exact Hle|]. simpl. lia.
Qed.

Lemma next_id_not_elem accs : next_id accs ∉ acc_id <$> accs.
Proof.
  destruct (next_id_fresh accs) as [_ Hlt]. intros (a & Ha & Hin)%list_elem_of_fmap.
  rewrite Forall_forall in Hlt. specialize (Hlt a Hin). lia.
Qed.

Lemma session_user_elem s key u : session_user s key = Some u → (key, u) ∈ site_sessions s.
Proof.
  unfold session_user. destruct (List.find _ _) as [[k v]|] eqn:Hf; [|done].
  intros [= <-]. apply List.find_some in Hf as [Hin Hk%Z.eqb_eq]. simpl in Hk. subst k.
  by apply list_elem_of_In.
Qed.

Lemma ids_app_elem accs n x : x ∈ acc_id <$> accs → x ∈ acc_id <$> (accs ++ n).
Proof. intros Hx. rewrite fmap_app, elem_of_app. by left. Qed.

Section SiteLemmas.
Context `{Sha1, FloatLib, DateLib, JsonCodec}.
Variable svc : service.

(** What a dashboard request does to the history: at most one row, by
    the user, with a normalized name. *)
Lemma dashboard_view_db o now u req st :
  ∃ rows, ds_db (snd (dashboard_view svc o now u req st)) = ds_db st ++ rows ∧
    length rows ≤ 1 ∧
    Forall (λ row, sh_user_id row = u ∧ (u ≠ 0)%Z ∧
                   ∃ c, sh_company_name row = normalize_company_name c) rows.
Proof.
  assert (Hnil : ds_db st = ds_db st ++ [] ∧ length (@nil search_history) ≤ 1 ∧
                 Forall (λ row, sh_user_id row = u ∧ (u ≠ 0)%Z ∧
                                ∃ c, sh_company_name row = normalize_company_name c) [])
    by (rewrite app_nil_r; split_and!; [done|simpl; lia|constructor]).
  unfold dashboard_view, handle_company_search.
  destruct (searched_company req) as [c|]; simpl; [|eauto].
  destruct (get_company_esg_profile _ _ _ _ _) as [[[p fc]|e] sst]; simpl; [|eauto].
  unfold record_search. destruct (Z.eqb_spec u 0), (String.eqb c "") eqn:Hce; simpl; eauto.
  exists [mk_search u (normalize_company_name c) now]. split_and!; [done|simpl; lia|].
  repeat constructor; eauto.
Qed.

Lemma dashboard_view_cache_wf o now u req st :
  cache_wf (st_cache (ds_service st)) →
  cache_wf (st_cache (ds_service (snd (dashboard_view svc o now u req st)))).
Proof.
  intros Hwf. unfold dashboard_view, handle_company_search.
  destruct (searched_company req) as [c|]; simpl; [|done].
  pose proof (get_company_esg_profile_cache_wf svc o now (ds_service st) c Hwf) as Hc.
  by destruct (get_company_esg_profile _ _ _ _ _) as [[[p fc]|e] sst].
Qed.
End SiteLemmas.

Lemma site_inv_empty : site_inv empty_site.
Proof. split; [apply map_Forall_empty|]. split_and!; constructor. Qed.

(** The history rows a request adds, in terms of the dashboard's. *)
Lemma site_handle_db_cases `{Sha1, FloatLib, DateLib, JsonCodec} svc r s :
  ds_db (site_dash (snd (site_handle svc r s))) = ds_db (site_dash s) ∨
  ∃ key o now req u, r = Dashboard key o now req ∧ session_user s key = Some u ∧
    ds_db (site_dash (snd (site_handle svc r s)))
    = ds_db (snd (dashboard_view svc o now u req (site_dash s))).
Proof.
  destruct r as [key ok name|key ok name|key o now req|key]; simpl.
  - unfold sign_up. destruct (_ && _); by left.
  - unfold sign_in. destruct (List.find _ _) as [a|]; [destruct ok|]; by left.
  - unfold login_required. destruct (session_user s key) as [u|] eqn:Hu; [|by left].
    right. exists key, o, now, req, u. split_and!; [done|done|].
    unfold dashboard_page. by destruct (dashboard_view _ _ _ _ _ _).
  - unfold login_required, redirect_to_dashboard. by destruct (session_user s key); left.
Qed.

Section SiteTheorems.
Context `{Sha1, FloatLib, DateLib, JsonCodec}.
Variable svc : service.

(** C12: in every state the site can reach, the cache holds only
    well-formed profiles, account ids are positive and distinct, every
    session and every history row belongs to an account, and every
    recorded company name is normalized. *)
Theorem site_reachable_inv s : site_reachable svc s → site_inv s.
Proof.
  induction 1 as [|r s _ (Hc & Hnd & Hpos & Hses & Hdb)]; [apply site_inv_empty|].
  destruct r as [key ok name|key ok name|key o now req|key]; simpl.
  - unfold sign_up. destruct (_ && _); [|done].
    unfold login, site_inv. cbn [snd site_dash site_accounts site_sessions].
    destruct (next_id_fresh (site_accounts s)) as [Hp _].
    split_and!; [done| | | |].
    + rewrite fmap_app. apply NoDup_app. split_and!; [done| |apply NoDup_singleton].
      intros x Hx ->%list_elem_of_singleton. by apply next_id_not_elem in Hx.
    + apply Forall_app. split; [done|]. by constructor.
    + constructor; [simpl; rewrite fmap_app, elem_of_app; right; by left|].
      eapply Forall_impl; [exact Hses|]. intros e. apply ids_app_elem.
    + eapply Forall_impl; [exact Hdb|]. intros row [Hin Hn]. split; [by apply ids_app_elem|done].
  - unfold sign_in. destruct (List.find _ _) as [a|] eqn:Hf; [destruct ok|]; try done.
    apply List.find_some in Hf as [Hin _].
    unfold login, site_inv. cbn [snd site_dash site_accounts site_sessions]. split_and!; try done.
    constructor; [|done]. simpl. apply list_elem_of_fmap_2. by apply list_elem_of_In.
  - unfold login_required. destruct (session_user s key) as [u|] eqn:Hu; [|done].
    assert (Hu' : u ∈ acc_id <$> site_accounts s).
    { apply session_user_elem in Hu. rewrite Forall_forall in Hses. exact (Hses _ Hu). }
    pose proof (dashboard_view_cache_wf svc o now u req (site_dash s) Hc) as Hc'.
    destruct (dashboard_view_db svc o now u req (site_dash s)) as (rows & Hrows & _ & Hr).
    unfold dashboard_page. destruct (dashboard_view _ _ _ _ _ _) as [pg d']. simpl in *.
    unfold site_inv. cbn [site_dash site_accounts site_sessions].
    split_and!; try done. rewrite Hrows. apply Forall_app. split; [done|].
    eapply Forall_impl; [exact Hr|]. intros row (-> & _ & c & ->). split; [done|].
    apply normalize_canonical_id, canonical_name_normalize.
  - unfold login_required, redirect_to_dashboard. by destruct (session_user s key).
Qed.

(** C14: the search history is append-only: any request leaves it as it
    was or appends one row, and a row is only ever added by a dashboard
    request, for the user authenticated by that request's session. *)
Theorem site_handle_history r s :
  ∃ rows, ds_db (site_dash (snd (site_handle svc r s))) = ds_db (site_dash s) ++ rows ∧
    length rows ≤ 1 ∧
    Forall (λ row, ∃ key o now req, r = Dashboard key o now req ∧
                   session_user s key = Some (sh_user_id row)) rows.
Proof.
  destruct (site_handle_db_cases svc r s) as [->|(key & o & now & req & u & -> & Hu & ->)].
  { exists []. rewrite app_nil_r. split_and!; [done|simpl; lia|constructor]. }
  destruct (dashboard_view_db svc o now u req (site_dash s)) as (rows & -> & Hlen & Hr).
  exists rows. split_and!; [done|done|]. eapply Forall_impl; [exact Hr|].
  intros row (Hid & _ & _). exists key, o, now, req. by rewrite Hid.
Qed.

(** C15: a dashboard page is only rendered for a dashboard request whose
    session authenticates a user, and every recent search it lists is a
    row of that user's own history: no client sees another user's
    searches. *)
Theorem site_page_recent_own r s pg s' :
  site_handle svc r s = (Render pg, s') →
  ∃ key o now req u, r = Dashboard key o now req ∧ session_user s key = Some u ∧
    ∀ e, e ∈ pg_recent pg → ∃ row, row ∈ ds_db (site_dash s) ∧ sh_user_id row = u ∧
      e = (sh_company_name row, sh_searched_at row).
Proof.
  destruct r as [key ok name|key ok name|key o now req|key]; simpl.
  - unfold sign_up. by destruct (_ && _).
  - unfold sign_in. by destruct (List.find _ _) as [a|]; [destruct ok|].
  - unfold login_required. destruct (session_user s key) as [u|] eqn:Hu; [|done].
    unfold dashboard_page. destruct (dashboard_view _ _ _ _ _ _) as [pg' d'] eqn:Hd.
    intros [= <- _]. exists key, o, now, req, u. split_and!; [done|done|].
    intros e. rewrite (dashboard_view_recent _ _ _ _ _ _ _ _ Hd). apply get_recent_searches_owned.
  - unfold login_required, redirect_to_dashboard. by destruct (session_user s key).
Qed.

(** a client that signs up with a free username is redirected to
    the dashboard, logged in as the new user, and its next dashboard
    request is served as that user; a client whose session key holds
    no user is sent to the login page, with no effect on the state. *)
Theorem site_signup_then_dashboard s key username o now req key' :
  username_taken (site_accounts s) username = false →
  session_user s key' = None →
  let s1 := snd (site_handle svc (SignUp key true username) s) in
  fst (site_handle svc (SignUp key true username) s) = Redirect ToDashboard ∧
  session_user s1 key = Some (next_id (site_accounts s)) ∧
  site_handle svc (Dashboard key o now req) s1
  = dashboard_page svc o now req (next_id (site_accounts s)) s1 ∧
  site_handle svc (Dashboard key' o now req) s = (Redirect ToLogin, s) ∧
  site_handle svc (Home key') s = (Redirect ToLogin, s).
Proof.
  intros Hfree Hanon. simpl. unfold sign_up. rewrite Hfree. simpl.
  unfold session_user at 1 2. simpl. rewrite Z.eqb_refl. simpl.
  unfold login_required. by rewrite Hanon.
Qed.
End SiteTheorems.

(** ** Witnesses: a user signs up and searches *)

Module SiteSamples.
#[local] Existing Instance identity_digest.
#[local] Instance no_float_strings : FloatLib := {| float_of_string := λ _, None |}.
#[local] Existing Instance sample_dates.
#[local] Instance codec : JsonCodec := table_codec [].

Definition offline : oracle := {| openai_installed := true; OPENAI_API_KEY := PNone; respond := λ _, None |}.

Definition s1 : site := snd (site_handle default_service (SignUp 1 true "asha") empty_site).
Definition s2 : site :=
  snd (site_handle default_service (Dashboard 1 offline 1000 (Get (Some " Adani  Power"))) s1).

Lemma site_reachable_inv_witness : site_reachable default_service s2 ∧ site_inv s2.
Proof.
  assert (Hr : site_reachable default_service s2).
  { unfold s2. apply reach_step. unfold s1. apply reach_step. apply reach_empty. }
  split; [exact Hr|]. exact (site_reachable_inv default_service s2 Hr).
Defined.

Lemma site_handle_history_witness :
  ds_db (site_dash s2) = [mk_search 1 "Adani Power" 1000] ∧
  ∃ rows, ds_db (site_dash s2) = ds_db (site_dash s1) ++ rows ∧ length rows ≤ 1 ∧
    Forall (λ row, ∃ key o now req,
              Dashboard 1 offline 1000 (Get (Some " Adani  Power")) = Dashboard key o now req ∧
              session_user s1 key = Some (sh_user_id row)) rows.
Proof. split; [reflexivity|]. apply site_handle_history. Defined.

Lemma site_signup_then_dashboard_witness :
  username_taken [] "asha" = false ∧ session_user empty_site 9 = None ∧
  session_user s1 1 = Some (next_id []) ∧
  site_handle default_service (Dashboard 9 offline 1000 (Get None)) empty_site
  = (Redirect ToLogin, empty_site).
Proof.
  destruct (site_signup_then_dashboard default_service empty_site 1 "asha" offline 1000 (Get None) 9
              eq_refl eq_refl) as (_ & Hs & _ & Hanon & _).
  split_and!; [reflexivity|reflexivity|exact Hs|exact Hanon].
Defined.
Lemma site_page_recent_own_witness :
  ∃ pg s', site_handle default_service (Dashboard 1 offline 2000 (Get None)) s2 = (Render pg, s') ∧
    pg_recent pg = [("Adani Power", 1000%Z)] ∧
    ∃ key o now req u, Dashboard 1 offline 2000 (Get None) = Dashboard key o now req ∧
      session_user s2 key = Some u ∧
      ∀ e, e ∈ pg_recent pg → ∃ row, row ∈ ds_db (site_dash s2) ∧ sh_user_id row = u ∧
        e = (sh_company_name row, sh_searched_at row).
Proof.
  destruct (site_handle default_service (Dashboard 1 offline 2000 (Get None)) s2) as [[pg| | |] s'] eqn:Hr;
    try (vm_compute in Hr; discriminate Hr).
  exists pg, s'. split; [done|]. split.
  - vm_compute in Hr. injection Hr as <- _. reflexivity.
  - exact (site_page_recent_own default_service _ _ pg s' Hr).
Defined.
End SiteSamples.
